(** * Analyze: the document-analysis workflow of [pages/Analyze.tsx]

    A shallow embedding of the workflow engine that lives inside the
    [Analyze] React component: its [useState] cells, the TanStack Query
    client it writes through, the six mutations with their callbacks, the
    three effects and the event handlers.  Every handler, callback and
    effect of the component is a function [Analyze -> Analyze] on one record
    that holds the component state together with the query cache, the
    notifications raised so far and the log of what went over the wire.

    Strings are [string], read as the UTF-8 bytes of the JavaScript string.
    JavaScript truthiness is written out where the source relies on it, and
    so is what indexing a plain object finds.

    From the libraries the embedding takes this much.  React runs the
    effects of a commit in the order they are declared, each reading the
    state of its render, and runs an effect again when one of its
    dependencies has changed.  TanStack Query keeps the data of a query under
    its key when the component is unmounted (for how long is not modelled),
    keeps the object it holds when a response is equal to it, fetches a query that is mounted with stale data
    (by default all data is stale at once), and calls the callbacks of a
    mutation as they are in the latest render. *)

From Stdlib Require Import ZArith Ascii String List.
From stdpp Require Import base tactics option list strings gmap pretty.

Local Open Scope string_scope.
Local Open Scope Z_scope.
Local Open Scope list_scope.

(** ** JavaScript values *)

Module JS.

(** Truthiness of a string: every string but the empty one. *)
Definition truthy_string (x : string) : bool := negb (String.eqb x "").

(** Truthiness of [string | undefined]. *)
Definition truthy_ostring (x : option string) : bool :=
  match x with Some v => truthy_string v | None => false end.

(** Truthiness of [number | undefined] (no NaN: the numbers come from JSON). *)
Definition truthy_onumber (x : option Z) : bool :=
  match x with Some n => negb (n =? 0)%Z | None => false end.

(** Truthiness of [boolean | undefined]. *)
Definition truthy_obool (x : option bool) : bool :=
  match x with Some b => b | None => false end.

(** [a || b] on strings. *)
Definition or_string (a : option string) (b : string) : string :=
  match a with Some v => if truthy_string v then v else b | None => b end.

(** White space and line terminators, which [String.prototype.trim]
    strips, by the length of their UTF-8 encoding.
    One byte: TAB, LF, VT, FF, CR, SP. *)
Definition whiteSpace1 (a : ascii) : bool :=
  let a := N_of_ascii a in
  ((9 <=? a) && (a <=? 13) || (a =? 32))%N.

(** Two bytes: U+00A0 (C2 A0). *)
Definition whiteSpace2 (a b : ascii) : bool :=
  let a := N_of_ascii a in
  let b := N_of_ascii b in
  ((a =? 194) && (b =? 160))%N.

(** Three bytes: U+1680 (E1 9A 80), U+2000 to U+200A (E2 80 80 to 8A),
    U+2028, U+2029, U+202F (E2 80 A8, A9, AF), U+205F (E2 81 9F),
    U+3000 (E3 80 80), U+FEFF (EF BB BF). *)
Definition whiteSpace3 (a b c : ascii) : bool :=
  let a := N_of_ascii a in
  let b := N_of_ascii b in
  let c := N_of_ascii c in
  ((a =? 225) && (b =? 154) && (c =? 128)
   || (a =? 226) && (b =? 128)
      && ((128 <=? c) && (c <=? 138) || (c =? 168) || (c =? 169) || (c =? 175))
   || (a =? 226) && (b =? 129) && (c =? 159)
   || (a =? 227) && (b =? 128) && (c =? 128)
   || (a =? 239) && (b =? 187) && (c =? 191))%N.

(** Strips the white space at the front of [x]; with [fwd] false, [x] is
    read back to front, so the bytes of a character come in reverse. *)
Fixpoint strip (fwd : bool) (x : string) : string :=
  match x with
  | EmptyString => EmptyString
  | String a r =>
      if whiteSpace1 a then strip fwd r
      else
        match r with
        | String b r' =>
            if (if fwd then whiteSpace2 a b else whiteSpace2 b a) then strip fwd r'
            else
              match r' with
              | String c r'' =>
                  if (if fwd then whiteSpace3 a b c else whiteSpace3 c b a)
                  then strip fwd r''
                  else x
              | EmptyString => x
              end
        | EmptyString => x
        end
  end.

Definition trimStart (x : string) : string := strip true x.

Definition trimEnd (x : string) : string := String.rev (strip false (String.rev x)).

Definition trim (x : string) : string := trimEnd (trimStart x).

(** [arr.slice(0, -1)]: all but the last element. *)
Definition slice_0_m1 {A} (l : list A) : list A := removelast l.

End JS.

(** ** Plain objects

    [generatedContent] and [contentLoadingState] are plain objects used as
    maps from topic names.  Indexing a plain object finds what is stored
    under the name and, when nothing is, what [Object.prototype] has under
    it.  So the content read for a topic is a string or, for a topic named
    after a member of [Object.prototype] with nothing stored, that member: a
    built-in function ([Object.prototype] itself for [__proto__]).  The
    handlers pass on what they read, so the cells and requests that the
    interfaces type as [string] hold a [Content]. *)

Inductive Content :=
| Text (s : string)
| Member (name : string).            (* [Object.prototype[name]] *)

Coercion Text : string >-> Content.

#[global] Instance Content_eq_dec : EqDecision Content.
Proof. solve_decision. Defined.

(** The property names of [Object.prototype] (ECMA-262, with Annex B). *)
Definition objectPrototype : list string :=
  [ "constructor"; "hasOwnProperty"; "isPrototypeOf"; "propertyIsEnumerable";
    "toLocaleString"; "toString"; "valueOf"; "__proto__";
    "__defineGetter__"; "__defineSetter__"; "__lookupGetter__"; "__lookupSetter__" ].

Definition inherited (k : string) : bool := existsb (String.eqb k) objectPrototype.

(** Truthiness of a content: a member is an object, and truthy. *)
Definition truthy_content (c : Content) : bool :=
  match c with Text v => JS.truthy_string v | Member _ => true end.

Definition truthy_ocontent (x : option Content) : bool :=
  match x with Some c => truthy_content c | None => false end.

(** [obj[k]], where [own] holds what was stored in the object. *)
Definition index (own : gmap string Content) (k : string) : option Content :=
  match own !! k with
  | Some v => Some v
  | None => if inherited k then Some (Member k) else None
  end.

(** [obj[k] = v].  Under [__proto__] the assignment goes to the setter of
    [Object.prototype] and stores nothing: the setter ignores a string, and
    the member that is held under this name is [Object.prototype], which is
    the prototype of the object already.  The object literals
    [{...prev, [k]: v}] of the mutations define the property whatever the
    name is: they are plain insertions. *)
Definition assign (k : string) (v : Content) (own : gmap string Content)
    : gmap string Content :=
  if String.eqb k "__proto__" then own else <[k := v]> own.

(** ** Data model (the interfaces at the top of the file) *)

Record DocumentStatus := {
  status : string;
  message : string;
  pages : option Z;
  progress : option Z
}.

#[global] Instance DocumentStatus_eq_dec : EqDecision DocumentStatus.
Proof. solve_decision. Defined.

Record ScopeData := {
  scope_text : string;
  source_pages : list Z;
  is_confirmed : bool;
  is_complete : option bool
}.

#[global] Instance ScopeData_eq_dec : EqDecision ScopeData.
Proof. solve_decision. Defined.

(** [Topic]. The fields [id], [number], [level], [status], [page] and
    [is_confirmed] of the interface carry a [topic_] prefix here; [text] is
    the key every lookup uses. *)
Record Topic := {
  topic_id : option Z;
  topic_number : option string;
  text : string;
  topic_level : option Z;
  topic_status : option string;
  topic_page : option Z;
  topic_is_confirmed : option bool
}.

(** A topic as the topic-generation endpoint sends it: [text] may be absent. *)
Record TopicJson := {
  json_id : option Z;
  json_number : option string;
  json_text : option string;
  json_level : option Z;
  json_status : option string;
  json_page : option Z;
  json_is_confirmed : option bool
}.

Inductive Role := user | assistant.

Record ChatMessage := { role : Role; content : string }.

(** Response bodies of the generation and chat endpoints. *)
Record GeneratedContentData := { gc_content : string; gc_topic : option string }.
Record GeneratedTopicsData := { topics : option (list TopicJson) }.
Record ChatData := { response : string }.

(** A settled promise: the data, or the [Error] with its message. *)
Inductive Result (A : Type) :=
| Ok (data : A)
| Err (error_message : string).
Arguments Ok {A} data.
Arguments Err {A} error_message.

(** ** The remote operations of [lib/apiService] *)

Inductive ApiCall :=
| getDocumentStatusAPI (filename : option string)
| extractDocumentScopeAPI (filename : option string) (cache : bool)
| confirmDocumentScopeAPI (filename : option string) (pageNumbers : list Z)
| generateTopicsAPI (documentName : option string) (templateName : string)
| generateContentAPI (documentName : option string) (templateName topic : string)
| chatWithDocumentAPI (documentName : option string) (templateName message : string)
    (history : list ChatMessage)
| saveDocumentContentAPI (filename : string) (topicId : Z) (content : Content).

(** ** The query client

    One store, keyed by arrays such as [["documentScope", docId]]; the
    component only ever calls [setQueryData] and [getQueryData] on these
    keys.  A value remembers which kind of data was stored. *)

Inductive QueryData :=
| QScope (d : ScopeData)
| QTopics (d : list Topic)
| QContent (d : Content)
| QChat (d : list ChatMessage).

Abbreviation QueryKey := (list (option string)).

Definition documentStatusKey (docId : option string) : QueryKey :=
  [Some "documentStatus"; docId].
Definition documentScopeKey (docId : option string) : QueryKey :=
  [Some "documentScope"; docId].
Definition generatedTopicsKey (docId : option string) (tpl : string) : QueryKey :=
  [Some "generatedTopics"; docId; Some tpl].
Definition generatedContentKey (docId : option string) (tpl topicKey : string) : QueryKey :=
  [Some "generatedContent"; docId; Some tpl; Some topicKey].
Definition chatHistoryKey (docId : option string) (tpl : string) : QueryKey :=
  [Some "chatHistory"; docId; Some tpl].

(** ** Notifications and the wire log *)

Inductive ToastKind := success | error | info.
Record Toast := mkToast { kind : ToastKind; toast_message : string }.

(** What the component does that is visible outside it, in order: requests
    sent, responses delivered to a mutation or to the status query, reads of
    the query cache, and the timer the status query arms between polls. *)
Inductive Event :=
| Request (c : ApiCall)
| Response (c : ApiCall) (ok : bool)
| CacheRead (k : QueryKey)
| Timer (ms : Z).

(** ** Mutation observers

    [useMutation] hands the component the state of the mutation most recently
    started through it; [isPending] is that mutation's state. *)

Inductive MutationStatus := idle | pending | succeeded | failed.

Record MutationObserver := {
  started : nat;            (* mutations started so far; the last is observed *)
  observed : MutationStatus
}.

Definition isPending (m : MutationObserver) : bool :=
  match observed m with pending => true | _ => false end.

(** ** Component state *)

Record Analyze := mkAnalyze {
  docId : option string;
  selectedTemplate : string;
  analysisStep : Z;
  scopeData : option ScopeData;
  generatedTopics : list Topic;
  generatedContent : gmap string Content;
  contentLoadingState : gmap string bool;
  chatHistory : list ChatMessage;
  currentChatMessage : string;
  isBatchGeneratingRef : bool;
  isModalOpen : bool;
  currentTopicForModal : option Topic;
  modalContent : Content;
  isGeneratingAll : bool;
  documentStatus : option DocumentStatus;
  generateContentMutation : MutationObserver;
  queryClient : gmap (list (option string)) QueryData;
  toasts : list Toast;
  trace : list Event
}.

Definition setDocId (v : option string) (s : Analyze) : Analyze :=
  {| docId := v; selectedTemplate := selectedTemplate s;
     analysisStep := analysisStep s; scopeData := scopeData s;
     generatedTopics := generatedTopics s;
     generatedContent := generatedContent s;
     contentLoadingState := contentLoadingState s;
     chatHistory := chatHistory s;
     currentChatMessage := currentChatMessage s;
     isBatchGeneratingRef := isBatchGeneratingRef s;
     isModalOpen := isModalOpen s;
     currentTopicForModal := currentTopicForModal s;
     modalContent := modalContent s; isGeneratingAll := isGeneratingAll s;
     documentStatus := documentStatus s;
     generateContentMutation := generateContentMutation s;
     queryClient := queryClient s; toasts := toasts s; trace := trace s |}.

Definition setSelectedTemplate (v : string) (s : Analyze) : Analyze :=
  {| docId := docId s; selectedTemplate := v; analysisStep := analysisStep s;
     scopeData := scopeData s; generatedTopics := generatedTopics s;
     generatedContent := generatedContent s;
     contentLoadingState := contentLoadingState s;
     chatHistory := chatHistory s;
     currentChatMessage := currentChatMessage s;
     isBatchGeneratingRef := isBatchGeneratingRef s;
     isModalOpen := isModalOpen s;
     currentTopicForModal := currentTopicForModal s;
     modalContent := modalContent s; isGeneratingAll := isGeneratingAll s;
     documentStatus := documentStatus s;
     generateContentMutation := generateContentMutation s;
     queryClient := queryClient s; toasts := toasts s; trace := trace s |}.

Definition setAnalysisStep (v : Z) (s : Analyze) : Analyze :=
  {| docId := docId s; selectedTemplate := selectedTemplate s;
     analysisStep := v; scopeData := scopeData s;
     generatedTopics := generatedTopics s;
     generatedContent := generatedContent s;
     contentLoadingState := contentLoadingState s;
     chatHistory := chatHistory s;
     currentChatMessage := currentChatMessage s;
     isBatchGeneratingRef := isBatchGeneratingRef s;
     isModalOpen := isModalOpen s;
     currentTopicForModal := currentTopicForModal s;
     modalContent := modalContent s; isGeneratingAll := isGeneratingAll s;
     documentStatus := documentStatus s;
     generateContentMutation := generateContentMutation s;
     queryClient := queryClient s; toasts := toasts s; trace := trace s |}.

Definition setScopeData (v : option ScopeData) (s : Analyze) : Analyze :=
  {| docId := docId s; selectedTemplate := selectedTemplate s;
     analysisStep := analysisStep s; scopeData := v;
     generatedTopics := generatedTopics s;
     generatedContent := generatedContent s;
     contentLoadingState := contentLoadingState s;
     chatHistory := chatHistory s;
     currentChatMessage := currentChatMessage s;
     isBatchGeneratingRef := isBatchGeneratingRef s;
     isModalOpen := isModalOpen s;
     currentTopicForModal := currentTopicForModal s;
     modalContent := modalContent s; isGeneratingAll := isGeneratingAll s;
     documentStatus := documentStatus s;
     generateContentMutation := generateContentMutation s;
     queryClient := queryClient s; toasts := toasts s; trace := trace s |}.

Definition setGeneratedTopics (v : list Topic) (s : Analyze) : Analyze :=
  {| docId := docId s; selectedTemplate := selectedTemplate s;
     analysisStep := analysisStep s; scopeData := scopeData s;
     generatedTopics := v; generatedContent := generatedContent s;
     contentLoadingState := contentLoadingState s;
     chatHistory := chatHistory s;
     currentChatMessage := currentChatMessage s;
     isBatchGeneratingRef := isBatchGeneratingRef s;
     isModalOpen := isModalOpen s;
     currentTopicForModal := currentTopicForModal s;
     modalContent := modalContent s; isGeneratingAll := isGeneratingAll s;
     documentStatus := documentStatus s;
     generateContentMutation := generateContentMutation s;
     queryClient := queryClient s; toasts := toasts s; trace := trace s |}.

Definition setGeneratedContent (v : gmap string Content) (s : Analyze) : Analyze :=
  {| docId := docId s; selectedTemplate := selectedTemplate s;
     analysisStep := analysisStep s; scopeData := scopeData s;
     generatedTopics := generatedTopics s; generatedContent := v;
     contentLoadingState := contentLoadingState s;
     chatHistory := chatHistory s;
     currentChatMessage := currentChatMessage s;
     isBatchGeneratingRef := isBatchGeneratingRef s;
     isModalOpen := isModalOpen s;
     currentTopicForModal := currentTopicForModal s;
     modalContent := modalContent s; isGeneratingAll := isGeneratingAll s;
     documentStatus := documentStatus s;
     generateContentMutation := generateContentMutation s;
     queryClient := queryClient s; toasts := toasts s; trace := trace s |}.

Definition setContentLoadingState (v : gmap string bool) (s : Analyze) : Analyze :=
  {| docId := docId s; selectedTemplate := selectedTemplate s;
     analysisStep := analysisStep s; scopeData := scopeData s;
     generatedTopics := generatedTopics s;
     generatedContent := generatedContent s; contentLoadingState := v;
     chatHistory := chatHistory s;
     currentChatMessage := currentChatMessage s;
     isBatchGeneratingRef := isBatchGeneratingRef s;
     isModalOpen := isModalOpen s;
     currentTopicForModal := currentTopicForModal s;
     modalContent := modalContent s; isGeneratingAll := isGeneratingAll s;
     documentStatus := documentStatus s;
     generateContentMutation := generateContentMutation s;
     queryClient := queryClient s; toasts := toasts s; trace := trace s |}.

Definition setChatHistory (v : list ChatMessage) (s : Analyze) : Analyze :=
  {| docId := docId s; selectedTemplate := selectedTemplate s;
     analysisStep := analysisStep s; scopeData := scopeData s;
     generatedTopics := generatedTopics s;
     generatedContent := generatedContent s;
     contentLoadingState := contentLoadingState s; chatHistory := v;
     currentChatMessage := currentChatMessage s;
     isBatchGeneratingRef := isBatchGeneratingRef s;
     isModalOpen := isModalOpen s;
     currentTopicForModal := currentTopicForModal s;
     modalContent := modalContent s; isGeneratingAll := isGeneratingAll s;
     documentStatus := documentStatus s;
     generateContentMutation := generateContentMutation s;
     queryClient := queryClient s; toasts := toasts s; trace := trace s |}.

Definition setCurrentChatMessage (v : string) (s : Analyze) : Analyze :=
  {| docId := docId s; selectedTemplate := selectedTemplate s;
     analysisStep := analysisStep s; scopeData := scopeData s;
     generatedTopics := generatedTopics s;
     generatedContent := generatedContent s;
     contentLoadingState := contentLoadingState s;
     chatHistory := chatHistory s; currentChatMessage := v;
     isBatchGeneratingRef := isBatchGeneratingRef s;
     isModalOpen := isModalOpen s;
     currentTopicForModal := currentTopicForModal s;
     modalContent := modalContent s; isGeneratingAll := isGeneratingAll s;
     documentStatus := documentStatus s;
     generateContentMutation := generateContentMutation s;
     queryClient := queryClient s; toasts := toasts s; trace := trace s |}.

Definition setIsBatchGeneratingRef (v : bool) (s : Analyze) : Analyze :=
  {| docId := docId s; selectedTemplate := selectedTemplate s;
     analysisStep := analysisStep s; scopeData := scopeData s;
     generatedTopics := generatedTopics s;
     generatedContent := generatedContent s;
     contentLoadingState := contentLoadingState s;
     chatHistory := chatHistory s;
     currentChatMessage := currentChatMessage s; isBatchGeneratingRef := v;
     isModalOpen := isModalOpen s;
     currentTopicForModal := currentTopicForModal s;
     modalContent := modalContent s; isGeneratingAll := isGeneratingAll s;
     documentStatus := documentStatus s;
     generateContentMutation := generateContentMutation s;
     queryClient := queryClient s; toasts := toasts s; trace := trace s |}.

Definition setIsModalOpen (v : bool) (s : Analyze) : Analyze :=
  {| docId := docId s; selectedTemplate := selectedTemplate s;
     analysisStep := analysisStep s; scopeData := scopeData s;
     generatedTopics := generatedTopics s;
     generatedContent := generatedContent s;
     contentLoadingState := contentLoadingState s;
     chatHistory := chatHistory s;
     currentChatMessage := currentChatMessage s;
     isBatchGeneratingRef := isBatchGeneratingRef s; isModalOpen := v;
     currentTopicForModal := currentTopicForModal s;
     modalContent := modalContent s; isGeneratingAll := isGeneratingAll s;
     documentStatus := documentStatus s;
     generateContentMutation := generateContentMutation s;
     queryClient := queryClient s; toasts := toasts s; trace := trace s |}.

Definition setCurrentTopicForModal (v : option Topic) (s : Analyze) : Analyze :=
  {| docId := docId s; selectedTemplate := selectedTemplate s;
     analysisStep := analysisStep s; scopeData := scopeData s;
     generatedTopics := generatedTopics s;
     generatedContent := generatedContent s;
     contentLoadingState := contentLoadingState s;
     chatHistory := chatHistory s;
     currentChatMessage := currentChatMessage s;
     isBatchGeneratingRef := isBatchGeneratingRef s;
     isModalOpen := isModalOpen s; currentTopicForModal := v;
     modalContent := modalContent s; isGeneratingAll := isGeneratingAll s;
     documentStatus := documentStatus s;
     generateContentMutation := generateContentMutation s;
     queryClient := queryClient s; toasts := toasts s; trace := trace s |}.

Definition setModalContent (v : Content) (s : Analyze) : Analyze :=
  {| docId := docId s; selectedTemplate := selectedTemplate s;
     analysisStep := analysisStep s; scopeData := scopeData s;
     generatedTopics := generatedTopics s;
     generatedContent := generatedContent s;
     contentLoadingState := contentLoadingState s;
     chatHistory := chatHistory s;
     currentChatMessage := currentChatMessage s;
     isBatchGeneratingRef := isBatchGeneratingRef s;
     isModalOpen := isModalOpen s;
     currentTopicForModal := currentTopicForModal s; modalContent := v;
     isGeneratingAll := isGeneratingAll s;
     documentStatus := documentStatus s;
     generateContentMutation := generateContentMutation s;
     queryClient := queryClient s; toasts := toasts s; trace := trace s |}.

Definition setIsGeneratingAll (v : bool) (s : Analyze) : Analyze :=
  {| docId := docId s; selectedTemplate := selectedTemplate s;
     analysisStep := analysisStep s; scopeData := scopeData s;
     generatedTopics := generatedTopics s;
     generatedContent := generatedContent s;
     contentLoadingState := contentLoadingState s;
     chatHistory := chatHistory s;
     currentChatMessage := currentChatMessage s;
     isBatchGeneratingRef := isBatchGeneratingRef s;
     isModalOpen := isModalOpen s;
     currentTopicForModal := currentTopicForModal s;
     modalContent := modalContent s; isGeneratingAll := v;
     documentStatus := documentStatus s;
     generateContentMutation := generateContentMutation s;
     queryClient := queryClient s; toasts := toasts s; trace := trace s |}.

Definition setDocumentStatus (v : option DocumentStatus) (s : Analyze) : Analyze :=
  {| docId := docId s; selectedTemplate := selectedTemplate s;
     analysisStep := analysisStep s; scopeData := scopeData s;
     generatedTopics := generatedTopics s;
     generatedContent := generatedContent s;
     contentLoadingState := contentLoadingState s;
     chatHistory := chatHistory s;
     currentChatMessage := currentChatMessage s;
     isBatchGeneratingRef := isBatchGeneratingRef s;
     isModalOpen := isModalOpen s;
     currentTopicForModal := currentTopicForModal s;
     modalContent := modalContent s; isGeneratingAll := isGeneratingAll s;
     documentStatus := v;
     generateContentMutation := generateContentMutation s;
     queryClient := queryClient s; toasts := toasts s; trace := trace s |}.

Definition setGenerateContentMutation (v : MutationObserver) (s : Analyze) : Analyze :=
  {| docId := docId s; selectedTemplate := selectedTemplate s;
     analysisStep := analysisStep s; scopeData := scopeData s;
     generatedTopics := generatedTopics s;
     generatedContent := generatedContent s;
     contentLoadingState := contentLoadingState s;
     chatHistory := chatHistory s;
     currentChatMessage := currentChatMessage s;
     isBatchGeneratingRef := isBatchGeneratingRef s;
     isModalOpen := isModalOpen s;
     currentTopicForModal := currentTopicForModal s;
     modalContent := modalContent s; isGeneratingAll := isGeneratingAll s;
     documentStatus := documentStatus s; generateContentMutation := v;
     queryClient := queryClient s; toasts := toasts s; trace := trace s |}.

Definition setQueryClient (v : gmap (list (option string)) QueryData) (s : Analyze) : Analyze :=
  {| docId := docId s; selectedTemplate := selectedTemplate s;
     analysisStep := analysisStep s; scopeData := scopeData s;
     generatedTopics := generatedTopics s;
     generatedContent := generatedContent s;
     contentLoadingState := contentLoadingState s;
     chatHistory := chatHistory s;
     currentChatMessage := currentChatMessage s;
     isBatchGeneratingRef := isBatchGeneratingRef s;
     isModalOpen := isModalOpen s;
     currentTopicForModal := currentTopicForModal s;
     modalContent := modalContent s; isGeneratingAll := isGeneratingAll s;
     documentStatus := documentStatus s;
     generateContentMutation := generateContentMutation s; queryClient := v;
     toasts := toasts s; trace := trace s |}.

Definition setToasts (v : list Toast) (s : Analyze) : Analyze :=
  {| docId := docId s; selectedTemplate := selectedTemplate s;
     analysisStep := analysisStep s; scopeData := scopeData s;
     generatedTopics := generatedTopics s;
     generatedContent := generatedContent s;
     contentLoadingState := contentLoadingState s;
     chatHistory := chatHistory s;
     currentChatMessage := currentChatMessage s;
     isBatchGeneratingRef := isBatchGeneratingRef s;
     isModalOpen := isModalOpen s;
     currentTopicForModal := currentTopicForModal s;
     modalContent := modalContent s; isGeneratingAll := isGeneratingAll s;
     documentStatus := documentStatus s;
     generateContentMutation := generateContentMutation s;
     queryClient := queryClient s; toasts := v; trace := trace s |}.

Definition setTrace (v : list Event) (s : Analyze) : Analyze :=
  {| docId := docId s; selectedTemplate := selectedTemplate s;
     analysisStep := analysisStep s; scopeData := scopeData s;
     generatedTopics := generatedTopics s;
     generatedContent := generatedContent s;
     contentLoadingState := contentLoadingState s;
     chatHistory := chatHistory s;
     currentChatMessage := currentChatMessage s;
     isBatchGeneratingRef := isBatchGeneratingRef s;
     isModalOpen := isModalOpen s;
     currentTopicForModal := currentTopicForModal s;
     modalContent := modalContent s; isGeneratingAll := isGeneratingAll s;
     documentStatus := documentStatus s;
     generateContentMutation := generateContentMutation s;
     queryClient := queryClient s; toasts := toasts s; trace := v |}.

(** [useState] defaults, a fresh status query and an idle mutation, over the
    query client [qc] that outlives the component. *)
Definition initial (d : option string) (qc : gmap QueryKey QueryData) : Analyze :=
  {| docId := d; selectedTemplate := ""; analysisStep := 0; scopeData := None;
     generatedTopics := []; generatedContent := ∅; contentLoadingState := ∅;
     chatHistory := []; currentChatMessage := ""; isBatchGeneratingRef := false;
     isModalOpen := false; currentTopicForModal := None; modalContent := "";
     isGeneratingAll := false; documentStatus := None;
     generateContentMutation := {| started := 0; observed := idle |};
     queryClient := qc; toasts := []; trace := [] |}.

(** ** Plumbing: notifications, the wire log, the query client *)

Definition toast (k : ToastKind) (msg : string) (s : Analyze) : Analyze :=
  setToasts (toasts s ++ [mkToast k msg]) s.

Definition emit (e : Event) (s : Analyze) : Analyze :=
  setTrace (trace s ++ [e]) s.

Definition setQueryData (k : QueryKey) (v : QueryData) (s : Analyze) : Analyze :=
  setQueryClient (<[k := v]> (queryClient s)) s.

(** [getQueryData<T>(key)]: the stored data, [undefined] when there is none. *)
Definition getScope (k : QueryKey) (s : Analyze) : option ScopeData :=
  match queryClient s !! k with Some (QScope d) => Some d | _ => None end.
Definition getTopics (k : QueryKey) (s : Analyze) : option (list Topic) :=
  match queryClient s !! k with Some (QTopics d) => Some d | _ => None end.
Definition getContent (k : QueryKey) (s : Analyze) : option Content :=
  match queryClient s !! k with Some (QContent d) => Some d | _ => None end.

(** The requests of a log, in order. *)
Definition requests (tr : list Event) : list ApiCall :=
  omap (λ e, match e with Request c => Some c | _ => None end) tr.

Definition isOk {A} (r : Result A) : bool :=
  match r with Ok _ => true | Err _ => false end.

(** ** The status query (lines 74-83) *)

Definition statusQuery_enabled (s : Analyze) : bool := JS.truthy_ostring (docId s).

(** [refetchInterval]: [None] is the source's [false]. *)
Definition refetchInterval (data : option DocumentStatus) : option Z :=
  let currentStatus := status <$> data in
  if bool_decide (currentStatus = Some "processed")
     || bool_decide (currentStatus = Some "error")
  then None
  else Some 5000.

Definition statusQuery_fetch (s : Analyze) : Analyze :=
  emit (Request (getDocumentStatusAPI (docId s))) s.

(** [invalidateQueries] marks the entries under a key stale and fetches the
    live queries among them again.  Stale entries keep their data, and the
    keys written with [setQueryData] have no query to fetch with.  The status
    query is live under its key while it is enabled: when it holds data it is
    fetched again, a fetch in flight being dropped for the new one; when it
    holds none, the fetch that is in flight stays the one that answers. *)
Definition invalidateQueries (k : QueryKey) (s : Analyze) : Analyze :=
  match documentStatus s with
  | Some _ =>
      if statusQuery_enabled s && bool_decide (k = documentStatusKey (docId s))
      then statusQuery_fetch s
      else s
  | None => s
  end.

(** ** Effect on [documentStatus] (lines 85-104) *)

Definition documentStatusEffect (s : Analyze) : Analyze :=
  match documentStatus s with
  | Some ds =>
      if String.eqb (status ds) "processed" then
        let k := documentScopeKey (docId s) in
        let s := emit (CacheRead k) s in
        match getScope k s with
        | Some existingScope =>
            if is_confirmed existingScope
            then setAnalysisStep 3 (setScopeData (Some existingScope) s)
            else setAnalysisStep 2 (setScopeData (Some existingScope) s)
        | None => setAnalysisStep 2 s
        end
      else if String.eqb (status ds) "processing" || String.eqb (status ds) "uploading"
      then setAnalysisStep 1 s
      else setAnalysisStep 0 s
  | None => s
  end.

(** ** The mutations (lines 128-243)

    [X_mutate] is what [mutate] does up to and including the request
    ([onMutate], then [mutationFn]); [X_settle] delivers the response and
    runs [onSuccess] or [onError], then [onSettled]. *)

Definition extractScopeMutation_mutate (s : Analyze) : Analyze :=
  emit (Request (extractDocumentScopeAPI (docId s) true)) s.

Definition extractScopeMutation_onSuccess (data : ScopeData) (s : Analyze) : Analyze :=
  let s := toast success "Scope extracted successfully!" s in
  let s := setScopeData (Some data) s in
  setQueryData (documentScopeKey (docId s)) (QScope data) s.

Definition extractScopeMutation_onError (msg : string) (s : Analyze) : Analyze :=
  toast error ("Failed to extract scope: " +:+ msg) s.

Definition extractScopeMutation_settle (r : Result ScopeData) (s : Analyze) : Analyze :=
  let s := emit (Response (extractDocumentScopeAPI (docId s) true) (isOk r)) s in
  match r with
  | Ok data => extractScopeMutation_onSuccess data s
  | Err msg => extractScopeMutation_onError msg s
  end.

Definition confirmScopeMutation_mutate (pages : option (list Z)) (s : Analyze) : Analyze :=
  emit (Request (confirmDocumentScopeAPI (docId s) (default [] pages))) s.

Definition confirmScopeMutation_onSuccess (data : ScopeData) (s : Analyze) : Analyze :=
  let s := toast success "Scope confirmed successfully!" s in
  let s := setScopeData (Some data) s in
  let s := setQueryData (documentScopeKey (docId s)) (QScope data) s in
  setAnalysisStep 3 s.

Definition confirmScopeMutation_onError (msg : string) (s : Analyze) : Analyze :=
  toast error ("Failed to confirm scope: " +:+ msg) s.

Definition confirmScopeMutation_settle (pages : option (list Z)) (r : Result ScopeData)
    (s : Analyze) : Analyze :=
  let s := emit (Response (confirmDocumentScopeAPI (docId s) (default [] pages)) (isOk r)) s in
  match r with
  | Ok data => confirmScopeMutation_onSuccess data s
  | Err msg => confirmScopeMutation_onError msg s
  end.

Definition generateTopicsMutation_mutate (s : Analyze) : Analyze :=
  emit (Request (generateTopicsAPI (docId s) (selectedTemplate s))) s.

Definition newTopic (topic : TopicJson) : Topic :=
  {| topic_id := json_id topic; topic_number := json_number topic;
     text := JS.or_string (json_text topic) "Unnamed Topic";
     topic_level := json_level topic; topic_status := json_status topic;
     topic_page := json_page topic; topic_is_confirmed := json_is_confirmed topic |}.

Definition generateTopicsMutation_onSuccess (data : GeneratedTopicsData) (s : Analyze) : Analyze :=
  let s := toast success "Topics generated successfully!" s in
  let newTopics := map newTopic (default [] (topics data)) in
  let s := setGeneratedTopics newTopics s in
  let s := setAnalysisStep 4 s in
  setQueryData (generatedTopicsKey (docId s) (selectedTemplate s)) (QTopics newTopics) s.

Definition generateTopicsMutation_onError (msg : string) (s : Analyze) : Analyze :=
  toast error ("Failed to generate topics: " +:+ msg) s.

Definition generateTopicsMutation_settle (r : Result GeneratedTopicsData) (s : Analyze) : Analyze :=
  let s := emit (Response (generateTopicsAPI (docId s) (selectedTemplate s)) (isOk r)) s in
  match r with
  | Ok data => generateTopicsMutation_onSuccess data s
  | Err msg => generateTopicsMutation_onError msg s
  end.

(** The content-generation mutation, with its observer. *)

Definition observer_mutate (m : MutationObserver) : MutationObserver :=
  {| started := S (started m); observed := pending |}.

Definition observer_settle (mid : nat) (ok : bool) (m : MutationObserver) : MutationObserver :=
  if Nat.eqb mid (started m)
  then {| started := started m; observed := if ok then succeeded else failed |}
  else m.

Definition generateContentMutation_onMutate (topicToGenerate : Topic) (s : Analyze) : Analyze :=
  setContentLoadingState (<[text topicToGenerate := true]> (contentLoadingState s)) s.

Definition generateContentMutation_mutationFn (topicToGenerate : Topic) (s : Analyze) : Analyze :=
  emit (Request (generateContentAPI (docId s) (selectedTemplate s) (text topicToGenerate))) s.

Definition generateContentMutation_mutate (topic : Topic) (s : Analyze) : Analyze :=
  let s := setGenerateContentMutation (observer_mutate (generateContentMutation s)) s in
  let s := generateContentMutation_onMutate topic s in
  generateContentMutation_mutationFn topic s.

Definition generateContentMutation_onSuccess (data : GeneratedContentData)
    (topicGenerated : Topic) (s : Analyze) : Analyze :=
  let topicKey := JS.or_string (gc_topic data) (text topicGenerated) in
  let s := toast success ("Content generated for: " +:+ topicKey) s in
  let s := setGeneratedContent (<[topicKey := Text (gc_content data)]> (generatedContent s)) s in
  let s :=
    if negb (isBatchGeneratingRef s)
    then setIsModalOpen true
           (setModalContent (gc_content data)
              (setCurrentTopicForModal (Some topicGenerated) s))
    else s in
  setQueryData (generatedContentKey (docId s) (selectedTemplate s) topicKey)
    (QContent (gc_content data)) s.

Definition generateContentMutation_onError (msg : string) (topicGenerated : Topic)
    (s : Analyze) : Analyze :=
  toast error ("Failed to generate content for " +:+ text topicGenerated +:+ ": " +:+ msg) s.

Definition generateContentMutation_onSettled (topicGenerated : Topic) (s : Analyze) : Analyze :=
  setContentLoadingState (<[text topicGenerated := false]> (contentLoadingState s)) s.

(** [mid] is the number the mutation got when it was started: only the one
    started last is still observed when it settles. *)
Definition generateContentMutation_settle (mid : nat) (r : Result GeneratedContentData)
    (topic : Topic) (s : Analyze) : Analyze :=
  let s := emit (Response (generateContentAPI (docId s) (selectedTemplate s) (text topic))
                   (isOk r)) s in
  let s := setGenerateContentMutation
             (observer_settle mid (isOk r) (generateContentMutation s)) s in
  let s := match r with
           | Ok data => generateContentMutation_onSuccess data topic s
           | Err msg => generateContentMutation_onError msg topic s
           end in
  generateContentMutation_onSettled topic s.

(** The save mutation.  Its [mutationFn] throws before any request when the
    document id or the topic id is falsy; the throw settles the mutation at
    once through [onError]. *)

Definition dquote : string := String (ascii_of_nat 34) EmptyString.

Definition saveContentMutation_onSuccess (topic : Topic) (content : Content)
    (s : Analyze) : Analyze :=
  let s := toast success ("Content for " +:+ dquote +:+ text topic +:+ dquote
                          +:+ " saved successfully!") s in
  setGeneratedContent (<[text topic := content]> (generatedContent s)) s.

Definition saveContentMutation_onError (msg : string) (topic : Topic) (s : Analyze) : Analyze :=
  toast error ("Failed to save content for " +:+ dquote +:+ text topic +:+ dquote
               +:+ ": " +:+ msg) s.

Definition saveContentMutation_mutate (topic : Topic) (content : Content)
    (s : Analyze) : Analyze :=
  if negb (JS.truthy_ostring (docId s)) then
    saveContentMutation_onError "Document ID is missing" topic
      (toast error "Cannot save content: Document ID is missing." s)
  else if negb (JS.truthy_onumber (topic_id topic)) then
    saveContentMutation_onError "Topic ID is missing" topic
      (toast error "Cannot save content: Topic ID is missing." s)
  else
    emit (Request (saveDocumentContentAPI (default "" (docId s))
                     (default 0 (topic_id topic)) content)) s.

Definition saveContentMutation_settle (c : ApiCall) (r : Result unit) (topic : Topic)
    (content : Content) (s : Analyze) : Analyze :=
  let s := emit (Response c (isOk r)) s in
  match r with
  | Ok _ => saveContentMutation_onSuccess topic content s
  | Err msg => saveContentMutation_onError msg topic s
  end.

(** The chat mutation. *)

Definition chatMutation_onMutate (message : string) (s : Analyze) : Analyze :=
  let s := setChatHistory (chatHistory s ++ [{| role := user; content := message |}]) s in
  setCurrentChatMessage "" s.

Definition chatMutation_mutationFn (message : string) (history : list ChatMessage)
    (s : Analyze) : Analyze :=
  emit (Request (chatWithDocumentAPI (docId s) (selectedTemplate s) message history)) s.

Definition chatMutation_mutate (message : string) (history : list ChatMessage)
    (s : Analyze) : Analyze :=
  chatMutation_mutationFn message history (chatMutation_onMutate message s).

(** [onSuccess] stores under the chat key the [chatHistory] of the render it
    runs in, that is the transcript before the assistant turn is appended. *)
Definition chatMutation_onSuccess (data : ChatData) (s : Analyze) : Analyze :=
  let rendered := chatHistory s in
  let s := setChatHistory (chatHistory s ++ [{| role := assistant; content := response data |}]) s in
  setQueryData (chatHistoryKey (docId s) (selectedTemplate s)) (QChat rendered) s.

Definition chatMutation_onError (msg : string) (s : Analyze) : Analyze :=
  let s := toast error ("Chat error: " +:+ msg) s in
  setChatHistory (JS.slice_0_m1 (chatHistory s)) s.

Definition chatMutation_settle (message : string) (history : list ChatMessage)
    (r : Result ChatData) (s : Analyze) : Analyze :=
  let s := emit (Response (chatWithDocumentAPI (docId s) (selectedTemplate s) message history)
                   (isOk r)) s in
  match r with
  | Ok data => chatMutation_onSuccess data s
  | Err msg => chatMutation_onError msg s
  end.

(** ** Effect on [docId] (lines 245-258) *)

Definition docIdEffect (s : Analyze) : Analyze :=
  if JS.truthy_ostring (docId s) then
    let s := setAnalysisStep 0 s in
    let s := setScopeData None s in
    let s := setGeneratedTopics [] s in
    let s := setGeneratedContent ∅ s in
    let s := setChatHistory [] s in
    let s := invalidateQueries (documentStatusKey (docId s)) s in
    invalidateQueries (documentScopeKey (docId s)) s
  else
    toast info "No document selected for analysis. Upload a document or select one." s.

(** ** Cache hydration effect (lines 260-284) *)

(** The [forEach] over the cached topics, filling [cachedContent];
    [docId] and [selectedTemplate] are the ones the effect closed over. *)
Fixpoint loadCachedContent (docId : option string) (selectedTemplate : string)
    (cachedTopics : list Topic) (cachedContent : gmap string Content)
    (s : Analyze) : gmap string Content * Analyze :=
  match cachedTopics with
  | [] => (cachedContent, s)
  | topic :: rest =>
      let k := generatedContentKey docId selectedTemplate (text topic) in
      let s := emit (CacheRead k) s in
      match getContent k s with
      | Some c =>
          if truthy_content c
          then loadCachedContent docId selectedTemplate rest
                 (assign (text topic) c cachedContent) s
          else loadCachedContent docId selectedTemplate rest cachedContent s
      | None => loadCachedContent docId selectedTemplate rest cachedContent s
      end
  end.

Definition scopeConfirmed (s : Analyze) : bool :=
  match scopeData s with Some sc => is_confirmed sc | None => false end.

(** The effect reads [docId], [selectedTemplate], [analysisStep] and
    [scopeData] of the render [r] it was created in, and the query client as
    it is; what it sets goes on top of [s], the state with the updates of
    the effects that ran before it in the same commit. *)
Definition hydrationEffect_in (r s : Analyze) : Analyze :=
  let s :=
    if JS.truthy_ostring (docId r) && JS.truthy_string (selectedTemplate r)
       && (analysisStep r =? 3)%Z && scopeConfirmed r
    then
      let k := generatedTopicsKey (docId r) (selectedTemplate r) in
      let s := emit (CacheRead k) s in
      match getTopics k s with
      | Some cachedTopics =>
          let s := setGeneratedTopics cachedTopics s in
          let s := setAnalysisStep 4 s in
          let '(cachedContent, s) :=
            loadCachedContent (docId r) (selectedTemplate r) cachedTopics ∅ s in
          let s := setGeneratedContent cachedContent s in
          toast info "Loaded previously generated topics and content." s
      | None => s
      end
    else s in
  if negb (JS.truthy_string (selectedTemplate r)) && (3 <=? analysisStep r)%Z then
    let s := setGeneratedTopics [] s in
    let s := setGeneratedContent ∅ s in
    match scopeData r with
    | Some sc => if is_confirmed sc then setAnalysisStep 3 s else setAnalysisStep 2 s
    | None => setAnalysisStep 0 s
    end
  else s.

(** The effect run on its own, in a commit in which no other effect runs. *)
Definition hydrationEffect (s0 : Analyze) : Analyze := hydrationEffect_in s0 s0.

(** ** Handlers (lines 292-428) *)

Definition handleStartAnalysis (s : Analyze) : Analyze :=
  if negb (JS.truthy_ostring (docId s)) || negb (JS.truthy_string (selectedTemplate s)) then
    toast error "Document ID is missing or no template selected." s
  else if negb (bool_decide (status <$> documentStatus s = Some "processed")) then
    toast error "Document is not yet processed. Please wait." s
  else
    match scopeData s with
    | Some sc =>
        if negb (is_confirmed sc) then
          setAnalysisStep 2 (toast info "Scope already extracted. Please confirm it." s)
        else
          setAnalysisStep 3 (toast info "Scope already confirmed. Proceed to topic generation." s)
    | None => extractScopeMutation_mutate s
    end.

Definition handleConfirmScope (s : Analyze) : Analyze :=
  match scopeData s with
  | None => toast error "No scope data to confirm." s
  | Some _ => confirmScopeMutation_mutate None s
  end.

Definition handleGenerateTopics (s : Analyze) : Analyze :=
  if negb (JS.truthy_ostring (docId s)) || negb (JS.truthy_string (selectedTemplate s)) then
    toast error "Cannot generate topics without a document and selected template." s
  else if negb (scopeConfirmed s) then
    toast error "Scope must be confirmed before generating topics." s
  else
    generateTopicsMutation_mutate s.

(** [generatedContent[topic.text]] and [contentLoadingState[topic.text]],
    as the conditions read them.  What is stored in [contentLoadingState] is
    a boolean; under a name with nothing stored the read finds the member of
    [Object.prototype], if there is one, which is truthy. *)
Definition hasContent (m : gmap string Content) (topic : Topic) : bool :=
  truthy_ocontent (index m (text topic)).
Definition isLoading (m : gmap string bool) (topic : Topic) : bool :=
  match m !! text topic with
  | Some b => b
  | None => inherited (text topic)
  end.

Definition handleGenerateOrViewContent (topic : Topic) (s : Analyze) : Analyze :=
  let content := index (generatedContent s) (text topic) in
  if truthy_ocontent content then
    setIsModalOpen true
      (setModalContent (default (Text "") content) (setCurrentTopicForModal (Some topic) s))
  else if isPending (generateContentMutation s) && isLoading (contentLoadingState s) topic then
    toast info ("Still generating content for: " +:+ text topic) s
  else if isPending (generateContentMutation s)
          && negb (isLoading (contentLoadingState s) topic) then
    toast info "Please wait for the current content generation to complete." s
  else
    generateContentMutation_mutate topic s.

(** The test of the batch loop on a topic:
    [!generatedContent[topic.text] && !contentLoadingState[topic.text]]. *)
Definition needsGeneration (content : gmap string Content) (loading : gmap string bool)
    (topic : Topic) : bool :=
  negb (hasContent content topic) && negb (isLoading loading topic).

(** [handleGenerateAllContent] awaits every generation before it goes on, so
    what the service answers decides how the loop continues.  The service is
    any function of what went over the wire so far and of the request. *)
Section Batch.

Variable contentService :
  list Event -> option string -> string -> string -> Result GeneratedContentData.

(** The [for ... of] loop.  [content] and [loading] are the
    [generatedContent] and [contentLoadingState] the handler closed over
    when it was invoked; [count] is its local counter. *)
Fixpoint batchLoop (content : gmap string Content) (loading : gmap string bool)
    (todo : list Topic) (count : nat) (s : Analyze) : nat * Analyze :=
  match todo with
  | [] => (count, s)
  | topic :: rest =>
      if needsGeneration content loading topic then
        let s1 := generateContentMutation_mutate topic s in
        let r := contentService (trace s1) (docId s1) (selectedTemplate s1) (text topic) in
        let s2 := generateContentMutation_settle
                    (started (generateContentMutation s1)) r topic s1 in
        match r with
        | Ok _ => batchLoop content loading rest (S count) s2
        | Err _ =>
            batchLoop content loading rest count
              (toast error ("Failed to generate content for " +:+ text topic
                            +:+ " during batch operation.") s2)
        end
      else batchLoop content loading rest count s
  end.

Definition handleGenerateAllContent (s : Analyze) : Analyze :=
  if (length (generatedTopics s) =? 0)%nat then
    toast info "No topics available to generate content for." s
  else
    let s1 := setIsBatchGeneratingRef true s in
    let s1 := setIsGeneratingAll true s1 in
    let s1 := toast info "Starting batch content generation..." s1 in
    let '(count, s2) :=
      batchLoop (generatedContent s) (contentLoadingState s) (generatedTopics s) 0 s1 in
    let s2 := setIsBatchGeneratingRef false s2 in
    let s2 := setIsGeneratingAll false s2 in
    if (0 <? count)%nat then
      toast success ("Batch content generation completed for " +:+ pretty count
                     +:+ " topics.") s2
    else
      toast info "No new content was generated in batch (already exists or was generating)." s2.

End Batch.

Definition handleSaveModalContent (s : Analyze) : Analyze :=
  match currentTopicForModal s with
  | Some topic =>
      if JS.truthy_ostring (docId s) then
        let s := setGeneratedContent (<[text topic := modalContent s]> (generatedContent s)) s in
        let s := setQueryData (generatedContentKey (docId s) (selectedTemplate s) (text topic))
                   (QContent (modalContent s)) s in
        let s :=
          if JS.truthy_onumber (topic_id topic)
          then saveContentMutation_mutate topic (modalContent s) s
          else toast info "Content saved locally. Topic ID missing for backend save." s in
        setIsModalOpen false s
      else toast error "Error saving content: No topic selected or document ID missing." s
  | None => toast error "Error saving content: No topic selected or document ID missing." s
  end.

Definition handleSendChatMessage (s : Analyze) : Analyze :=
  if negb (JS.truthy_string (JS.trim (currentChatMessage s))) then s
  else if negb (JS.truthy_ostring (docId s)) || negb (JS.truthy_string (selectedTemplate s)) then
    toast error "Document and template must be selected for chat." s
  else
    let historyForAPI :=
      map (λ msg, {| role := role msg; content := content msg |}) (chatHistory s) in
    chatMutation_mutate (currentChatMessage s) historyForAPI s.

(** ** The topic buttons (lines 736-738)

    [handleGenerateOrViewContent] has one caller, the button of a topic; a
    disabled button delivers no click. *)

Definition topicButton_disabled (topic : Topic) (s : Analyze) : bool :=
  (isGeneratingAll s && negb (hasContent (generatedContent s) topic))
  || isLoading (contentLoadingState s) topic
  || (isPending (generateContentMutation s)
      && negb (isLoading (contentLoadingState s) topic)
      && negb (isGeneratingAll s)).

Definition topicButton_onClick (topic : Topic) (s : Analyze) : Analyze :=
  if topicButton_disabled topic s then s else handleGenerateOrViewContent topic s.

(** ** Entering a document and polling its status

    A document is entered by mounting the component on it, over the query
    client of the session and with a status query that has no data yet.  On
    the first commit the three effects run in the order they are declared;
    the status query, enabled by a truthy [docId], sends its first request
    at once.  A response that differs from the data the query holds
    replaces [documentStatus], which re-runs the status effect and, through
    [analysisStep] and [scopeData], the hydration effect; the query keeps the
    object it holds when the response is equal to it, and then no effect
    runs.  After every response [refetchInterval] decides whether a timer is
    armed for the next poll. *)

Definition mount (d : option string) (qc : gmap QueryKey QueryData) : Analyze :=
  hydrationEffect (docIdEffect (documentStatusEffect (initial d qc))).

(** The status effect depends on the [documentStatus] object.  When it has
    run, the hydration effect is taken to run after it: the status effect
    sets [analysisStep] and hands [scopeData] the object of the cache. *)
Definition statusQuery_deliver (ds : DocumentStatus) (s : Analyze) : Analyze :=
  let s := emit (Response (getDocumentStatusAPI (docId s)) true) s in
  if decide (documentStatus s = Some ds) then s
  else
    let s := setDocumentStatus (Some ds) s in
    hydrationEffect (documentStatusEffect s).

Fixpoint poll (responses : list DocumentStatus) (s : Analyze) : Analyze :=
  match responses with
  | [] => s
  | ds :: rest =>
      let s := statusQuery_deliver ds s in
      match refetchInterval (documentStatus s) with
      | Some ms => poll rest (statusQuery_fetch (emit (Timer ms) s))
      | None => s
      end
  end.

Definition watch (responses : list DocumentStatus) (s : Analyze) : Analyze :=
  if statusQuery_enabled s then poll responses (statusQuery_fetch s) else s.

(** Choosing a template in the selector re-runs the hydration effect. *)
Definition selectTemplate (tpl : string) (s : Analyze) : Analyze :=
  hydrationEffect (setSelectedTemplate tpl s).

(** ** A commit in which [docId] is new

    [docId] is a dependency of the three effects: they all run in the commit
    of a render [r] whose [docId] is new, which is the first render of a
    mounted component or the render after the route has changed to another
    document.  [documentStatus r] is what the query client holds for the
    document's status at that render.  In that commit the status query, if
    it is enabled, fetches first (data it holds is stale); the effects then
    run in the order they are declared, every one of them reading the state
    of the render [r], and their updates are applied in that order.  The
    status and [docId] effects set constants and read [docId],
    [documentStatus] and the query client only, so they are run on the
    state as it is updated; the hydration effect reads the stage, the scope
    and the template of [r].  In the next render the hydration effect is the
    only one with a dependency that can have changed (the stage or the
    scope), and then it runs again. *)
Definition commit (r : Analyze) : Analyze :=
  let s := if statusQuery_enabled r then statusQuery_fetch r else r in
  let s := docIdEffect (documentStatusEffect s) in
  let s := hydrationEffect_in r s in
  if bool_decide (analysisStep s = analysisStep r)
     && bool_decide (scopeData s = scopeData r)
  then s
  else hydrationEffect s.

(** Entering a document again while the query client still holds its
    status: the component is mounted anew, with [documentStatus] there from
    the first render on. *)
Definition reenter (ds : DocumentStatus) (d : option string)
    (qc : gmap QueryKey QueryData) : Analyze :=
  commit (setDocumentStatus (Some ds) (initial d qc)).

(** The route changes to the document [d] under the mounted component;
    [held] is the status the query client holds for [d], if any.  The
    [useState] cells keep their values. *)
Definition changeDocument (d : option string) (held : option DocumentStatus)
    (s : Analyze) : Analyze :=
  commit (setDocumentStatus held (setDocId d s)).

(** The card with the topics and their buttons (line 703). *)
Definition topicsCard_shown (s : Analyze) : bool :=
  JS.truthy_ostring (docId s) && (4 <=? analysisStep s)%Z
  && (0 <? length (generatedTopics s))%nat.

(** ** Vocabulary of the properties *)

(** The white-space characters of JavaScript, as UTF-8 byte strings. *)
Definition bytes (l : list nat) : string :=
  fold_right (λ n r, String (ascii_of_nat n) r) EmptyString l.

Definition whiteSpaceCharacters : list string :=
  map bytes
    [ [9%nat]; [10%nat]; [11%nat]; [12%nat]; [13%nat]; [32%nat];   (* TAB LF VT FF CR SP *)
      [194; 160]%nat;                                              (* U+00A0 *)
      [225; 154; 128]%nat;                                         (* U+1680 *)
      [226; 128; 128]%nat; [226; 128; 129]%nat; [226; 128; 130]%nat;
      [226; 128; 131]%nat; [226; 128; 132]%nat; [226; 128; 133]%nat;
      [226; 128; 134]%nat; [226; 128; 135]%nat; [226; 128; 136]%nat;
      [226; 128; 137]%nat; [226; 128; 138]%nat;                    (* U+2000 to U+200A *)
      [226; 128; 168]%nat; [226; 128; 169]%nat;                    (* U+2028, U+2029 *)
      [226; 128; 175]%nat; [226; 129; 159]%nat;                    (* U+202F, U+205F *)
      [227; 128; 128]%nat; [239; 187; 191]%nat ].                  (* U+3000, U+FEFF *)

(** A string that is empty or is made of white-space characters only. *)
Inductive Blank : string -> Prop :=
| Blank_empty : Blank EmptyString
| Blank_more (w r : string) : In w whiteSpaceCharacters -> Blank r -> Blank (w +:+ r).

(** Example data: document "doc1", template "tplA", topics "Intro" and "Scope". *)
Definition mkTopic (i : option Z) (t : string) : Topic :=
  {| topic_id := i; topic_number := None; text := t; topic_level := None;
     topic_status := None; topic_page := None; topic_is_confirmed := None |}.

Definition doc1 : option string := Some "doc1".
Definition tplA : string := "tplA".
Definition intro : Topic := mkTopic (Some 1) "Intro".
Definition scope : Topic := mkTopic (Some 2) "Scope".
Definition processed : DocumentStatus :=
  {| status := "processed"; message := "done"; pages := Some 12; progress := Some 100 |}.
Definition processing : DocumentStatus :=
  {| status := "processing"; message := "ocr"; pages := None; progress := Some 40 |}.
Definition scope34 (c : bool) : ScopeData :=
  {| scope_text := "..."; source_pages := [3; 4]; is_confirmed := c; is_complete := None |}.

(** The cache reads of the [forEach] in the hydration effect. *)
Definition contentReads (d : option string) (tpl : string) (ts : list Topic) : list Event :=
  map (λ t, CacheRead (generatedContentKey d tpl (text t))) ts.

(** A non-empty content is stored under the name of the topic. *)
Definition storedContent (m : gmap string Content) (topic : Topic) : bool :=
  truthy_ocontent (m !! text topic).

(** A generation for the topic is in flight: [true] is stored under its name. *)
Definition inFlight (m : gmap string bool) (topic : Topic) : bool :=
  JS.truthy_obool (m !! text topic).

(** The topics a batch run has to generate for, in topic order. *)
Definition toGenerate (s : Analyze) : list Topic :=
  List.filter (needsGeneration (generatedContent s) (contentLoadingState s))
    (generatedTopics s).

Definition generationCall (s : Analyze) (topic : Topic) : ApiCall :=
  generateContentAPI (docId s) (selectedTemplate s) (text topic).

(** One awaited generation on the log: the request, then its response. *)
Definition generationEvents (s : Analyze) (o : Topic * Result GeneratedContentData)
    : list Event :=
  [Request (generationCall s o.1); Response (generationCall s o.1) (isOk o.2)].

(** The notifications of one generation inside a batch: the mutation's own
    ([onSuccess] or [onError]) and, for a failure, the one of the [catch]. *)
Definition generationToasts (o : Topic * Result GeneratedContentData) : list Toast :=
  match o.2 with
  | Ok data =>
      [mkToast success ("Content generated for: "
                        +:+ JS.or_string (gc_topic data) (text o.1))]
  | Err msg =>
      [mkToast error ("Failed to generate content for " +:+ text o.1 +:+ ": " +:+ msg);
       mkToast error ("Failed to generate content for " +:+ text o.1
                      +:+ " during batch operation.")]
  end.

Definition successes (outs : list (Topic * Result GeneratedContentData)) : nat :=
  length (List.filter (λ o, isOk o.2) outs).

(** The notification that closes a batch run with [count] successes. *)
Definition batchSummary (count : nat) : Toast :=
  if (0 <? count)%nat
  then mkToast success ("Batch content generation completed for " +:+ pretty count
                        +:+ " topics.")
  else mkToast info "No new content was generated in batch (already exists or was generating).".

(** Example runs of the batch.  [flakyService] fails on "Intro" and answers
    every other topic. *)
Definition budget : Topic := mkTopic (Some 3) "Budget".

Definition flakyService (_ : list Event) (_ : option string) (_ topic : string)
    : Result GeneratedContentData :=
  if String.eqb topic "Intro" then Err "timeout"
  else Ok {| gc_content := "About " +:+ topic; gc_topic := Some topic |}.

Definition steadyService (_ : list Event) (_ : option string) (_ topic : string)
    : Result GeneratedContentData :=
  Ok {| gc_content := "About " +:+ topic; gc_topic := Some topic |}.

Definition topicsReady (ts : list Topic) (content : gmap string Content) : Analyze :=
  setGeneratedContent content
    (setGeneratedTopics ts
       (setAnalysisStep 4
          (setScopeData (Some (scope34 true))
             (setSelectedTemplate tplA (initial doc1 ∅))))).

Definition failedResponses (tr : list Event) : nat :=
  length (List.filter (λ e, match e with Response _ false => true | _ => false end) tr).

(** A query client that already holds, for "doc1", a confirmed scope and,
    under "tplA", the topics and the content of "Intro". *)
Definition resumeCache : gmap QueryKey QueryData :=
  <[ documentScopeKey doc1 := QScope (scope34 true) ]>
    (<[ generatedTopicsKey doc1 tplA := QTopics [intro; scope] ]>
       (<[ generatedContentKey doc1 tplA "Intro" := QContent "About Intro" ]> ∅)).

(** Whether a log has a cache read before its first request. *)
Fixpoint cacheReadBeforeRequests (tr : list Event) : bool :=
  match tr with
  | [] => true
  | CacheRead _ :: _ => true
  | Request _ :: _ => false
  | _ :: rest => cacheReadBeforeRequests rest
  end.

(** "doc1" with its scope confirmed and "tplA" selected, ready for topic
    generation, and the answer of the service with the topic "Intro". *)
Definition confirmedOnDoc1 : Analyze :=
  setDocumentStatus (Some processed)
    (setScopeData (Some (scope34 true))
       (setAnalysisStep 3
          (setSelectedTemplate tplA
             (initial doc1 {[ documentScopeKey doc1 := QScope (scope34 true) ]})))).

Definition introAnswer : GeneratedTopicsData :=
  {| topics := Some [ {| json_id := Some 1; json_number := None; json_text := Some "Intro";
                         json_level := None; json_status := None; json_page := None;
                         json_is_confirmed := None |} ] |}.

(** A topic named after a member of [Object.prototype]. *)
Definition constructorTopic : Topic := mkTopic (Some 4) "constructor".

(** A topic whose id is 0: the handler takes it for a topic without an id. *)
Definition zeroTopic : Topic := mkTopic (Some 0) "Intro".
Definition zeroDraft : Analyze :=
  setModalContent "edited text"
    (setCurrentTopicForModal (Some zeroTopic)
       (setSelectedTemplate tplA (initial doc1 ∅))).


(** ** The rest of the component

    What the component reads besides its own state: the [isPending] flags of
    the mutations other than content generation. *)

Record Pending := {
  extractScopePending : bool;
  confirmScopePending : bool;
  generateTopicsPending : bool
}.

Definition statusIs (x : string) (s : Analyze) : bool :=
  bool_decide (status <$> documentStatus s = Some x).

Definition scopeUnconfirmed (s : Analyze) : bool :=
  match scopeData s with Some sc => negb (is_confirmed sc) | None => false end.

(** [getStepStatusDisplay] (lines 430-460). *)
Definition getStepStatusDisplay (p : Pending) (step : Z) (s : Analyze) : string :=
  if statusIs "error" s then "error"
  else if (step =? 1)%Z then
    if extractScopePending p || generateTopicsPending p then "pending"
    else if statusIs "uploading" s || statusIs "processing" s then "current"
    else if statusIs "processed" s || (2 <=? analysisStep s)%Z then "complete"
    else "pending"
  else if (step =? 2)%Z then
    if negb (statusIs "processed" s) then "pending"
    else if generateTopicsPending p then "pending"
    else if extractScopePending p then "current"
    else if scopeUnconfirmed s && negb (confirmScopePending p) then "current"
    else if confirmScopePending p then "current"
    else if scopeConfirmed s || (3 <=? analysisStep s)%Z then "complete"
    else "pending"
  else if (step =? 3)%Z then
    if negb (scopeConfirmed s) then "pending"
    else if generateTopicsPending p then "current"
    else if (analysisStep s =? 3)%Z && (length (generatedTopics s) =? 0)%nat
            && negb (generateTopicsPending p) then "current"
    else if (4 <=? analysisStep s)%Z
            || ((analysisStep s =? 3)%Z && (0 <? length (generatedTopics s))%nat)
    then "complete"
    else "pending"
  else if (step =? 4)%Z then
    if (analysisStep s =? 4)%Z && (0 <? length (generatedTopics s))%nat then "complete"
    else "pending"
  else "pending".

(** The button that starts the analysis (lines 527-537). *)
Definition startButton_disabled (p : Pending) (s : Analyze) : bool :=
  negb (JS.truthy_ostring (docId s))
  || negb (JS.truthy_string (selectedTemplate s))
  || negb (statusIs "processed" s)
  || extractScopePending p
  || scopeConfirmed s.

Definition startButton_onClick (p : Pending) (s : Analyze) : Analyze :=
  if startButton_disabled p s then s else handleStartAnalysis s.

(** The button that starts a batch run (lines 711-713). *)
Definition generateAllButton_disabled (s : Analyze) : bool :=
  isGeneratingAll s
  || forallb (λ t, hasContent (generatedContent s) t || isLoading (contentLoadingState s) t)
       (generatedTopics s).

(** [getQueryData] on the chat key. *)
Definition getChat (k : QueryKey) (s : Analyze) : option (list ChatMessage) :=
  match queryClient s !! k with Some (QChat d) => Some d | _ => None end.

(** [handleOpenViewAllModal] (lines 378-400), over the component and the two
    cells of the consolidated view. *)
Record ViewAll := {
  component : Analyze;
  isViewAllModalOpen : bool;
  viewAllModalContent : string
}.

Section View.

(** The text that a template literal gives the member of [Object.prototype]
    of a name: [[object Object]] for [__proto__] and, for the others, the
    text the engine has for a built-in function, which the language leaves
    to it. *)
Variable memberText : string -> string.

(** [`${content}`] *)
Definition contentText (c : Content) : string :=
  match c with Text v => v | Member name => memberText name end.

Definition LF : string := String (ascii_of_nat 10) EmptyString.

(** One section of the consolidated view:
    [## ${number ? number + ". " : ""}${text}\n\n${content}\n\n---\n\n]. *)
Definition topicSection (topic : Topic) (c : string) : string :=
  "## "
  +:+ (if JS.truthy_ostring (topic_number topic)
       then default "" (topic_number topic) +:+ ". " else "")
  +:+ text topic +:+ LF +:+ LF +:+ c +:+ LF +:+ LF +:+ "---" +:+ LF +:+ LF.

Fixpoint viewAllLoop (content : gmap string Content) (todo : list Topic)
    (allContent : string) (generatedCount : nat) : string * nat :=
  match todo with
  | [] => (allContent, generatedCount)
  | topic :: rest =>
      let c := index content (text topic) in
      if truthy_ocontent c
      then viewAllLoop content rest
             (allContent +:+ topicSection topic (contentText (default (Text "") c)))
             (S generatedCount)
      else viewAllLoop content rest allContent generatedCount
  end.

Definition handleOpenViewAllModal (v : ViewAll) : ViewAll :=
  let s := component v in
  if (length (generatedTopics s) =? 0)%nat then
    {| component := toast info "No topics available to display." s;
       isViewAllModalOpen := isViewAllModalOpen v;
       viewAllModalContent := viewAllModalContent v |}
  else
    let '(allContent, generatedCount) := viewAllLoop (generatedContent s) (generatedTopics s) "" 0 in
    if (generatedCount =? 0)%nat then
      {| component := toast info "No content has been generated yet for any topic." s;
         isViewAllModalOpen := isViewAllModalOpen v;
         viewAllModalContent := viewAllModalContent v |}
    else
      {| component := s;
         isViewAllModalOpen := true;
         viewAllModalContent := JS.trim allContent |}.

(** The section of a topic in the consolidated view. *)
Definition sectionOf (s : Analyze) (topic : Topic) : string :=
  topicSection topic
    (contentText (default (Text "") (index (generatedContent s) (text topic)))).

End View.

(** ** Vocabulary of the further properties *)

(** The topics for which the component reads a content, in topic order. *)
Definition withContent (s : Analyze) : list Topic :=
  List.filter (hasContent (generatedContent s)) (generatedTopics s).

Fixpoint concatStrings (l : list string) : string :=
  match l with
  | [] => EmptyString
  | x :: rest => x +:+ concatStrings rest
  end.

(** The text V8 gives the members of [Object.prototype]. *)
Definition v8Text (name : string) : string :=
  if String.eqb name "__proto__" then "[object Object]"
  else "function " +:+ (if String.eqb name "constructor" then "Object" else name)
       +:+ "() { [native code] }".

(** No mutation is pending. *)
Definition idlePending : Pending :=
  {| extractScopePending := false; confirmScopePending := false;
     generateTopicsPending := false |}.

(** A status that ends the polling. *)
Definition terminal (ds : DocumentStatus) : bool :=
  String.eqb (status ds) "processed" || String.eqb (status ds) "error".

(** The responses that arrive before the first terminal one. *)
Fixpoint beforeTerminal (responses : list DocumentStatus) : list DocumentStatus :=
  match responses with
  | [] => []
  | ds :: rest => if terminal ds then [] else ds :: beforeTerminal rest
  end.

(** A content service that always answers, with some text, under the name
    of the topic it was asked for. *)
Definition answersEveryTopic
    (service : list Event -> option string -> string -> string -> Result GeneratedContentData)
    : Prop :=
  forall tr d tpl topic, exists data,
    service tr d tpl topic = Ok data
    /\ gc_content data <> ""
    /\ JS.or_string (gc_topic data) topic = topic.

(** * Properties *)

(** ** Trimming *)

Lemma trimStart_Blank x : Blank x -> JS.trimStart x = "".
Proof.
  induction 1 as [|w r Hin _ IH]; [done|].
  unfold whiteSpaceCharacters in Hin. cbn [map In] in Hin.
  repeat (destruct Hin as [<- | Hin]; [exact IH|]). destruct Hin.
Qed.

Lemma trim_Blank x : Blank x -> JS.trim x = "".
Proof. intros H. unfold JS.trim. by rewrite trimStart_Blank. Qed.

(** ** Sending a blank chat message *)

(** C10. When the chat input is empty or holds white space only,
    [handleSendChatMessage] does nothing at all: the state it returns is the
    state it was given, so the transcript is unchanged and nothing was sent. *)
Theorem send_blank_is_noop (s : Analyze) :
  Blank (currentChatMessage s) ->
  handleSendChatMessage s = s
  /\ chatHistory (handleSendChatMessage s) = chatHistory s
  /\ requests (trace (handleSendChatMessage s)) = requests (trace s).
Proof.
  intros Hb.
  assert (E : handleSendChatMessage s = s).
  { unfold handleSendChatMessage. by rewrite (trim_Blank _ Hb). }
  by rewrite E.
Qed.

Lemma send_blank_is_noop_witness :
  let s := setCurrentChatMessage (bytes [9; 32; 194; 160; 226; 128; 131; 32]%nat)
             (setChatHistory [{| role := user; content := "hi" |}]
                (setSelectedTemplate tplA (initial doc1 ∅))) in
  handleSendChatMessage s = s
  /\ chatHistory (handleSendChatMessage s) = chatHistory s
  /\ requests (trace (handleSendChatMessage s)) = requests (trace s).
Proof.
  apply send_blank_is_noop.
  apply (Blank_more (bytes [9%nat])); [cbn; tauto|].
  apply (Blank_more (bytes [32%nat])); [cbn; tauto|].
  apply (Blank_more (bytes [194; 160]%nat)); [cbn; tauto|].
  apply (Blank_more (bytes [226; 128; 131]%nat)); [cbn; tauto|].
  apply (Blank_more (bytes [32%nat]) EmptyString); [cbn; tauto|].
  apply Blank_empty.
Defined.

(** ** The status effect *)

Lemma emit_queryClient e s : queryClient (emit e s) = queryClient s.
Proof. reflexivity. Qed.

Lemma requests_app tr1 tr2 : requests (tr1 ++ tr2) = requests tr1 ++ requests tr2.
Proof. apply omap_app. Qed.

Lemma requests_snoc_request tr c : requests (tr ++ [Request c]) = requests tr ++ [c].
Proof. by rewrite requests_app. Qed.

Lemma requests_snoc_other tr e :
  (forall c, e <> Request c) -> requests (tr ++ [e]) = requests tr.
Proof.
  intros H. rewrite requests_app. destruct e; simpl; try apply app_nil_r.
  by destruct (H c).
Qed.



(** ** What the effects leave alone *)

Lemma setTrace_id s : setTrace (trace s) s = s.
Proof. by destruct s. Qed.

Lemma requests_contentReads d tpl ts : requests (contentReads d tpl ts) = [].
Proof. by induction ts. Qed.

(** The [forEach] only reads: it leaves the state as it was, the reads logged. *)
Lemma loadCachedContent_state d tpl ts m s :
  (loadCachedContent d tpl ts m s).2 = setTrace (trace s ++ contentReads d tpl ts) s.
Proof.
  revert m s. induction ts as [|t ts IH]; intros m s; simpl.
  - rewrite app_nil_r. by rewrite setTrace_id.
  - assert (E : forall m', (loadCachedContent d tpl ts m' (emit
        (CacheRead (generatedContentKey d tpl (text t))) s)).2
      = setTrace (trace s ++ CacheRead (generatedContentKey d tpl (text t))
                   :: contentReads d tpl ts) s).
    { intros m'. rewrite IH. simpl. by rewrite <- app_assoc. }
    repeat case_match; apply E.
Qed.

Lemma documentStatusEffect_frame s :
  let s' := documentStatusEffect s in
  documentStatus s' = documentStatus s /\ docId s' = docId s
  /\ selectedTemplate s' = selectedTemplate s /\ queryClient s' = queryClient s
  /\ generatedTopics s' = generatedTopics s
  /\ exists tr, trace s' = trace s ++ tr /\ requests tr = [].
Proof.
  unfold documentStatusEffect. cbv zeta.
  repeat case_match; simpl; repeat split; try done.
  all: first [ by exists [] ; rewrite app_nil_r | by eexists [_] ].
Qed.

Lemma hydrationEffect_frame s :
  let s' := hydrationEffect s in
  documentStatus s' = documentStatus s /\ docId s' = docId s
  /\ selectedTemplate s' = selectedTemplate s /\ queryClient s' = queryClient s
  /\ scopeData s' = scopeData s
  /\ exists tr, trace s' = trace s ++ tr /\ requests tr = [].
Proof.
  unfold hydrationEffect, hydrationEffect_in. cbv zeta.
  repeat case_match; simpl;
    repeat match goal with
    | H : loadCachedContent ?d ?tpl ?ts ?m ?s0 = (_, ?s1) |- _ =>
        let E := fresh in
        pose proof (loadCachedContent_state d tpl ts m s0) as E;
        rewrite H in E; simpl in E; subst s1; clear H
    end; simpl; repeat split; try done;
    first [ by exists [] ; rewrite app_nil_r
          | by eexists [_]
          | eexists (_ :: _); split; [by rewrite <- app_assoc|];
            simpl; apply requests_contentReads ].
Qed.

(** ** Polling *)

Lemma statusQuery_deliver_frame ds s :
  let s' := statusQuery_deliver ds s in
  documentStatus s' = Some ds /\ docId s' = docId s
  /\ queryClient s' = queryClient s
  /\ exists tr, trace s' = trace s ++ tr /\ requests tr = [].
Proof.
  unfold statusQuery_deliver. cbv zeta.
  set (s0 := emit _ s).
  destruct (decide (documentStatus s0 = Some ds)) as [E | _].
  { split; [exact E|]. split; [reflexivity|]. split; [reflexivity|].
    by exists [Response (getDocumentStatusAPI (docId s)) true]. }
  set (s1 := setDocumentStatus _ _).
  destruct (documentStatusEffect_frame s1) as (H1 & H2 & _ & H3 & _ & tr1 & Ht1 & Hq1).
  destruct (hydrationEffect_frame (documentStatusEffect s1))
    as (G1 & G2 & _ & G3 & _ & tr2 & Ht2 & Hq2).
  rewrite G1, G2, G3, H1, H2, H3. repeat split.
  exists (Response (getDocumentStatusAPI (docId s)) true :: tr1 ++ tr2). split.
  - rewrite Ht2, Ht1. simpl. rewrite <- !app_assoc. done.
  - simpl. rewrite requests_app, Hq1, Hq2. done.
Qed.

Lemma statusQuery_deliver_new ds s :
  documentStatus s <> Some ds ->
  statusQuery_deliver ds s
  = hydrationEffect (documentStatusEffect (setDocumentStatus (Some ds)
      (emit (Response (getDocumentStatusAPI (docId s)) true) s))).
Proof.
  intros H. unfold statusQuery_deliver. cbv zeta.
  by destruct (decide (documentStatus (emit _ s) = Some ds)).
Qed.

Lemma statusQuery_deliver_same ds s :
  documentStatus s = Some ds ->
  statusQuery_deliver ds s = emit (Response (getDocumentStatusAPI (docId s)) true) s.
Proof.
  intros H. unfold statusQuery_deliver. cbv zeta.
  by destruct (decide (documentStatus (emit _ s) = Some ds)).
Qed.

Lemma refetchInterval_terminal ds :
  status ds = "processed" \/ status ds = "error" -> refetchInterval (Some ds) = None.
Proof. unfold refetchInterval. simpl. by intros [-> | ->]. Qed.

Lemma refetchInterval_running ds :
  status ds <> "processed" -> status ds <> "error" -> refetchInterval (Some ds) = Some 5000.
Proof.
  intros H1 H2. unfold refetchInterval. simpl.
  rewrite !bool_decide_eq_false_2; [done| |]; congruence.
Qed.

(** C5. The status query of a selected document sends its first request at
    once, before anything else goes on the log.  A response whose status is
    neither [processed] nor [error] arms a 5000 ms timer and the query polls
    again when it fires; a response whose status is [processed] or [error]
    makes [refetchInterval] return [false], and no further request is sent
    whatever else the service would have answered. *)
Theorem polling_policy (s : Analyze) (ds : DocumentStatus) (rest : list DocumentStatus) :
  (statusQuery_enabled s = true ->
     watch [] s = statusQuery_fetch s
     /\ trace (statusQuery_fetch s) = trace s ++ [Request (getDocumentStatusAPI (docId s))])
  /\ (status ds <> "processed" -> status ds <> "error" ->
        refetchInterval (Some ds) = Some 5000
        /\ poll (ds :: rest) s
           = poll rest (statusQuery_fetch (emit (Timer 5000) (statusQuery_deliver ds s))))
  /\ (status ds = "processed" \/ status ds = "error" ->
        refetchInterval (Some ds) = None
        /\ poll (ds :: rest) s = statusQuery_deliver ds s
        /\ requests (trace (poll (ds :: rest) s)) = requests (trace s)).
Proof.
  destruct (statusQuery_deliver_frame ds s) as (Hd & _ & _ & tr & Htr & Hq).
  split; [|split].
  - intros He. unfold watch. by rewrite He.
  - intros H1 H2. split; [by apply refetchInterval_running|].
    simpl. rewrite Hd. by rewrite refetchInterval_running.
  - intros H. assert (E : poll (ds :: rest) s = statusQuery_deliver ds s).
    { simpl. rewrite Hd. by rewrite refetchInterval_terminal. }
    split; [by apply refetchInterval_terminal|]. split; [done|].
    rewrite E, Htr, requests_app, Hq. apply app_nil_r.
Qed.

Lemma polling_policy_witness :
  let s := mount doc1 ∅ in
  trace (watch [] s) = [Request (getDocumentStatusAPI doc1)]
  /\ requests (trace (watch [processing; processing; processed; processing] s))
     = [getDocumentStatusAPI doc1; getDocumentStatusAPI doc1; getDocumentStatusAPI doc1]
  /\ refetchInterval (Some processing) = Some 5000
  /\ refetchInterval (Some processed) = None.
Proof.
  intros s.
  destruct (polling_policy s processing [processed]) as (H1 & H2 & _).
  destruct (polling_policy s processed []) as (_ & _ & H3).
  destruct (H1 eq_refl) as (Hw & Hf).
  split; [rewrite Hw; exact Hf|].
  split; [vm_compute; reflexivity|]. split.
  - apply H2; discriminate.
  - apply H3. by left.
Defined.

(** ** Chat *)

Lemma truthy_string_spec x : JS.truthy_string x = true <-> x <> "".
Proof.
  unfold JS.truthy_string. destruct (String.eqb_spec x ""); simpl; split; congruence.
Qed.

Lemma truthy_ostring_Some d : d <> "" -> JS.truthy_ostring (Some d) = true.
Proof. intros H. by apply truthy_string_spec. Qed.

Lemma historyForAPI_same (h : list ChatMessage) :
  map (λ msg, {| role := role msg; content := content msg |}) h = h.
Proof. induction h as [|[r c] h IH]; simpl; [done|]. by rewrite IH. Qed.

(** C4. A message that is sent (something is left of it after trimming,
    and a document and a template are selected) first gets its user turn appended, with nothing on the wire
    yet; the request then carries the transcript as it was before that turn.
    A successful response appends the assistant turn.  A failed one raises
    an error notification and removes the user turn again, so the transcript
    is the one from before the send. *)
Theorem chat_send_rollback (s : Analyze) (d : string) :
  JS.trim (currentChatMessage s) <> "" ->
  docId s = Some d -> d <> "" -> selectedTemplate s <> "" ->
  let m := currentChatMessage s in
  let h := chatHistory s in
  let call := chatWithDocumentAPI (Some d) (selectedTemplate s) m h in
  let s0 := chatMutation_onMutate m s in
  let s1 := handleSendChatMessage s in
  chatHistory s0 = h ++ [{| role := user; content := m |}]
  /\ trace s0 = trace s
  /\ s1 = chatMutation_mutationFn m h s0
  /\ chatHistory s1 = h ++ [{| role := user; content := m |}]
  /\ trace s1 = trace s ++ [Request call]
  /\ (forall data,
        chatHistory (chatMutation_settle m h (Ok data) s1)
        = h ++ [{| role := user; content := m |};
                {| role := assistant; content := response data |}])
  /\ (forall msg,
        let s2 := chatMutation_settle m h (Err msg) s1 in
        chatHistory s2 = h
        /\ length (chatHistory s2) = length h
        /\ toasts s2 = toasts s ++ [mkToast error ("Chat error: " +:+ msg)]
        /\ requests (trace s2) = requests (trace s1)).
Proof.
  intros Hb Hd Hne Ht m h call s0 s1.
  assert (E : s1 = chatMutation_mutationFn m h s0).
  { subst s1. unfold handleSendChatMessage.
    assert (Htrim : JS.truthy_string (JS.trim (currentChatMessage s)) = true)
      by by apply truthy_string_spec.
    rewrite Htrim, Hd, (truthy_ostring_Some d Hne).
    rewrite (proj2 (truthy_string_spec _) Ht). simpl.
    by rewrite historyForAPI_same. }
  split; [done|]. split; [done|]. split; [done|].
  rewrite E. subst s0 call. simpl. rewrite Hd.
  split; [done|]. split; [done|]. split.
  - intros data. simpl. by rewrite <- app_assoc.
  - intros msg. simpl. unfold JS.slice_0_m1. rewrite removelast_last.
    repeat split. by rewrite requests_snoc_other.
Qed.

Lemma chat_send_rollback_witness :
  let s := setCurrentChatMessage "What is the budget?"
             (setChatHistory [{| role := user; content := "hi" |};
                              {| role := assistant; content := "hello" |}]
                (setSelectedTemplate tplA (initial doc1 ∅))) in
  let s1 := handleSendChatMessage s in
  length (chatHistory s1) = 3%nat
  /\ chatHistory
       (chatMutation_settle "What is the budget?" (chatHistory s) (Err "Network Error") s1)
     = chatHistory s.
Proof.
  intros s s1.
  destruct (chat_send_rollback s "doc1") as (_ & _ & _ & H1 & _ & _ & H2);
    [discriminate | reflexivity | discriminate | discriminate |].
  split.
  - subst s1. rewrite H1. reflexivity.
  - apply (H2 "Network Error").
Defined.

(** ** Saving the draft *)

Lemma getContent_setQueryData k v s : getContent k (setQueryData k (QContent v) s) = Some v.
Proof. unfold getContent, setQueryData. simpl. by rewrite lookup_insert_eq. Qed.

(** C8, as amended.  For an open draft whose topic has a non-zero id, with a
    document selected, [handleSaveModalContent] writes the draft to
    [generatedContent] and to the query cache and then sends the save
    request.  When that request fails, both still hold the draft and an
    error notification is raised. *)
Theorem save_not_rolled_back (s : Analyze) (topic : Topic) (d : string) (n : Z) :
  currentTopicForModal s = Some topic ->
  docId s = Some d -> d <> "" ->
  topic_id topic = Some n -> n <> 0 ->
  let draft := modalContent s in
  let k := generatedContentKey (Some d) (selectedTemplate s) (text topic) in
  let call := saveDocumentContentAPI d n draft in
  let s1 := handleSaveModalContent s in
  generatedContent s1 !! text topic = Some draft
  /\ getContent k s1 = Some draft
  /\ trace s1 = trace s ++ [Request call]
  /\ forall msg,
       let s2 := saveContentMutation_settle call (Err msg) topic draft s1 in
       generatedContent s2 !! text topic = Some draft
       /\ getContent k s2 = Some draft
       /\ requests (trace s2) = requests (trace s1)
       /\ toasts s2 = toasts s ++
            [mkToast error ("Failed to save content for " +:+ dquote +:+ text topic
                            +:+ dquote +:+ ": " +:+ msg)].
Proof.
  intros Ht Hd Hne Hid Hn draft k call s1.
  assert (E : s1 = setIsModalOpen false (emit (Request call)
                (setQueryData k (QContent draft)
                   (setGeneratedContent (<[text topic := draft]> (generatedContent s)) s)))).
  { assert (Htd : JS.truthy_string d = true) by by apply truthy_string_spec.
    assert (Hz : (n =? 0) = false) by by apply Z.eqb_neq.
    subst s1. unfold handleSaveModalContent, saveContentMutation_mutate.
    rewrite Ht, Hd, Hid. simpl. rewrite Hd. simpl. rewrite Htd, Hz. simpl. done. }
  rewrite E. simpl.
  split; [apply lookup_insert_eq|]. split; [apply getContent_setQueryData|].
  split; [done|]. intros msg. simpl.
  split; [apply lookup_insert_eq|]. split; [apply getContent_setQueryData|].
  split; [by rewrite requests_snoc_other|done].
Qed.

Lemma save_not_rolled_back_witness :
  let s := setModalContent "edited text"
             (setCurrentTopicForModal (Some intro)
                (setGeneratedContent {[ "Intro" := Text "generated text" ]}
                   (setSelectedTemplate tplA (initial doc1 ∅)))) in
  let s1 := handleSaveModalContent s in
  let s2 := saveContentMutation_settle (saveDocumentContentAPI "doc1" 1 "edited text")
              (Err "Network Error") intro "edited text" s1 in
  trace s1 = [Request (saveDocumentContentAPI "doc1" 1 "edited text")]
  /\ generatedContent s2 !! "Intro" = Some (Text "edited text").
Proof.
  intros s s1 s2.
  destruct (save_not_rolled_back s intro "doc1" 1) as (_ & _ & H1 & H2);
    [reflexivity | reflexivity | discriminate | reflexivity | lia |].
  split.
  - apply H1.
  - apply (H2 "Network Error").
Defined.

(** C8 as stated fails for a topic whose id is the number 0: the draft is
    written to the cache, but no save request is sent and the outcome is
    reported as a local save. *)
Lemma save_id_zero_not_persisted :
  topic_id zeroTopic = Some 0
  /\ currentTopicForModal zeroDraft = Some zeroTopic
  /\ requests (trace (handleSaveModalContent zeroDraft)) = []
  /\ toasts (handleSaveModalContent zeroDraft)
     = [mkToast info "Content saved locally. Topic ID missing for backend save."].
Proof. repeat split. Qed.

(** C9. For an open draft whose topic has no id, with a document selected,
    [handleSaveModalContent] writes the draft to [generatedContent] and to
    the query cache, sends nothing, and raises one notification, of kind
    [info], that says the content was saved locally. *)
Theorem save_without_id_is_local (s : Analyze) (topic : Topic) (d : string) :
  currentTopicForModal s = Some topic ->
  docId s = Some d -> d <> "" ->
  topic_id topic = None ->
  let draft := modalContent s in
  let k := generatedContentKey (Some d) (selectedTemplate s) (text topic) in
  let s1 := handleSaveModalContent s in
  generatedContent s1 !! text topic = Some draft
  /\ getContent k s1 = Some draft
  /\ trace s1 = trace s
  /\ toasts s1 = toasts s ++
       [mkToast info "Content saved locally. Topic ID missing for backend save."].
Proof.
  intros Ht Hd Hne Hid draft k s1. subst s1.
  assert (Htd : JS.truthy_string d = true) by by apply truthy_string_spec.
  unfold handleSaveModalContent.
  rewrite Ht, Hd, Hid. simpl. rewrite Htd. simpl. rewrite Hd.
  split; [apply lookup_insert_eq|]. split; [|done].
  unfold getContent. simpl. by rewrite lookup_insert_eq.
Qed.

Lemma save_without_id_is_local_witness :
  let s := setModalContent "edited text"
             (setCurrentTopicForModal (Some (mkTopic None "Intro"))
                (setSelectedTemplate tplA (initial doc1 ∅))) in
  trace (handleSaveModalContent s) = []
  /\ toasts (handleSaveModalContent s)
     = [mkToast info "Content saved locally. Topic ID missing for backend save."].
Proof.
  intros s.
  destruct (save_without_id_is_local s (mkTopic None "Intro") "doc1")
    as (_ & _ & H1 & H2); [reflexivity | reflexivity | discriminate | reflexivity |].
  split; [apply H1 | apply H2].
Defined.

(** ** Batch generation *)

(** One generation, from [mutate] to [onSettled]. *)
Lemma generation_frame topic r s :
  let s1 := generateContentMutation_mutate topic s in
  let s2 := generateContentMutation_settle (started (generateContentMutation s1)) r topic s1 in
  docId s2 = docId s /\ selectedTemplate s2 = selectedTemplate s
  /\ trace s2 = (trace s ++ [Request (generationCall s topic)])
                ++ [Response (generationCall s topic) (isOk r)]
  /\ isBatchGeneratingRef s2 = isBatchGeneratingRef s
  /\ generatedTopics s2 = generatedTopics s
  /\ scopeData s2 = scopeData s
  /\ toasts s2 = toasts s ++
       match r with
       | Ok data => [mkToast success ("Content generated for: "
                                      +:+ JS.or_string (gc_topic data) (text topic))]
       | Err msg => [mkToast error ("Failed to generate content for " +:+ text topic
                                    +:+ ": " +:+ msg)]
       end.
Proof.
  destruct s as [? ? ? ? ? ? ? ? ? batch ? ? ? ? ? ? ? ? ?].
  destruct r as [data|msg]; [destruct batch|]; repeat split.
Qed.

Section BatchProperties.

Variable contentService :
  list Event -> option string -> string -> string -> Result GeneratedContentData.

Lemma batchLoop_cons content loading topic rest count s :
  batchLoop contentService content loading (topic :: rest) count s
  = if needsGeneration content loading topic then
      let s1 := generateContentMutation_mutate topic s in
      let r := contentService (trace s1) (docId s1) (selectedTemplate s1) (text topic) in
      let s2 := generateContentMutation_settle
                  (started (generateContentMutation s1)) r topic s1 in
      match r with
      | Ok _ => batchLoop contentService content loading rest (S count) s2
      | Err _ =>
          batchLoop contentService content loading rest count
            (toast error ("Failed to generate content for " +:+ text topic
                          +:+ " during batch operation.") s2)
      end
    else batchLoop contentService content loading rest count s.
Proof. reflexivity. Qed.

Lemma generationEvents_app s o :
  generationEvents s o
  = [Request (generationCall s o.1)] ++ [Response (generationCall s o.1) (isOk o.2)].
Proof. reflexivity. Qed.

Lemma batchLoop_spec content loading todo count s :
  exists outs,
    map fst outs = List.filter (needsGeneration content loading) todo
    /\ (batchLoop contentService content loading todo count s).1
       = (count + successes outs)%nat
    /\ let s' := (batchLoop contentService content loading todo count s).2 in
       docId s' = docId s /\ selectedTemplate s' = selectedTemplate s
       /\ generatedTopics s' = generatedTopics s /\ scopeData s' = scopeData s
       /\ trace s' = trace s ++ flat_map (generationEvents s) outs
       /\ toasts s' = toasts s ++ flat_map generationToasts outs.
Proof.
  revert count s. induction todo as [|topic rest IH]; intros count s.
  - exists []. cbn [batchLoop flat_map map List.filter fst snd successes length].
    rewrite !app_nil_r. repeat split. lia.
  - rewrite batchLoop_cons. cbn [List.filter].
    destruct (needsGeneration content loading topic) eqn:Hn; [|apply IH].
    cbv zeta.
    set (s1 := generateContentMutation_mutate topic s).
    set (r := contentService (trace s1) (docId s1) (selectedTemplate s1) (text topic)).
    set (s2 := generateContentMutation_settle _ r topic s1).
    destruct (generation_frame topic r s) as (Hd & Ht & Htr & _ & Hg & Hsc & Hto).
    fold s1 s2 in Hd, Ht, Htr, Hg, Hsc, Hto.
    assert (Hev : forall s3 outs, docId s3 = docId s2 ->
              selectedTemplate s3 = selectedTemplate s2 ->
              flat_map (generationEvents s3) outs = flat_map (generationEvents s) outs).
    { intros s3 outs H1 H2. apply flat_map_ext. intros o.
      unfold generationEvents, generationCall. by rewrite H1, H2, Hd, Ht. }
    destruct r as [data|msg] eqn:Hr.
    + destruct (IH (S count) s2) as (outs & Hm & Hc & Hd' & Ht' & Hg' & Hsc' & Htr' & Hto').
      exists ((topic, Ok data) :: outs).
      cbn [map fst flat_map]. rewrite Hm, Hc.
      split; [reflexivity|]. split; [unfold successes; cbn; lia|].
      cbv zeta. rewrite Hd', Ht', Hg', Hsc', Htr', Hto', Hd, Ht, Hg, Hsc, Htr, Hto.
      rewrite (Hev s2) by reflexivity. rewrite generationEvents_app.
      cbn [fst snd generationToasts isOk]. rewrite <- !app_assoc. repeat split.
    + set (s3 := toast error _ s2).
      destruct (IH count s3) as (outs & Hm & Hc & Hd' & Ht' & Hg' & Hsc' & Htr' & Hto').
      exists ((topic, Err msg) :: outs).
      cbn [map fst flat_map]. rewrite Hm, Hc.
      split; [reflexivity|]. split; [unfold successes; cbn; lia|].
      cbv zeta. rewrite Hd', Ht', Hg', Hsc', Htr', Hto'.
      change (docId s3) with (docId s2). change (selectedTemplate s3) with (selectedTemplate s2).
      change (generatedTopics s3) with (generatedTopics s2).
      change (scopeData s3) with (scopeData s2).
      change (trace s3) with (trace s2).
      change (toasts s3) with (toasts s2 ++ [mkToast error
        ("Failed to generate content for " +:+ text topic +:+ " during batch operation.")]).
      rewrite Hd, Ht, Hg, Hsc, Htr, Hto.
      rewrite (Hev s3) by reflexivity. rewrite generationEvents_app.
      cbn [fst snd generationToasts isOk]. rewrite <- !app_assoc. repeat split.
Qed.

End BatchProperties.

Lemma requests_generationEvents s outs :
  requests (flat_map (generationEvents s) outs) = map (generationCall s) (map fst outs).
Proof. induction outs as [|o outs IH]; [done|]. cbn. by rewrite <- IH. Qed.

Lemma filter_negb_length {A} (p : A -> bool) (l : list A) :
  length (List.filter (λ x, negb (p x)) l) = (length l - length (List.filter p l))%nat.
Proof.
  induction l as [|x l IH]; [done|]. cbn.
  pose proof (filter_length_le p l) as Hle.
  destruct (p x); cbn; lia.
Qed.

(** Under a name that [Object.prototype] has no member for, the component
    reads what is stored, and nothing else. *)
Lemma hasContent_stored m t :
  inherited (text t) = false -> hasContent m t = storedContent m t.
Proof.
  intros H. unfold hasContent, storedContent, index.
  destruct (m !! text t); [done|]. by rewrite H.
Qed.

Lemma isLoading_inFlight m t :
  inherited (text t) = false -> isLoading m t = inFlight m t.
Proof.
  intros H. unfold isLoading, inFlight. destruct (m !! text t); [done|]. by rewrite H.
Qed.

(** Under a name that [Object.prototype] has a member for, with nothing
    stored, the component reads a content and a generation in flight. *)
Lemma inherited_reads m l t :
  inherited (text t) = true -> m !! text t = None -> l !! text t = None ->
  hasContent m t = true /\ isLoading l t = true /\ needsGeneration m l t = false.
Proof.
  intros H Hm Hl. unfold needsGeneration, hasContent, isLoading, index.
  by rewrite Hm, Hl, H.
Qed.

Lemma toGenerate_plain s :
  (forall t, In t (generatedTopics s) ->
     inherited (text t) = false /\ inFlight (contentLoadingState s) t = false) ->
  toGenerate s
  = List.filter (λ t, negb (storedContent (generatedContent s) t)) (generatedTopics s).
Proof.
  intros H. unfold toGenerate. apply filter_ext_in. intros t Ht.
  destruct (H t Ht) as [Hi Hf]. unfold needsGeneration.
  rewrite (hasContent_stored _ t Hi), (isLoading_inFlight _ t Hi), Hf.
  apply andb_true_r.
Qed.

Section BatchTheorems.

Variable contentService :
  list Event -> option string -> string -> string -> Result GeneratedContentData.

(** What a batch run does, whatever the service answers. *)
Lemma handleGenerateAllContent_spec (s : Analyze) :
  let s' := handleGenerateAllContent contentService s in
  exists outs,
    map fst outs = toGenerate s
    /\ trace s' = trace s ++ flat_map (generationEvents s) outs
    /\ generatedTopics s' = generatedTopics s
    /\ scopeData s' = scopeData s
    /\ (generatedTopics s <> [] ->
          toasts s' = toasts s ++ mkToast info "Starting batch content generation..."
                        :: flat_map generationToasts outs ++ [batchSummary (successes outs)]).
Proof.
  unfold handleGenerateAllContent.
  destruct (generatedTopics s) as [|t0 ts] eqn:Hts.
  - exists []. unfold toGenerate. rewrite Hts. cbn. rewrite app_nil_r. by repeat split.
  - cbn [length Nat.eqb].
    set (s1 := toast info _ _).
    destruct (batchLoop_spec contentService (generatedContent s) (contentLoadingState s)
                (t0 :: ts) 0 s1) as (outs & Hm & Hc & _ & _ & Hg & Hsc & Htr & Hto).
    destruct (batchLoop contentService _ _ (t0 :: ts) 0 s1) as [count s2] eqn:E.
    cbn [fst snd] in Hc, Hg, Hsc, Htr, Hto. cbn [Nat.add] in Hc. subst count.
    exists outs. unfold toGenerate. rewrite Hts.
    split; [exact Hm|].
    assert (Hb : forall k m s3, (if (0 <? successes outs)%nat then toast success k s3
                                 else toast info m s3)
               = toast (if (0 <? successes outs)%nat then success else info)
                       (if (0 <? successes outs)%nat then k else m) s3).
    { intros. by destruct (0 <? successes outs)%nat. }
    rewrite Hb. cbn [trace toast setToasts generatedTopics scopeData toasts
                     setIsGeneratingAll setIsBatchGeneratingRef].
    rewrite Htr, Hg, Hsc, Hto.
    split; [reflexivity|]. split; [by rewrite <- Hts|]. split; [reflexivity|].
    intros _. unfold batchSummary.
    change (toasts s1) with (toasts s ++ [mkToast info "Starting batch content generation..."]).
    rewrite <- !app_assoc. cbn [app].
    by destruct (0 <? successes outs)%nat.
Qed.

(** C2, as amended.  Whatever the service answers, a batch run sends one
    generation request for each topic for which the loop reads neither a
    content nor a generation in flight, in topic order and each only after
    the previous one was answered: a failure does not stop the run.  When no
    topic is named after a member of [Object.prototype] and none is in
    flight, these are the topics without a non-empty stored content:
    N - K requests for N topics of which K have one.  Every generation raises
    its own notifications, two error notifications for a failure, and the
    closing notification carries the number of generations that succeeded. *)
Theorem batch_generation (s : Analyze) :
  let s' := handleGenerateAllContent contentService s in
  exists outs,
    map fst outs = toGenerate s
    /\ trace s' = trace s ++ flat_map (generationEvents s) outs
    /\ requests (trace s') = requests (trace s) ++ map (generationCall s) (toGenerate s)
    /\ ((forall t, In t (generatedTopics s) ->
            inherited (text t) = false /\ inFlight (contentLoadingState s) t = false) ->
          toGenerate s
          = List.filter (λ t, negb (storedContent (generatedContent s) t)) (generatedTopics s)
          /\ length (toGenerate s)
             = (length (generatedTopics s)
                - length (List.filter (storedContent (generatedContent s))
                            (generatedTopics s)))%nat)
    /\ (generatedTopics s <> [] ->
          toasts s' = toasts s ++ mkToast info "Starting batch content generation..."
                        :: flat_map generationToasts outs ++ [batchSummary (successes outs)]).
Proof.
  destruct (handleGenerateAllContent_spec s) as (outs & Hm & Htr & _ & _ & Hto).
  exists outs. split; [exact Hm|]. split; [exact Htr|]. split; [|split; [|exact Hto]].
  - rewrite Htr, requests_app, requests_generationEvents, Hm. reflexivity.
  - intros Hl. rewrite (toGenerate_plain s Hl). split; [reflexivity|].
    apply filter_negb_length.
Qed.

End BatchTheorems.

(** "Intro" is cached, "Scope" is not: one request, for "Scope", and both
    have content afterwards. *)
Lemma batch_generation_witness :
  let s := topicsReady [intro; scope] {[ "Intro" := Text "About Intro" ]} in
  let s' := handleGenerateAllContent steadyService s in
  requests (trace s') = [generateContentAPI doc1 tplA "Scope"]
  /\ length (toGenerate s) = (2 - 1)%nat
  /\ generatedContent s' !! "Intro" = Some (Text "About Intro")
  /\ generatedContent s' !! "Scope" = Some (Text "About Scope").
Proof.
  intros s s'.
  destruct (batch_generation steadyService s) as (outs & _ & _ & Hr & Hn & _).
  split; [|split; [|split]].
  - subst s'. rewrite Hr. reflexivity.
  - destruct Hn as [_ Hn]; [|rewrite Hn; reflexivity].
    intros t [<- | [<- | []]]; split; reflexivity.
  - vm_compute. reflexivity.
  - vm_compute. reflexivity.
Defined.

(** C2 as stated fails in what is counted.  With "Intro" failing and
    "Scope" and "Budget" generated, one request failed, and the only count
    that is notified is 2, the number of successes.  A topic whose content
    is the empty string is generated again.  And for one topic, called
    "constructor", with no content stored and nothing in flight
    (N = 1, K = 0), no request is sent at all. *)
Lemma batch_counts_successes :
  let s' := handleGenerateAllContent flakyService (topicsReady [intro; scope; budget] ∅) in
  let e' := handleGenerateAllContent steadyService
              (topicsReady [intro] {[ "Intro" := Text "" ]}) in
  let c := topicsReady [constructorTopic] ∅ in
  let c' := handleGenerateAllContent steadyService c in
  failedResponses (trace s') = 1%nat
  /\ toasts s'
     = [mkToast info "Starting batch content generation...";
        mkToast error "Failed to generate content for Intro: timeout";
        mkToast error "Failed to generate content for Intro during batch operation.";
        mkToast success "Content generated for: Scope";
        mkToast success "Content generated for: Budget";
        mkToast success "Batch content generation completed for 2 topics."]
  /\ requests (trace e') = [generateContentAPI doc1 tplA "Intro"]
  /\ (generatedContent c = ∅ /\ contentLoadingState c = ∅
      /\ length (generatedTopics c) = 1%nat
      /\ requests (trace c') = []
      /\ toasts c'
         = [mkToast info "Starting batch content generation...";
            mkToast info
              "No new content was generated in batch (already exists or was generating)."]).
Proof. vm_compute. repeat split. Qed.

(** ** In-flight topics *)




(** The handler's own test also asks for a pending generation.  Start a
    generation for "Scope", then a batch run that generates "Intro": the
    observed mutation is now the settled one for "Intro" while "Scope" is
    still loading.  Called in that state the handler would start a second
    generation for "Scope"; the disabled button is what keeps it from being
    called. *)
Remark handler_guard_needs_pending :
  let s := handleGenerateAllContent steadyService
             (generateContentMutation_mutate scope (topicsReady [intro; scope] ∅)) in
  isLoading (contentLoadingState s) scope = true
  /\ isPending (generateContentMutation s) = false
  /\ topicButton_disabled scope s = true
  /\ requests (trace (handleGenerateOrViewContent scope s))
     = requests (trace s) ++ [generateContentAPI doc1 tplA "Scope"].
Proof. vm_compute. repeat split. Qed.

(** ** Topic generation needs a confirmed scope *)

(** The guard of [handleGenerateTopics].  With the scope absent or
    unconfirmed, the handler only raises an error notification: it sends
    nothing and changes nothing else.  So a topic-generation request is only
    ever sent from a state whose scope is confirmed.  The other source of
    topics, the hydration effect, installs none while the scope is
    unconfirmed, and without topics a batch run sends nothing. *)
Lemma topics_need_confirmed_scope (s : Analyze) :
  (scopeConfirmed s = false ->
     (exists msg, handleGenerateTopics s = toast error msg s)
     /\ requests (trace (handleGenerateTopics s)) = requests (trace s)
     /\ (generatedTopics (hydrationEffect s) = generatedTopics s
         \/ generatedTopics (hydrationEffect s) = []))
  /\ (trace (handleGenerateTopics s) <> trace s -> scopeConfirmed s = true)
  /\ (generatedTopics s = [] ->
        forall service, trace (handleGenerateAllContent service s) = trace s).
Proof.
  split; [|split].
  - intros Hc. split; [|split].
    + unfold handleGenerateTopics. rewrite Hc.
      destruct (negb _ || negb _); eauto.
    + unfold handleGenerateTopics. rewrite Hc.
      by destruct (negb _ || negb _).
    + unfold hydrationEffect, hydrationEffect_in. cbv zeta. rewrite Hc, andb_false_r.
      destruct (negb _ && _); [right|left]; by destruct (scopeData s) as [[? ? []]|].
  - intros Hne. destruct (scopeConfirmed s) eqn:Hc; [done|].
    exfalso. apply Hne. unfold handleGenerateTopics. rewrite Hc.
    by destruct (negb _ || negb _).
  - intros Hts service. unfold handleGenerateAllContent. by rewrite Hts.
Qed.

Example topics_need_confirmed_scope_unconfirmed :
  let s := setScopeData (Some (scope34 false))
             (setAnalysisStep 2 (setSelectedTemplate tplA (initial doc1 ∅))) in
  handleGenerateTopics s
  = toast error "Scope must be confirmed before generating topics." s
  /\ requests (trace (handleGenerateTopics s)) = [].
Proof.
  intros s.
  destruct (topics_need_confirmed_scope s) as (H & _).
  destruct (H eq_refl) as (_ & H2 & _).
  split; [reflexivity | exact H2].
Qed.

(** The handlers that generate content have no such guard: they never read
    [scopeData]. *)
Lemma generation_ignores_scope topic r sc s :
  let s1 := generateContentMutation_mutate topic s in
  let mid := started (generateContentMutation s1) in
  generateContentMutation_mutate topic (setScopeData sc s) = setScopeData sc s1
  /\ generateContentMutation_settle mid r topic (setScopeData sc s1)
     = setScopeData sc (generateContentMutation_settle mid r topic s1).
Proof.
  destruct s as [? ? ? ? ? ? ? ? ? batch ? ? ? ? ? ? ? ? ?].
  destruct r as [data|msg]; [destruct batch|]; split; reflexivity.
Qed.

Lemma batchLoop_ignores_scope service content loading todo count sc s :
  batchLoop service content loading todo count (setScopeData sc s)
  = ((batchLoop service content loading todo count s).1,
     setScopeData sc (batchLoop service content loading todo count s).2).
Proof.
  revert count s. induction todo as [|topic rest IH]; intros count s; [reflexivity|].
  rewrite !batchLoop_cons.
  destruct (needsGeneration content loading topic); [|apply IH].
  cbv zeta.
  destruct (generation_ignores_scope topic
              (service (trace (generateContentMutation_mutate topic s))
                 (docId (generateContentMutation_mutate topic s))
                 (selectedTemplate (generateContentMutation_mutate topic s)) (text topic))
              sc s) as (E1 & E2).
  cbv zeta in E1, E2. rewrite E1.
  set (s1 := generateContentMutation_mutate topic s) in *.
  change (trace (setScopeData sc s1)) with (trace s1).
  change (docId (setScopeData sc s1)) with (docId s1).
  change (selectedTemplate (setScopeData sc s1)) with (selectedTemplate s1).
  change (started (generateContentMutation (setScopeData sc s1)))
    with (started (generateContentMutation s1)).
  set (r := service (trace s1) (docId s1) (selectedTemplate s1) (text topic)) in *.
  rewrite E2.
  destruct r as [data|msg]; [apply IH|].
  set (s2 := generateContentMutation_settle _ (Err msg) topic s1).
  change (toast error ?m (setScopeData sc s2)) with (setScopeData sc (toast error m s2)).
  apply IH.
Qed.

Lemma content_generation_ignores_scope topic sc s :
  handleGenerateOrViewContent topic (setScopeData sc s)
  = setScopeData sc (handleGenerateOrViewContent topic s)
  /\ topicButton_disabled topic (setScopeData sc s) = topicButton_disabled topic s
  /\ forall service,
       handleGenerateAllContent service (setScopeData sc s)
       = setScopeData sc (handleGenerateAllContent service s).
Proof.
  split; [|split].
  - unfold handleGenerateOrViewContent. cbv zeta.
    change (generatedContent (setScopeData sc s)) with (generatedContent s).
    change (generateContentMutation (setScopeData sc s)) with (generateContentMutation s).
    change (contentLoadingState (setScopeData sc s)) with (contentLoadingState s).
    destruct (truthy_ocontent _); [reflexivity|].
    destruct (isPending _ && isLoading _ _); [reflexivity|].
    destruct (isPending _ && negb _); [reflexivity|].
    destruct (generation_ignores_scope topic (Err "") sc s) as (E & _). exact E.
  - reflexivity.
  - intros service. unfold handleGenerateAllContent.
    change (generatedTopics (setScopeData sc s)) with (generatedTopics s).
    change (generatedContent (setScopeData sc s)) with (generatedContent s).
    change (contentLoadingState (setScopeData sc s)) with (contentLoadingState s).
    destruct (length (generatedTopics s) =? 0)%nat; [reflexivity|].
    change (toast info "Starting batch content generation..."
              (setIsGeneratingAll true (setIsBatchGeneratingRef true (setScopeData sc s))))
      with (setScopeData sc (toast info "Starting batch content generation..."
              (setIsGeneratingAll true (setIsBatchGeneratingRef true s)))).
    rewrite batchLoop_ignores_scope.
    destruct (batchLoop service _ _ _ 0 _) as [count s2]. cbn [fst snd].
    destruct (0 <? count)%nat; reflexivity.
Qed.

(** C6.  Topic generation is requested for "doc1", whose scope is
    confirmed; before the answer arrives the route changes to "doc2", for
    which nothing is cached and whose status is reported as processing.  The
    effect on [docId] resets the scope, and the answer then sets the topics
    and stage 4: the topics are on display with no scope at all.
    [handleGenerateTopics] still refuses, but the button of "Intro" is
    enabled and sends the content generation for "doc2", and so does a batch
    run. *)
Theorem content_generation_without_scope :
  let s1 := handleGenerateTopics confirmedOnDoc1 in
  let s2 := poll [processing] (changeDocument (Some "doc2") None s1) in
  let s3 := generateTopicsMutation_onSuccess introAnswer
              (emit (Response (generateTopicsAPI doc1 tplA) true) s2) in
  scopeConfirmed confirmedOnDoc1 = true
  /\ requests (trace s1) = [generateTopicsAPI doc1 tplA]
  /\ (docId s2 = Some "doc2" /\ scopeData s2 = None /\ analysisStep s2 = 1)
  /\ (analysisStep s3 = 4 /\ generatedTopics s3 = [intro]
      /\ scopeData s3 = None /\ scopeConfirmed s3 = false
      /\ getScope (documentScopeKey (Some "doc2")) s3 = None)
  /\ topicsCard_shown s3 = true
  /\ topicButton_disabled intro s3 = false
  /\ handleGenerateTopics s3
     = toast error "Scope must be confirmed before generating topics." s3
  /\ requests (trace (topicButton_onClick intro s3))
     = requests (trace s3) ++ [generateContentAPI (Some "doc2") tplA "Intro"]
  /\ requests (trace (handleGenerateAllContent steadyService s3))
     = requests (trace s3) ++ [generateContentAPI (Some "doc2") tplA "Intro"].
Proof. vm_compute. repeat split. Qed.

(** ** Scope extraction and confirmation *)

(** Once a scope is loaded, [handleStartAnalysis] extracts nothing: it only
    says where the workflow stands. *)
Lemma handleStartAnalysis_with_scope s sc :
  scopeData s = Some sc ->
  requests (trace (handleStartAnalysis s)) = requests (trace s).
Proof.
  intros Hsc. unfold handleStartAnalysis. rewrite Hsc.
  destruct (negb _ || negb _); [done|].
  destruct (negb (bool_decide _)); [done|].
  by destruct (negb (is_confirmed sc)).
Qed.

(** Confirming the scope [{text: "...", sourcePages: [3, 4], confirmed: false}]:
    the confirmed scope comes back and the stage goes from 2 to 3. *)
Example confirm_scope_advances :
  let s := setScopeData (Some (scope34 false)) (setAnalysisStep 2 (initial doc1 ∅)) in
  let s' := confirmScopeMutation_settle None (Ok (scope34 true)) (handleConfirmScope s) in
  requests (trace s') = [confirmDocumentScopeAPI doc1 []]
  /\ scopeData s' = Some (scope34 true)
  /\ analysisStep s' = 3
  /\ getScope (documentScopeKey doc1) s' = Some (scope34 true).
Proof. vm_compute. repeat split. Qed.

(** Without a scope there is nothing to confirm. *)
Lemma handleConfirmScope_without_scope s :
  scopeData s = None ->
  handleConfirmScope s = toast error "No scope data to confirm." s.
Proof. intros H. unfold handleConfirmScope. by rewrite H. Qed.

(** ** Resuming from the cache *)

Lemma assign_lookup k v m : k <> "__proto__" -> assign k v m !! k = Some v.
Proof.
  intros Hk. unfold assign. rewrite (proj2 (String.eqb_neq _ _) Hk).
  apply lookup_insert_eq.
Qed.

Lemma assign_lookup_ne k v m key : k <> key -> assign k v m !! key = m !! key.
Proof.
  intros Hk. unfold assign. destruct (String.eqb k "__proto__"); [done|].
  by apply lookup_insert_ne.
Qed.

Lemma loadCachedContent_lookup d tpl ts m s key c :
  getContent (generatedContentKey d tpl key) s = Some c ->
  truthy_content c = true -> key <> "__proto__" ->
  (m !! key = Some c \/ exists t, In t ts /\ text t = key) ->
  (loadCachedContent d tpl ts m s).1 !! key = Some c.
Proof.
  intros Hc Hne Hkey. revert m s Hc. induction ts as [|t ts IH]; intros m s Hc H.
  - destruct H as [H | (t & [] & _)]. exact H.
  - cbn [loadCachedContent]. cbv zeta.
    set (s1 := emit _ s).
    assert (Hc1 : getContent (generatedContentKey d tpl key) s1 = Some c) by exact Hc.
    destruct (decide (text t = key)) as [Heq | Hneq].
    + rewrite Heq, Hc1, Hne.
      apply IH; [exact Hc1|]. left. by apply assign_lookup.
    + assert (Hrest : forall m', m' !! key = m !! key ->
                (loadCachedContent d tpl ts m' s1).1 !! key = Some c).
      { intros m' Hm'. apply IH; [exact Hc1|].
        destruct H as [H | (t' & [<- | Hin] & Ht')]; [left; congruence| done |right; eauto]. }
      repeat case_match; apply Hrest; try done; by apply assign_lookup_ne.
Qed.

Lemma mount_selected d qc : d <> "" -> mount (Some d) qc = initial (Some d) qc.
Proof. destruct d; [done|]. reflexivity. Qed.

Lemma documentStatusEffect_confirmed s ds sc :
  documentStatus s = Some ds -> status ds = "processed" ->
  getScope (documentScopeKey (docId s)) s = Some sc -> is_confirmed sc = true ->
  documentStatusEffect s
  = setAnalysisStep 3 (setScopeData (Some sc) (emit (CacheRead (documentScopeKey (docId s))) s)).
Proof.
  intros Hds Hst Hsc Hc. unfold documentStatusEffect. rewrite Hds, Hst. cbv zeta.
  cbn [String.eqb Ascii.eqb Bool.eqb].
  change (getScope (documentScopeKey (docId s)) (emit _ s))
    with (getScope (documentScopeKey (docId s)) s).
  by rewrite Hsc, Hc.
Qed.

(** The hydration effect at stage 3 with a template and cached topics. *)
Lemma hydrationEffect_load s d ts :
  docId s = Some d -> d <> "" -> selectedTemplate s <> "" ->
  analysisStep s = 3 -> scopeConfirmed s = true ->
  getTopics (generatedTopicsKey (docId s) (selectedTemplate s)) s = Some ts ->
  let k := generatedTopicsKey (docId s) (selectedTemplate s) in
  let s1 := setAnalysisStep 4 (setGeneratedTopics ts (emit (CacheRead k) s)) in
  let loaded := loadCachedContent (docId s) (selectedTemplate s) ts ∅ s1 in
  hydrationEffect s
  = toast info "Loaded previously generated topics and content."
      (setGeneratedContent loaded.1 loaded.2).
Proof.
  intros Hd Hne Ht Hs Hc Hts k s1 loaded. unfold hydrationEffect, hydrationEffect_in. cbv zeta.
  rewrite Hs, Hc. rewrite Hd at 1. cbn [JS.truthy_ostring Z.eqb Pos.eqb].
  rewrite (proj2 (truthy_string_spec _) Hne), (proj2 (truthy_string_spec _) Ht).
  cbn [andb negb].
  change (getTopics (generatedTopicsKey (docId s) (selectedTemplate s)) (emit _ s))
    with (getTopics (generatedTopicsKey (docId s) (selectedTemplate s)) s).
  rewrite Hts. fold k. fold s1. fold loaded.
  by destruct loaded.
Qed.

(** The hydration effect at stage 3 without a template. *)
Lemma hydrationEffect_no_template s sc :
  selectedTemplate s = "" -> analysisStep s = 3 ->
  scopeData s = Some sc -> is_confirmed sc = true ->
  hydrationEffect s = setAnalysisStep 3 (setGeneratedContent ∅ (setGeneratedTopics [] s)).
Proof.
  intros Ht Hs Hsc Hc. unfold hydrationEffect, hydrationEffect_in. cbv zeta.
  rewrite Ht, Hs, Hsc, Hc. cbn [JS.truthy_string String.eqb negb andb Z.leb Z.compare
                                  Pos.compare Pos.compare_cont].
  by rewrite andb_false_r.
Qed.

(** The hydration effect below stage 3 does nothing. *)
Lemma hydrationEffect_early s : analysisStep s = 0 -> hydrationEffect s = s.
Proof.
  intros Hs. unfold hydrationEffect, hydrationEffect_in. cbv zeta. rewrite Hs.
  cbn [Z.eqb Z.leb Z.compare]. by rewrite !andb_false_r.
Qed.

(** The first poll of a freshly entered document that finds it processed,
    with a confirmed scope in the cache: stage 3, scope loaded, and one
    request on the wire. *)
Lemma watch_processed_confirmed d qc sc ds :
  d <> "" ->
  qc !! documentScopeKey (Some d) = Some (QScope sc) -> is_confirmed sc = true ->
  status ds = "processed" ->
  let s := watch [ds] (mount (Some d) qc) in
  docId s = Some d /\ selectedTemplate s = "" /\ analysisStep s = 3
  /\ scopeData s = Some sc /\ queryClient s = qc
  /\ trace s = [Request (getDocumentStatusAPI (Some d));
               Response (getDocumentStatusAPI (Some d)) true;
               CacheRead (documentScopeKey (Some d))].
Proof.
  intros Hne Hq Hc Hst. rewrite (mount_selected d qc Hne).
  unfold watch, statusQuery_enabled.
  change (docId (initial (Some d) qc)) with (Some d).
  rewrite (truthy_ostring_Some d Hne). cbn [poll].
  rewrite statusQuery_deliver_new by discriminate.
  set (sA := setDocumentStatus (Some ds) _).
  assert (HB : documentStatusEffect sA
               = setAnalysisStep 3 (setScopeData (Some sc)
                   (emit (CacheRead (documentScopeKey (docId sA))) sA))).
  { apply (documentStatusEffect_confirmed sA ds sc); try done.
    unfold getScope. change (queryClient sA) with qc.
    change (docId sA) with (Some d). by rewrite Hq. }
  rewrite HB. set (sB := setAnalysisStep 3 _).
  rewrite (hydrationEffect_no_template sB sc) by done.
  change (documentStatus (setAnalysisStep 3 (setGeneratedContent ∅ (setGeneratedTopics [] sB))))
    with (Some ds).
  rewrite (refetchInterval_terminal ds) by by left.
  repeat split.
Qed.

(** What the hydration effect loads at stage 3, with a confirmed scope and
    a template whose topics are in the cache. *)
Lemma hydrationEffect_resume s0 d tpl sc ts :
  docId s0 = Some d -> d <> "" -> selectedTemplate s0 = tpl -> tpl <> "" ->
  analysisStep s0 = 3 -> scopeData s0 = Some sc -> is_confirmed sc = true ->
  queryClient s0 !! generatedTopicsKey (Some d) tpl = Some (QTopics ts) ->
  let s := hydrationEffect s0 in
  analysisStep s = 4
  /\ scopeData s = Some sc
  /\ generatedTopics s = ts
  /\ documentStatus s = documentStatus s0
  /\ (forall t (c : string), In t ts ->
        queryClient s0 !! generatedContentKey (Some d) tpl (text t) = Some (QContent c) ->
        c <> "" -> text t <> "__proto__" -> generatedContent s !! text t = Some (Text c))
  /\ trace s = trace s0 ++ CacheRead (generatedTopicsKey (Some d) tpl)
                            :: contentReads (Some d) tpl ts.
Proof.
  intros Hd Hne Ht Htpl Hs Hsc Hc Hts.
  assert (Hload := hydrationEffect_load s0 d ts Hd Hne).
  rewrite Ht, Hd in Hload. unfold scopeConfirmed in Hload. rewrite Hsc in Hload.
  assert (Hg : getTopics (generatedTopicsKey (Some d) tpl) s0 = Some ts).
  { unfold getTopics. by rewrite Hts. }
  specialize (Hload Htpl Hs Hc Hg). cbv zeta in Hload.
  cbv zeta. rewrite Hload. clear Hload.
  set (s1 := setAnalysisStep 4 _).
  pose proof (loadCachedContent_state (Some d) tpl ts ∅ s1) as Hst1.
  cbn [analysisStep scopeData generatedTopics generatedContent trace toast setToasts
       setGeneratedContent documentStatus].
  rewrite Hst1.
  cbn [analysisStep scopeData generatedTopics trace setTrace documentStatus].
  change (trace s1) with (trace s0 ++ [CacheRead (generatedTopicsKey (Some d) tpl)]).
  rewrite <- app_assoc.
  split; [reflexivity|]. split; [exact Hsc|]. split; [reflexivity|].
  split; [reflexivity|]. split; [|reflexivity].
  intros t c Hin Hcache Hcne Hkey.
  apply loadCachedContent_lookup;
    [|by apply truthy_string_spec|exact Hkey|right; eauto].
  unfold getContent. change (queryClient s1) with (queryClient s0).
  by rewrite Hcache.
Qed.

(** The resume works when the query client holds no status for the
    document.  Entering a document whose confirmed scope and whose topics
    under a template are in the cache sends the status request; once the
    poll reports [processed] and that template is selected, in either order,
    the stage is 4 with the cached scope, topics and (non-empty) content
    loaded, and the status request is the only request that was sent: no
    scope extraction, no confirmation, no topic generation. *)
Lemma resume_without_status (d : string) (qc : gmap QueryKey QueryData) (sc : ScopeData)
    (tpl : string) (ts : list Topic) (ds : DocumentStatus) :
  d <> "" -> tpl <> "" ->
  qc !! documentScopeKey (Some d) = Some (QScope sc) -> is_confirmed sc = true ->
  qc !! generatedTopicsKey (Some d) tpl = Some (QTopics ts) ->
  status ds = "processed" ->
  forall s,
    s = selectTemplate tpl (watch [ds] (mount (Some d) qc))
    \/ s = watch [ds] (selectTemplate tpl (mount (Some d) qc)) ->
    analysisStep s = 4
    /\ scopeData s = Some sc
    /\ generatedTopics s = ts
    /\ (forall t (c : string), In t ts ->
          qc !! generatedContentKey (Some d) tpl (text t) = Some (QContent c) -> c <> "" ->
          text t <> "__proto__" -> generatedContent s !! text t = Some (Text c))
    /\ requests (trace s) = [getDocumentStatusAPI (Some d)].
Proof.
  intros Hne Htpl Hq Hc Hts Hst s [-> | ->].
  - destruct (watch_processed_confirmed d qc sc ds Hne Hq Hc Hst)
      as (Hd & Ht & Hs & Hsc & Hqc & Htr).
    set (w := watch [ds] (mount (Some d) qc)) in *.
    unfold selectTemplate.
    destruct (hydrationEffect_resume (setSelectedTemplate tpl w) d tpl sc ts)
      as (H1 & H2 & H3 & _ & H4 & H5); try done.
    { change (queryClient (setSelectedTemplate tpl w)) with (queryClient w).
      by rewrite Hqc. }
    change (queryClient (setSelectedTemplate tpl w)) with (queryClient w) in H4.
    rewrite Hqc in H4.
    change (trace (setSelectedTemplate tpl w)) with (trace w) in H5.
    split; [exact H1|]. split; [exact H2|]. split; [exact H3|]. split; [exact H4|].
    rewrite H5, Htr, requests_app. cbn [requests omap]. cbn.
    by rewrite requests_contentReads.
  - rewrite (mount_selected d qc Hne). unfold selectTemplate.
    rewrite (hydrationEffect_early (setSelectedTemplate tpl (initial (Some d) qc))) by done.
    set (i := setSelectedTemplate tpl (initial (Some d) qc)).
    unfold watch, statusQuery_enabled. change (docId i) with (Some d).
    rewrite (truthy_ostring_Some d Hne). cbn [poll].
    rewrite statusQuery_deliver_new by discriminate.
    set (sA := setDocumentStatus (Some ds) _).
    assert (HB : documentStatusEffect sA
                 = setAnalysisStep 3 (setScopeData (Some sc)
                     (emit (CacheRead (documentScopeKey (docId sA))) sA))).
    { apply (documentStatusEffect_confirmed sA ds sc); try done.
      unfold getScope. change (queryClient sA) with qc.
      change (docId sA) with (Some d). by rewrite Hq. }
    rewrite HB. set (sB := setAnalysisStep 3 _).
    destruct (hydrationEffect_resume sB d tpl sc ts)
      as (H1 & H2 & H3 & H0 & H4 & H5); try done.
    rewrite H0. change (documentStatus sB) with (Some ds).
    rewrite (refetchInterval_terminal ds) by by left.
    split; [exact H1|]. split; [exact H2|]. split; [exact H3|]. split; [exact H4|].
    rewrite H5. change (trace sB) with
      ([Request (getDocumentStatusAPI (Some d)); Response (getDocumentStatusAPI (Some d)) true;
        CacheRead (documentScopeKey (Some d))]).
    rewrite requests_app. cbn [requests omap]. cbn.
    by rewrite requests_contentReads.
Qed.

Example resume_without_status_doc1 :
  let s := selectTemplate tplA (watch [processed] (mount doc1 resumeCache)) in
  analysisStep s = 4
  /\ generatedTopics s = [intro; scope]
  /\ generatedContent s !! "Intro" = Some (Text "About Intro")
  /\ requests (trace s) = [getDocumentStatusAPI doc1].
Proof.
  intros s.
  destruct (resume_without_status "doc1" resumeCache (scope34 true) tplA [intro; scope]
              processed)
    with (s := s) as (H1 & _ & H3 & H4 & H5);
    [discriminate | discriminate | reflexivity | reflexivity | reflexivity | reflexivity
    | by left |].
  split; [exact H1|]. split; [exact H3|]. split; [|exact H5].
  apply (H4 intro "About Intro"); [by left | reflexivity | discriminate | discriminate].
Qed.

(** Without status data the cache is consulted only after the status request
    was sent and answered: with everything in the cache, entering the
    document consults nothing and leaves the stage at 0, and while the
    document is reported as processing the stage is 1, whatever the cache
    holds. *)
Remark resume_waits_for_status :
  let entered := mount doc1 resumeCache in
  let resumed := selectTemplate tplA (watch [processed] entered) in
  getScope (documentScopeKey doc1) entered = Some (scope34 true)
  /\ getTopics (generatedTopicsKey doc1 tplA) entered = Some [intro; scope]
  /\ analysisStep entered = 0
  /\ trace entered = []
  /\ trace resumed
     = [Request (getDocumentStatusAPI doc1);
        Response (getDocumentStatusAPI doc1) true;
        CacheRead (documentScopeKey doc1);
        CacheRead (generatedTopicsKey doc1 tplA);
        CacheRead (generatedContentKey doc1 tplA "Intro");
        CacheRead (generatedContentKey doc1 tplA "Scope")]
  /\ cacheReadBeforeRequests (trace resumed) = false
  /\ analysisStep (selectTemplate tplA (watch [processing] entered)) = 1.
Proof. vm_compute. repeat split. Qed.

(** When the status of the document is already known at the first commit,
    the status effect loads the cached scope and the effect on [docId],
    which runs after it, resets what was loaded. *)
Remark reset_runs_after_status_load :
  let s0 := setDocumentStatus (Some processed) (initial doc1 resumeCache) in
  let s := hydrationEffect (docIdEffect (documentStatusEffect s0)) in
  analysisStep (documentStatusEffect s0) = 3
  /\ scopeData (documentStatusEffect s0) = Some (scope34 true)
  /\ analysisStep s = 0
  /\ scopeData s = None.
Proof. vm_compute. repeat split. Qed.

(** ** Entering a document again *)

(** The first commit of a component mounted without status data is [mount]
    with the first request of the status query. *)
Lemma commit_initial d qc : commit (initial d qc) = watch [] (mount d qc).
Proof. destruct d as [[|a d]|]; reflexivity. Qed.

Lemma invalidateQueries_status s :
  statusQuery_enabled s = true ->
  invalidateQueries (documentStatusKey (docId s)) s
  = match documentStatus s with Some _ => statusQuery_fetch s | None => s end.
Proof.
  intros He. unfold invalidateQueries. rewrite He.
  by rewrite bool_decide_eq_true_2.
Qed.

Lemma invalidateQueries_scope s : invalidateQueries (documentScopeKey (docId s)) s = s.
Proof.
  unfold invalidateQueries. destruct (documentStatus s); [|done].
  assert (K : bool_decide (documentScopeKey (docId s) = documentStatusKey (docId s)) = false)
    by reflexivity.
  rewrite K. by rewrite andb_false_r.
Qed.

(** The effect on [docId], for a selected document. *)
Lemma docIdEffect_selected x :
  statusQuery_enabled x = true ->
  let reset := setChatHistory [] (setGeneratedContent ∅ (setGeneratedTopics []
                 (setScopeData None (setAnalysisStep 0 x)))) in
  docIdEffect x
  = match documentStatus x with Some _ => statusQuery_fetch reset | None => reset end.
Proof.
  intros He reset. unfold docIdEffect. unfold statusQuery_enabled in He. rewrite He.
  cbv zeta. fold reset.
  rewrite (invalidateQueries_status reset He).
  change (documentStatus reset) with (documentStatus x).
  destruct (documentStatus x).
  - exact (invalidateQueries_scope (statusQuery_fetch reset)).
  - exact (invalidateQueries_scope reset).
Qed.


Lemma hydrationEffect_in_early r s : analysisStep r = 0 -> hydrationEffect_in r s = s.
Proof.
  intros Hs. unfold hydrationEffect_in. cbv zeta. rewrite Hs.
  cbn [Z.eqb Z.leb Z.compare]. by rewrite !andb_false_r.
Qed.

(** Entering a selected document again: the first request of the status
    query, the status effect, and the reset of the effect on [docId] with
    the request of its invalidation. *)
Lemma reenter_selected ds d qc :
  d <> "" ->
  let y := documentStatusEffect
             (statusQuery_fetch (setDocumentStatus (Some ds) (initial (Some d) qc))) in
  reenter ds (Some d) qc
  = statusQuery_fetch
      (setChatHistory [] (setGeneratedContent ∅ (setGeneratedTopics []
         (setScopeData None (setAnalysisStep 0 y))))).
Proof.
  intros Hne y. unfold reenter, commit.
  set (r := setDocumentStatus (Some ds) (initial (Some d) qc)) in *.
  assert (He : statusQuery_enabled r = true) by exact (truthy_ostring_Some d Hne).
  rewrite He. fold y.
  rewrite (hydrationEffect_in_early r _ eq_refl).
  destruct (documentStatusEffect_frame (statusQuery_fetch r)) as (H1 & H2 & _).
  fold y in H1, H2.
  assert (Hey : statusQuery_enabled y = true).
  { unfold statusQuery_enabled. rewrite H2. exact He. }
  rewrite (docIdEffect_selected y Hey). cbv zeta. rewrite H1.
  reflexivity.
Qed.

(** C1.  Entering a document again while the query client still holds its
    status, reported as processed: whatever the cache holds for the document,
    the effect on [docId] resets what the status effect has just loaded, and
    the answer to the status request, equal to the status held, runs no
    effect.  The stage stays 0 with no scope; selecting a template loads no
    topics; the start button is enabled, and a click on it sends the scope
    extraction. *)
Theorem reentry_loses_resume (d : string) (qc : gmap QueryKey QueryData)
    (ds : DocumentStatus) (tpl : string) :
  d <> "" -> tpl <> "" -> status ds = "processed" ->
  let entered := reenter ds (Some d) qc in
  let chosen := selectTemplate tpl (poll [ds] entered) in
  let clicked := startButton_onClick idlePending chosen in
  (analysisStep entered = 0 /\ scopeData entered = None /\ queryClient entered = qc)
  /\ (analysisStep chosen = 0 /\ scopeData chosen = None /\ generatedTopics chosen = []
      /\ generatedContent chosen = ∅ /\ queryClient chosen = qc)
  /\ startButton_disabled idlePending chosen = false
  /\ requests (trace clicked)
     = [getDocumentStatusAPI (Some d); getDocumentStatusAPI (Some d);
        extractDocumentScopeAPI (Some d) true].
Proof.
  intros Hne Htpl Hst entered chosen clicked.
  pose proof (reenter_selected ds d qc Hne) as E. cbv zeta in E. fold entered in E.
  set (r := setDocumentStatus (Some ds) (initial (Some d) qc)) in E.
  destruct (documentStatusEffect_frame (statusQuery_fetch r))
    as (H1 & H2 & H3 & H4 & _ & tr1 & Htr1 & Hq1).
  set (y := documentStatusEffect (statusQuery_fetch r)) in *.
  assert (Hds : documentStatus entered = Some ds) by (rewrite E; exact H1).
  assert (Hd : docId entered = Some d) by (rewrite E; exact H2).
  assert (Hqc : queryClient entered = qc) by (rewrite E; exact H4).
  assert (Htr : requests (trace entered)
                = [getDocumentStatusAPI (Some d); getDocumentStatusAPI (Some d)]).
  { rewrite E.
    change (trace (statusQuery_fetch _))
      with (trace y ++ [Request (getDocumentStatusAPI (docId y))]).
    rewrite Htr1, H2, !requests_app, Hq1. reflexivity. }
  assert (Hs : analysisStep entered = 0) by (rewrite E; reflexivity).
  assert (Hsc : scopeData entered = None) by (rewrite E; reflexivity).
  assert (Hts : generatedTopics entered = []) by (rewrite E; reflexivity).
  assert (Hgc : generatedContent entered = ∅) by (rewrite E; reflexivity).
  assert (P : poll [ds] entered
              = emit (Response (getDocumentStatusAPI (Some d)) true) entered).
  { cbn [poll]. rewrite (statusQuery_deliver_same ds entered Hds), Hd.
    change (documentStatus (emit _ entered)) with (documentStatus entered).
    rewrite Hds, (refetchInterval_terminal ds) by by left. reflexivity. }
  assert (C : chosen = setSelectedTemplate tpl
                         (emit (Response (getDocumentStatusAPI (Some d)) true) entered)).
  { subst chosen. rewrite P. unfold selectTemplate. by apply hydrationEffect_early. }
  clearbody entered. subst chosen clicked. rewrite C.
  set (s := setSelectedTemplate tpl _).
  split; [by repeat split|]. split; [by repeat split|].
  assert (D : startButton_disabled idlePending s = false).
  { unfold startButton_disabled, statusIs, scopeConfirmed.
    change (docId s) with (docId entered). change (selectedTemplate s) with tpl.
    change (documentStatus s) with (documentStatus entered).
    change (scopeData s) with (scopeData entered).
    rewrite Hd, Hds, Hsc, (truthy_ostring_Some d Hne).
    rewrite (proj2 (truthy_string_spec tpl) Htpl).
    cbn [fmap option_fmap option_map]. rewrite Hst. reflexivity. }
  split; [exact D|].
  unfold startButton_onClick. rewrite D. unfold handleStartAnalysis.
  change (docId s) with (docId entered). change (selectedTemplate s) with tpl.
  change (documentStatus s) with (documentStatus entered).
  change (scopeData s) with (scopeData entered).
  rewrite Hd, Hds, Hsc, (truthy_ostring_Some d Hne).
  rewrite (proj2 (truthy_string_spec tpl) Htpl).
  cbn [fmap option_fmap option_map negb orb]. rewrite Hst.
  rewrite bool_decide_eq_true_2 by reflexivity. cbn [negb].
  unfold extractScopeMutation_mutate.
  change (docId s) with (docId entered). rewrite Hd.
  change (trace (emit (Request (extractDocumentScopeAPI (Some d) true)) s))
    with ((trace entered ++ [Response (getDocumentStatusAPI (Some d)) true])
          ++ [Request (extractDocumentScopeAPI (Some d) true)]).
  rewrite !requests_app, Htr. reflexivity.
Qed.

(** "doc1" is entered again with everything in the cache. *)
Lemma reentry_loses_resume_witness :
  let entered := reenter processed doc1 resumeCache in
  let chosen := selectTemplate tplA (poll [processed] entered) in
  getScope (documentScopeKey doc1) entered = Some (scope34 true)
  /\ getTopics (generatedTopicsKey doc1 tplA) entered = Some [intro; scope]
  /\ analysisStep chosen = 0
  /\ generatedTopics chosen = []
  /\ requests (trace (startButton_onClick idlePending chosen))
     = [getDocumentStatusAPI doc1; getDocumentStatusAPI doc1;
        extractDocumentScopeAPI doc1 true]
  /\ trace chosen
     = [Request (getDocumentStatusAPI doc1);
        CacheRead (documentScopeKey doc1);
        Request (getDocumentStatusAPI doc1);
        Response (getDocumentStatusAPI doc1) true].
Proof.
  intros entered chosen.
  destruct (reentry_loses_resume "doc1" resumeCache processed tplA)
    as (_ & (H1 & _ & H2 & _) & _ & H3); [discriminate | discriminate | reflexivity |].
  split; [reflexivity|]. split; [reflexivity|]. split; [exact H1|]. split; [exact H2|].
  split; [exact H3 | reflexivity].
Defined.

(** * Further properties of the component *)

(** ** Starting the analysis *)

Lemma statusIs_processed s :
  bool_decide (status <$> documentStatus s = Some "processed") = statusIs "processed" s.
Proof. reflexivity. Qed.

(** X1. [handleStartAnalysis] sends a request exactly when a document and
    a template are selected, the document is processed and no scope is
    loaded; the request is then the scope extraction with the server cache
    on.  With a scope loaded it sends nothing and sets the stage to 3 for a
    confirmed scope and to 2 for an unconfirmed one. *)
Theorem start_analysis_extracts (s : Analyze) :
  let ready := JS.truthy_ostring (docId s) && JS.truthy_string (selectedTemplate s)
               && statusIs "processed" s in
  (ready = true -> scopeData s = None ->
     handleStartAnalysis s = emit (Request (extractDocumentScopeAPI (docId s) true)) s)
  /\ (requests (trace (handleStartAnalysis s)) <> requests (trace s) ->
        ready = true /\ scopeData s = None)
  /\ (forall sc, ready = true -> scopeData s = Some sc ->
        trace (handleStartAnalysis s) = trace s
        /\ scopeData (handleStartAnalysis s) = Some sc
        /\ analysisStep (handleStartAnalysis s) = if is_confirmed sc then 3 else 2).
Proof.
  cbv zeta. unfold handleStartAnalysis. rewrite statusIs_processed.
  destruct (JS.truthy_ostring (docId s)), (JS.truthy_string (selectedTemplate s)),
    (statusIs "processed" s); cbn [negb orb andb];
    (split; [|split]); try (intros; discriminate);
    try (intros H; exfalso; apply H; reflexivity).
  - intros _ ->. reflexivity.
  - intros H. split; [done|]. destruct (scopeData s) as [sc|]; [|done].
    exfalso. apply H. destruct (is_confirmed sc); reflexivity.
  - intros sc _ Hsc. rewrite Hsc. destruct (is_confirmed sc); repeat split; exact Hsc.
Qed.

Lemma start_analysis_extracts_witness :
  let s := setDocumentStatus (Some processed) (setSelectedTemplate tplA (initial doc1 ∅)) in
  handleStartAnalysis s = emit (Request (extractDocumentScopeAPI doc1 true)) s
  /\ analysisStep (handleStartAnalysis (setAnalysisStep 4 (setScopeData (Some (scope34 true)) s)))
     = 3.
Proof.
  intros s.
  destruct (start_analysis_extracts s) as (H1 & _ & _).
  destruct (start_analysis_extracts (setAnalysisStep 4 (setScopeData (Some (scope34 true)) s)))
    as (_ & _ & H3).
  split; [apply H1; reflexivity|].
  destruct (H3 (scope34 true) eq_refl eq_refl) as (_ & _ & H). exact H.
Defined.

(** X2. When the start button is enabled, a click either sends the scope
    extraction (no scope loaded) or points to the confirmation of the
    unconfirmed scope and sets the stage to 2: none of the handler's error
    notifications can be raised from the button. *)
Theorem start_button_click (p : Pending) (s : Analyze) :
  startButton_disabled p s = false ->
  (scopeData s = None
   /\ startButton_onClick p s = emit (Request (extractDocumentScopeAPI (docId s) true)) s)
  \/ (scopeUnconfirmed s = true
      /\ startButton_onClick p s
         = setAnalysisStep 2 (toast info "Scope already extracted. Please confirm it." s)).
Proof.
  unfold startButton_onClick. intros Hd. rewrite Hd.
  unfold startButton_disabled in Hd.
  apply orb_false_elim in Hd as [Hd Hc].
  apply orb_false_elim in Hd as [Hd _].
  apply orb_false_elim in Hd as [Hd Hp].
  apply orb_false_elim in Hd as [Hd Ht].
  unfold handleStartAnalysis. rewrite statusIs_processed, Hd, Ht, Hp. cbn [orb].
  unfold scopeConfirmed in Hc. unfold scopeUnconfirmed.
  destruct (scopeData s) as [sc|]; [right|left; done].
  rewrite Hc. done.
Qed.

Lemma start_button_click_witness :
  let s := setScopeData (Some (scope34 false))
             (setDocumentStatus (Some processed) (setSelectedTemplate tplA (initial doc1 ∅))) in
  let p := {| extractScopePending := false; confirmScopePending := false;
              generateTopicsPending := false |} in
  analysisStep (startButton_onClick p s) = 2
  /\ requests (trace (startButton_onClick p s)) = [].
Proof.
  intros s p.
  destruct (start_button_click p s eq_refl) as [[H _] | [_ H]]; [discriminate H|].
  rewrite H. split; reflexivity.
Defined.

(** ** Confirming the scope *)

(** X3. Without a scope [handleConfirmScope] only raises an error.  With a
    scope it sends the confirmation, always with an empty page list.  When
    the confirmation succeeds the returned scope is stored in the state and
    under the document's key of the cache and the stage is 3, whatever the
    returned flag; when it fails, scope, stage and cache are as before and an
    error is raised. *)
Theorem confirm_scope_flow (s : Analyze) :
  (scopeData s = None -> handleConfirmScope s = toast error "No scope data to confirm." s)
  /\ (forall sc, scopeData s = Some sc ->
        let s1 := handleConfirmScope s in
        trace s1 = trace s ++ [Request (confirmDocumentScopeAPI (docId s) [])]
        /\ (forall data,
              let s2 := confirmScopeMutation_settle None (Ok data) s1 in
              scopeData s2 = Some data /\ analysisStep s2 = 3
              /\ getScope (documentScopeKey (docId s)) s2 = Some data
              /\ generatedTopics s2 = generatedTopics s)
        /\ (forall msg,
              let s2 := confirmScopeMutation_settle None (Err msg) s1 in
              scopeData s2 = Some sc /\ analysisStep s2 = analysisStep s
              /\ queryClient s2 = queryClient s
              /\ toasts s2 = toasts s ++ [mkToast error ("Failed to confirm scope: " +:+ msg)])).
Proof.
  split.
  - intros H. unfold handleConfirmScope. by rewrite H.
  - intros sc H. cbv zeta. unfold handleConfirmScope. rewrite H.
    split; [reflexivity|]. split.
    + intros data. repeat split. unfold getScope. cbn. by rewrite lookup_insert_eq.
    + intros msg. repeat split. exact H.
Qed.

Lemma confirm_scope_flow_witness :
  let s := setScopeData (Some (scope34 false)) (setAnalysisStep 2 (initial doc1 ∅)) in
  trace (handleConfirmScope s) = [Request (confirmDocumentScopeAPI doc1 [])]
  /\ analysisStep (confirmScopeMutation_settle None (Ok (scope34 false)) (handleConfirmScope s))
     = 3.
Proof.
  intros s.
  destruct (confirm_scope_flow s) as (_ & H).
  destruct (H (scope34 false) eq_refl) as (H1 & H2 & _).
  split; [exact H1|]. apply (H2 (scope34 false)).
Defined.

(** ** Scope extraction *)

Lemma documentStatusEffect_cached s ds sc :
  documentStatus s = Some ds -> status ds = "processed" ->
  getScope (documentScopeKey (docId s)) s = Some sc ->
  documentStatusEffect s
  = setAnalysisStep (if is_confirmed sc then 3 else 2)
      (setScopeData (Some sc) (emit (CacheRead (documentScopeKey (docId s))) s)).
Proof.
  intros Hds Hst Hsc. unfold documentStatusEffect. rewrite Hds, Hst. cbv zeta.
  cbn [String.eqb Ascii.eqb Bool.eqb].
  change (getScope (documentScopeKey (docId s)) (emit _ s))
    with (getScope (documentScopeKey (docId s)) s).
  rewrite Hsc. by destruct (is_confirmed sc).
Qed.

(** X4. A successful extraction stores the scope in the state and under
    the document's key of the cache and leaves the stage where it was; a
    failed one changes neither scope, stage nor cache.  The next run of the
    status effect on a processed document reads that scope back and sets the
    stage by its flag: 3 if confirmed, 2 if not. *)
Theorem extract_scope_round_trip (s : Analyze) (data : ScopeData) (ds : DocumentStatus) :
  documentStatus s = Some ds -> status ds = "processed" ->
  let s1 := extractScopeMutation_settle (Ok data) s in
  (scopeData s1 = Some data /\ analysisStep s1 = analysisStep s
   /\ getScope (documentScopeKey (docId s)) s1 = Some data)
  /\ (scopeData (documentStatusEffect s1) = Some data
      /\ analysisStep (documentStatusEffect s1) = if is_confirmed data then 3 else 2)
  /\ (forall msg,
        let s2 := extractScopeMutation_settle (Err msg) s in
        scopeData s2 = scopeData s /\ analysisStep s2 = analysisStep s
        /\ queryClient s2 = queryClient s).
Proof.
  intros Hds Hst s1.
  assert (Hg : getScope (documentScopeKey (docId s1)) s1 = Some data).
  { unfold getScope. cbn. by rewrite lookup_insert_eq. }
  split; [repeat split; exact Hg|]. split; [|by repeat split].
  rewrite (documentStatusEffect_cached s1 ds data Hds Hst Hg). by split.
Qed.

Lemma extract_scope_round_trip_witness :
  let s := setAnalysisStep 2 (setDocumentStatus (Some processed) (initial doc1 ∅)) in
  let s1 := extractScopeMutation_settle (Ok (scope34 false)) s in
  analysisStep s1 = 2
  /\ scopeData (documentStatusEffect s1) = Some (scope34 false)
  /\ analysisStep (documentStatusEffect s1) = 2.
Proof.
  intros s s1.
  destruct (extract_scope_round_trip s (scope34 false) processed eq_refl eq_refl)
    as ((_ & H1 & _) & (H2 & H3) & _).
  split; [exact H1|]. split; [exact H2 | exact H3].
Defined.

(** ** Topic generation *)

Lemma or_string_truthy a b : b <> "" -> JS.or_string a b <> "".
Proof.
  intros Hb. unfold JS.or_string. destruct a as [v|]; [|done].
  destruct (JS.truthy_string v) eqn:E; [|done]. by apply truthy_string_spec.
Qed.

(** X5. When topic generation succeeds the stage is 4 and there is one
    topic per topic of the response (none when the response has no list), in
    the same order and with the same ids; every topic has a non-empty text,
    the response's own when it has one and "Unnamed Topic" otherwise; and the
    topics are stored under the key of the document and the template. *)
Theorem generated_topics_named (data : GeneratedTopicsData) (s : Analyze) :
  let sent := default [] (topics data) in
  let s' := generateTopicsMutation_onSuccess data s in
  analysisStep s' = 4
  /\ length (generatedTopics s') = length sent
  /\ map topic_id (generatedTopics s') = map json_id sent
  /\ Forall (λ t, text t <> "") (generatedTopics s')
  /\ Forall2 (λ j t, forall x, json_text j = Some x -> x <> "" -> text t = x)
       sent (generatedTopics s')
  /\ Forall2 (λ j t, json_text j = None \/ json_text j = Some "" -> text t = "Unnamed Topic")
       sent (generatedTopics s')
  /\ getTopics (generatedTopicsKey (docId s) (selectedTemplate s)) s'
     = Some (generatedTopics s').
Proof.
  cbv zeta.
  change (generatedTopics (generateTopicsMutation_onSuccess data s))
    with (map newTopic (default [] (topics data))).
  split; [reflexivity|]. split; [apply length_map|].
  split; [by rewrite map_map|]. split; [|split; [|split]].
  - apply Forall_forall. intros t (j & <- & _)%list_elem_of_In%in_map_iff.
    by apply or_string_truthy.
  - induction (default [] (topics data)) as [|j l IH]; constructor; [|exact IH].
    intros x Hx Hne. cbn. rewrite Hx. cbn.
    by rewrite (proj2 (truthy_string_spec x) Hne).
  - induction (default [] (topics data)) as [|j l IH]; constructor; [|exact IH].
    intros [H | H]; cbn; by rewrite H.
  - unfold getTopics. cbn. by rewrite lookup_insert_eq.
Qed.

(** X6. Once topics were generated, every status response that reports
    the document as processed, with the confirmed scope in the cache, leaves
    the stage at 4 with the same topics, and nothing is sent.  A response
    that differs from the status the query holds re-runs the status effect:
    the stage goes through 3 back to 4, and the scope and the topics are read
    back from the cache.  A response equal to the status held changes
    nothing, as no effect runs. *)
Theorem topics_survive_status (s : Analyze) (d : string) (sc : ScopeData)
    (data : GeneratedTopicsData) (ds : DocumentStatus) :
  docId s = Some d -> d <> "" -> selectedTemplate s <> "" ->
  getScope (documentScopeKey (Some d)) s = Some sc -> is_confirmed sc = true ->
  status ds = "processed" ->
  let s1 := generateTopicsMutation_onSuccess data s in
  let s2 := statusQuery_deliver ds s1 in
  analysisStep s2 = 4
  /\ generatedTopics s2 = generatedTopics s1
  /\ requests (trace s2) = requests (trace s)
  /\ (documentStatus s <> Some ds ->
        scopeData s2 = Some sc
        /\ trace s2
           = trace s ++ Response (getDocumentStatusAPI (Some d)) true
                        :: CacheRead (documentScopeKey (Some d))
                        :: CacheRead (generatedTopicsKey (Some d) (selectedTemplate s))
                        :: contentReads (Some d) (selectedTemplate s) (generatedTopics s1))
  /\ (documentStatus s = Some ds ->
        s2 = emit (Response (getDocumentStatusAPI (Some d)) true) s1).
Proof.
  intros Hd Hne Ht Hsc Hc Hst s1 s2.
  destruct (decide (documentStatus s = Some ds)) as [Heq | Hneq].
  - assert (E : s2 = emit (Response (getDocumentStatusAPI (Some d)) true) s1).
    { subst s2. rewrite (statusQuery_deliver_same ds s1 Heq).
      change (docId s1) with (docId s). by rewrite Hd. }
    rewrite E. split; [reflexivity|]. split; [reflexivity|].
    split; [by apply requests_snoc_other|]. split; [done|]. intros _. reflexivity.
  - subst s2. rewrite (statusQuery_deliver_new ds s1 Hneq).
    set (sA := setDocumentStatus (Some ds) _).
    assert (HB : documentStatusEffect sA
                 = setAnalysisStep 3 (setScopeData (Some sc)
                     (emit (CacheRead (documentScopeKey (docId sA))) sA))).
    { apply (documentStatusEffect_confirmed sA ds sc); try done.
      unfold getScope in *. change (docId sA) with (docId s). rewrite Hd.
      change (queryClient sA)
        with (<[generatedTopicsKey (docId s) (selectedTemplate s)
                := QTopics (generatedTopics s1)]> (queryClient s)).
      rewrite Hd, lookup_insert_ne; [exact Hsc|]. unfold generatedTopicsKey, documentScopeKey.
      discriminate. }
    rewrite HB. set (sB := setAnalysisStep 3 _).
    destruct (hydrationEffect_resume sB d (selectedTemplate s) sc (generatedTopics s1))
      as (H1 & H2 & H3 & _ & _ & H5); try done.
    { change (queryClient sB)
        with (<[generatedTopicsKey (docId s) (selectedTemplate s)
                := QTopics (generatedTopics s1)]> (queryClient s)).
      rewrite Hd. apply lookup_insert_eq. }
    assert (Htr : trace (hydrationEffect sB)
                  = trace s ++ Response (getDocumentStatusAPI (Some d)) true
                      :: CacheRead (documentScopeKey (Some d))
                      :: CacheRead (generatedTopicsKey (Some d) (selectedTemplate s))
                      :: contentReads (Some d) (selectedTemplate s) (generatedTopics s1)).
    { rewrite H5.
      change (trace sB) with
        ((trace s ++ [Response (getDocumentStatusAPI (docId s)) true])
         ++ [CacheRead (documentScopeKey (docId s))]).
      rewrite Hd, <- !app_assoc. reflexivity. }
    split; [exact H1|]. split; [exact H3|]. split; [|split; [by split|done]].
    rewrite Htr, requests_app.
    change (requests (Response (getDocumentStatusAPI (Some d)) true
                        :: CacheRead (documentScopeKey (Some d))
                        :: CacheRead (generatedTopicsKey (Some d) (selectedTemplate s))
                        :: contentReads (Some d) (selectedTemplate s) (generatedTopics s1)))
      with (requests (contentReads (Some d) (selectedTemplate s) (generatedTopics s1))).
    by rewrite requests_contentReads, app_nil_r.
Qed.

Lemma topics_survive_status_witness :
  let s := setScopeData (Some (scope34 true))
             (setAnalysisStep 3 (setSelectedTemplate tplA
                (initial doc1 {[ documentScopeKey doc1 := QScope (scope34 true) ]}))) in
  let data := {| topics := Some [ {| json_id := Some 7; json_number := None;
                                     json_text := None; json_level := None;
                                     json_status := None; json_page := None;
                                     json_is_confirmed := None |} ] |} in
  let s2 := statusQuery_deliver processed (generateTopicsMutation_onSuccess data s) in
  analysisStep s2 = 4 /\ map text (generatedTopics s2) = ["Unnamed Topic"]
  /\ scopeData s2 = Some (scope34 true).
Proof.
  intros s data s2.
  destruct (topics_survive_status s "doc1" (scope34 true) data processed)
    as (H1 & H2 & _ & H4 & _); [reflexivity | discriminate | discriminate | reflexivity
                                | reflexivity | reflexivity |].
  split; [exact H1|]. split; [subst s2; rewrite H2; reflexivity|].
  apply H4. discriminate.
Defined.

Lemma generated_topics_named_witness :
  let unnamed := {| json_id := Some 7; json_number := None; json_text := Some "";
                    json_level := None; json_status := None; json_page := None;
                    json_is_confirmed := None |} in
  let named := {| json_id := Some 8; json_number := Some "1.1"; json_text := Some "Budget";
                  json_level := None; json_status := None; json_page := None;
                  json_is_confirmed := None |} in
  let s' := generateTopicsMutation_onSuccess {| topics := Some [unnamed; named] |}
              (setSelectedTemplate tplA (initial doc1 ∅)) in
  map text (generatedTopics s') = ["Unnamed Topic"; "Budget"]
  /\ Forall (λ t, text t <> "") (generatedTopics s')
  /\ analysisStep (generateTopicsMutation_onSuccess {| topics := None |} (initial doc1 ∅)) = 4.
Proof.
  intros unnamed named s'.
  destruct (generated_topics_named {| topics := Some [unnamed; named] |}
              (setSelectedTemplate tplA (initial doc1 ∅))) as (_ & _ & _ & H & _).
  destruct (generated_topics_named {| topics := None |} (initial doc1 ∅)) as (H4 & _).
  split; [reflexivity|]. split; [exact H | exact H4].
Defined.

(** ** Content generation *)

Lemma getContent_lookup k s v :
  queryClient s !! k = Some (QContent v) -> getContent k s = Some v.
Proof. intros H. unfold getContent. by rewrite H. Qed.

(** X7. A generation that fails leaves the content, the cache and the
    viewer as they were and unmarks the topic.  One that succeeds stores the
    text under the topic named in the response, or under the requested topic
    when the response names none, both in [generatedContent] and in the
    cache, and touches no other entry; outside a batch run it opens the
    viewer on the requested topic with that text, inside one it leaves the
    viewer alone. *)
Theorem generation_settles (s : Analyze) (topic : Topic) (mid : nat) :
  (forall msg,
     let s' := generateContentMutation_settle mid (Err msg) topic s in
     generatedContent s' = generatedContent s /\ queryClient s' = queryClient s
     /\ isModalOpen s' = isModalOpen s /\ modalContent s' = modalContent s
     /\ isLoading (contentLoadingState s') topic = false)
  /\ (forall data,
        let key := JS.or_string (gc_topic data) (text topic) in
        let s' := generateContentMutation_settle mid (Ok data) topic s in
        generatedContent s' !! key = Some (Text (gc_content data))
        /\ getContent (generatedContentKey (docId s) (selectedTemplate s) key) s'
           = Some (Text (gc_content data))
        /\ (forall k, k <> key -> generatedContent s' !! k = generatedContent s !! k)
        /\ (isBatchGeneratingRef s = false ->
              isModalOpen s' = true /\ currentTopicForModal s' = Some topic
              /\ modalContent s' = gc_content data)
        /\ (isBatchGeneratingRef s = true ->
              isModalOpen s' = isModalOpen s
              /\ currentTopicForModal s' = currentTopicForModal s
              /\ modalContent s' = modalContent s)).
Proof.
  destruct s as [? ? ? ? ? content loading ? ? batch ? ? ? ? ? ? ? ? ?].
  split.
  - intros msg. split; [reflexivity|]. split; [reflexivity|]. split; [reflexivity|].
    split; [reflexivity|].
    change (isLoading (<[text topic := false]> loading) topic = false).
    unfold isLoading. by rewrite lookup_insert_eq.
  - intros data. destruct batch.
    + split; [apply lookup_insert_eq|]. split.
      { apply getContent_lookup. apply lookup_insert_eq. }
      split; [intros k Hk; by apply lookup_insert_ne|]. split; [discriminate|].
      intros _. repeat split.
    + split; [apply lookup_insert_eq|]. split.
      { apply getContent_lookup. apply lookup_insert_eq. }
      split; [intros k Hk; by apply lookup_insert_ne|]. split; [|discriminate].
      intros _. repeat split.
Qed.

Lemma generation_settles_witness :
  let s := generateContentMutation_mutate scope (topicsReady [intro; scope] ∅) in
  let renamed := {| gc_content := "About the scope"; gc_topic := Some "2. Scope" |} in
  let s' := generateContentMutation_settle 1 (Ok renamed) scope s in
  generatedContent s' !! "2. Scope" = Some (Text "About the scope")
  /\ generatedContent s' !! "Scope" = None
  /\ isModalOpen s' = true.
Proof.
  intros s renamed s'.
  destruct (generation_settles s scope 1) as (_ & H).
  destruct (H renamed) as (H1 & _ & H3 & H4 & _).
  split; [exact H1|]. split.
  - subst s'. rewrite (H3 "Scope"); [reflexivity|discriminate].
  - apply H4. reflexivity.
Defined.

(** X8. With no generation pending, [handleGenerateOrViewContent] on a
    topic for which it reads no content (no non-empty content is stored
    under the topic's name, and with nothing stored the name is not one of
    [Object.prototype]'s) sends one generation request, for that topic under
    the selected document and template; from then on, until that generation
    settles, the handler sends nothing, whatever topic it is called on. *)
Theorem one_generation_at_a_time (s : Analyze) (t1 : Topic) :
  isPending (generateContentMutation s) = false ->
  hasContent (generatedContent s) t1 = false ->
  let s1 := handleGenerateOrViewContent t1 s in
  requests (trace s1) = requests (trace s) ++ [generationCall s t1]
  /\ isPending (generateContentMutation s1) = true
  /\ (forall t2, requests (trace (handleGenerateOrViewContent t2 s1)) = requests (trace s1))
  /\ (generatedContent s !! text t1 = None /\ inherited (text t1) = false
      \/ generatedContent s !! text t1 = Some (Text "")).
Proof.
  intros Hp Hc.
  assert (E : handleGenerateOrViewContent t1 s = generateContentMutation_mutate t1 s).
  { unfold handleGenerateOrViewContent. cbv zeta. unfold hasContent in Hc.
    by rewrite Hc, Hp. }
  cbv zeta. rewrite E. split; [apply requests_snoc_request|]. split; [reflexivity|].
  split.
  - intros t2. unfold handleGenerateOrViewContent. cbv zeta.
    set (s1 := generateContentMutation_mutate t1 s).
    change (isPending (generateContentMutation s1)) with true. cbn [andb].
    destruct (truthy_ocontent (index (generatedContent s1) (text t2))); [reflexivity|].
    destruct (isLoading (contentLoadingState s1) t2); reflexivity.
  - unfold hasContent, index in Hc.
    destruct (generatedContent s !! text t1) as [[c|n]|]; [|discriminate|].
    + right. cbn in Hc. apply negb_false_iff, String.eqb_eq in Hc. by rewrite Hc.
    + left. split; [done|]. by destruct (inherited (text t1)).
Qed.

(** "Intro" is generated, and "Scope" has to wait.  For "constructor", with
    nothing stored, the handler opens the viewer on the member it read. *)
Lemma one_generation_at_a_time_witness :
  let s := topicsReady [intro; scope; constructorTopic] ∅ in
  let s1 := handleGenerateOrViewContent intro s in
  let c1 := handleGenerateOrViewContent constructorTopic s in
  requests (trace s1) = [generateContentAPI doc1 tplA "Intro"]
  /\ requests (trace (handleGenerateOrViewContent scope s1)) = requests (trace s1)
  /\ requests (trace c1) = []
  /\ isModalOpen c1 = true
  /\ modalContent c1 = Member "constructor".
Proof.
  intros s s1 c1.
  destruct (one_generation_at_a_time s intro eq_refl eq_refl) as (H1 & _ & H2 & _).
  split; [exact H1|]. split; [apply H2|]. repeat split.
Defined.

(** ** Batch runs *)

Lemma generation_in_batch topic r s :
  isBatchGeneratingRef s = true ->
  let s1 := generateContentMutation_mutate topic s in
  let s2 := generateContentMutation_settle (started (generateContentMutation s1)) r topic s1 in
  isBatchGeneratingRef s2 = true /\ isModalOpen s2 = isModalOpen s
  /\ currentTopicForModal s2 = currentTopicForModal s /\ modalContent s2 = modalContent s.
Proof.
  destruct s as [? ? ? ? ? ? ? ? ? batch ? ? ? ? ? ? ? ? ?].
  intros H. change (batch = true) in H. subst batch.
  destruct r; repeat split.
Qed.

Lemma generation_content topic data s :
  let s1 := generateContentMutation_mutate topic s in
  let s2 := generateContentMutation_settle (started (generateContentMutation s1))
              (Ok data) topic s1 in
  generatedContent s2
  = <[JS.or_string (gc_topic data) (text topic) := Text (gc_content data)]>
      (generatedContent s).
Proof.
  destruct s as [? ? ? ? ? ? ? ? ? batch ? ? ? ? ? ? ? ? ?].
  destruct batch; reflexivity.
Qed.

Lemma hasContent_insert m key (c : string) t :
  c <> "" -> hasContent m t = true -> hasContent (<[key := Text c]> m) t = true.
Proof.
  intros Hc H. unfold hasContent, index in *.
  destruct (decide (key = text t)) as [-> | Hne].
  - rewrite lookup_insert_eq. by apply truthy_string_spec.
  - by rewrite lookup_insert_ne.
Qed.

Lemma filter_all_false {A} (p : A -> bool) (l : list A) :
  (forall x, In x l -> p x = false) -> List.filter p l = [].
Proof.
  induction l as [|x l IH]; intros H; [done|]. cbn.
  rewrite (H x (or_introl eq_refl)). apply IH. intros y Hy. apply H. by right.
Qed.

Section BatchRuns.

Variable contentService :
  list Event -> option string -> string -> string -> Result GeneratedContentData.

Lemma batchLoop_viewer content loading todo count s :
  isBatchGeneratingRef s = true ->
  let s' := (batchLoop contentService content loading todo count s).2 in
  isBatchGeneratingRef s' = true /\ isModalOpen s' = isModalOpen s
  /\ currentTopicForModal s' = currentTopicForModal s /\ modalContent s' = modalContent s.
Proof.
  revert count s. induction todo as [|topic rest IH]; intros count s Hb; [done|].
  rewrite batchLoop_cons.
  destruct (needsGeneration content loading topic); [|by apply IH].
  cbv zeta.
  set (s1 := generateContentMutation_mutate topic s).
  set (r := contentService (trace s1) (docId s1) (selectedTemplate s1) (text topic)).
  set (s2 := generateContentMutation_settle _ r topic s1).
  destruct (generation_in_batch topic r s Hb) as (H1 & H2 & H3 & H4).
  fold s1 s2 in H1, H2, H3, H4.
  destruct r as [data|msg].
  - destruct (IH (S count) s2 H1) as (G1 & G2 & G3 & G4).
    cbv zeta in G1, G2, G3, G4. rewrite G1, G2, G3, G4, H2, H3, H4. done.
  - set (s3 := toast error _ s2).
    destruct (IH count s3 H1) as (G1 & G2 & G3 & G4).
    cbv zeta in G1, G2, G3, G4. rewrite G1, G2, G3, G4.
    change (isModalOpen s3) with (isModalOpen s2).
    change (currentTopicForModal s3) with (currentTopicForModal s2).
    change (modalContent s3) with (modalContent s2).
    rewrite H2, H3, H4. done.
Qed.

(** X9. A batch run over at least one topic never opens or changes the
    viewer, whatever the service answers, and when it returns both of its
    flags, [isBatchGeneratingRef] and [isGeneratingAll], are off again. *)
Theorem batch_leaves_viewer (s : Analyze) :
  generatedTopics s <> [] ->
  let s' := handleGenerateAllContent contentService s in
  isBatchGeneratingRef s' = false /\ isGeneratingAll s' = false
  /\ isModalOpen s' = isModalOpen s
  /\ currentTopicForModal s' = currentTopicForModal s
  /\ modalContent s' = modalContent s.
Proof.
  intros Hts. cbv zeta. unfold handleGenerateAllContent.
  destruct (generatedTopics s) as [|t0 ts] eqn:E; [done|]. cbn [length Nat.eqb].
  set (s1 := toast info _ _).
  destruct (batchLoop_viewer (generatedContent s) (contentLoadingState s) (t0 :: ts) 0 s1
              eq_refl) as (_ & H2 & H3 & H4).
  destruct (batchLoop contentService _ _ (t0 :: ts) 0 s1) as [count s2].
  cbn [snd] in H2, H3, H4.
  destruct (0 <? count)%nat; (split; [reflexivity|]; split; [reflexivity|]);
    (split; [exact H2|]; split; [exact H3 | exact H4]).
Qed.

Lemma batchLoop_fills content loading todo count s :
  answersEveryTopic contentService ->
  (forall t, hasContent content t = true -> hasContent (generatedContent s) t = true) ->
  let s' := (batchLoop contentService content loading todo count s).2 in
  (forall t, hasContent (generatedContent s) t = true ->
             hasContent (generatedContent s') t = true)
  /\ (forall t, In t todo -> isLoading loading t = false ->
                hasContent (generatedContent s') t = true).
Proof.
  intros Hsvc. revert count s.
  induction todo as [|topic rest IH]; intros count s Hsnap; [by split|].
  rewrite batchLoop_cons.
  destruct (needsGeneration content loading topic) eqn:Hn.
  - cbv zeta.
    set (s1 := generateContentMutation_mutate topic s).
    destruct (Hsvc (trace s1) (docId s1) (selectedTemplate s1) (text topic))
      as (data & Hr & Hc & Hk).
    rewrite Hr.
    pose proof (generation_content topic data s) as Hgc. cbv zeta in Hgc. fold s1 in Hgc.
    rewrite Hk in Hgc.
    set (s2 := generateContentMutation_settle _ (Ok data) topic s1) in *.
    assert (Hmono : forall t, hasContent (generatedContent s) t = true ->
                              hasContent (generatedContent s2) t = true).
    { intros t Ht. rewrite Hgc. by apply hasContent_insert. }
    destruct (IH (S count) s2) as (G1 & G2); [by auto|].
    split; [by auto|]. intros t [<- | Hin] Hl; [|by auto].
    apply G1. rewrite Hgc. unfold hasContent, index. rewrite lookup_insert_eq.
    by apply truthy_string_spec.
  - destruct (IH count s Hsnap) as (G1 & G2).
    split; [exact G1|]. intros t [<- | Hin] Hl; [|by auto].
    apply G1, Hsnap. unfold needsGeneration in Hn. rewrite Hl in Hn.
    rewrite andb_true_r in Hn. by apply negb_false_iff.
Qed.

(** X10. With a service that answers every request with some text under
    the requested topic's name, no topic named after a member of
    [Object.prototype] and no generation in flight, after a batch run a
    non-empty content is stored for every topic and nothing is left to
    generate. *)
Theorem batch_fills_topics (s : Analyze) :
  answersEveryTopic contentService ->
  (forall t, In t (generatedTopics s) ->
     inherited (text t) = false /\ inFlight (contentLoadingState s) t = false) ->
  let s' := handleGenerateAllContent contentService s in
  (forall t, In t (generatedTopics s) -> storedContent (generatedContent s') t = true)
  /\ toGenerate s' = [].
Proof.
  intros Hsvc Hplain. cbv zeta.
  assert (Hl : forall t, In t (generatedTopics s) ->
                         isLoading (contentLoadingState s) t = false).
  { intros t Hin. destruct (Hplain t Hin) as [Hi Hf].
    by rewrite (isLoading_inFlight _ t Hi). }
  assert (Hall : forall t, In t (generatedTopics s) ->
            hasContent (generatedContent (handleGenerateAllContent contentService s)) t = true).
  { unfold handleGenerateAllContent.
    destruct (generatedTopics s) as [|t0 ts] eqn:E; [by intros t []|]. cbn [length Nat.eqb].
    set (s1 := toast info _ _).
    destruct (batchLoop_fills (generatedContent s) (contentLoadingState s) (t0 :: ts) 0 s1
                Hsvc) as (_ & H2); [by auto|].
    destruct (batchLoop contentService _ _ (t0 :: ts) 0 s1) as [count s2].
    cbn [snd] in H2. intros t Hin.
    destruct (0 <? count)%nat; apply H2; auto. }
  split.
  { intros t Hin. destruct (Hplain t Hin) as [Hi _].
    rewrite <- (hasContent_stored _ t Hi). by apply Hall. }
  destruct (handleGenerateAllContent_spec contentService s) as (_ & _ & _ & Hg & _ & _).
  unfold toGenerate. rewrite Hg. apply filter_all_false.
  intros t Hin. unfold needsGeneration. by rewrite (Hall t Hin).
Qed.

End BatchRuns.

Lemma batch_leaves_viewer_witness :
  let s := topicsReady [intro; scope] ∅ in
  let s' := handleGenerateAllContent flakyService s in
  isBatchGeneratingRef s' = false /\ isModalOpen s' = false.
Proof.
  intros s s'.
  assert (Hts : generatedTopics s <> []) by discriminate.
  destruct (batch_leaves_viewer flakyService s Hts) as (H1 & _ & H3 & _).
  split; [exact H1 | exact H3].
Defined.

Lemma steadyService_answers : answersEveryTopic steadyService.
Proof.
  intros tr d tpl topic. eexists. split; [reflexivity|]. split; [discriminate|].
  unfold JS.or_string. cbn. by destruct (JS.truthy_string topic).
Qed.

Lemma batch_fills_topics_witness :
  let s := topicsReady [intro; scope; budget] {[ "Intro" := Text "About Intro" ]} in
  let s' := handleGenerateAllContent steadyService s in
  storedContent (generatedContent s') budget = true /\ toGenerate s' = [].
Proof.
  intros s s'.
  assert (Hl : forall t, In t (generatedTopics s) ->
                 inherited (text t) = false /\ inFlight (contentLoadingState s) t = false)
    by (intros t [<- | [<- | [<- | []]]]; split; reflexivity).
  destruct (batch_fills_topics steadyService s steadyService_answers Hl) as (H1 & H2).
  split; [apply H1; cbn; tauto | exact H2].
Defined.

Lemma forallb_no_need content loading ts :
  forallb (λ t, hasContent content t || isLoading loading t) ts = true
  <-> List.filter (needsGeneration content loading) ts = [].
Proof.
  induction ts as [|t ts IH]; [done|]. cbn. unfold needsGeneration at 1.
  destruct (hasContent content t), (isLoading loading t); cbn; try exact IH; by split.
Qed.

(** X11. Outside a batch run, the batch button is disabled exactly when a
    batch run would have nothing to generate; when it is enabled, a run
    sends a request for some topic that has no content, whatever the
    service answers. *)
Theorem generate_all_button (s : Analyze) :
  isGeneratingAll s = false ->
  (generateAllButton_disabled s = true <-> toGenerate s = [])
  /\ (generateAllButton_disabled s = false ->
        forall service, exists t,
          In t (generatedTopics s) /\ hasContent (generatedContent s) t = false
          /\ In (generationCall s t)
               (requests (trace (handleGenerateAllContent service s)))).
Proof.
  intros Hg. unfold generateAllButton_disabled. rewrite Hg. cbn [orb].
  pose proof (forallb_no_need (generatedContent s) (contentLoadingState s)
                (generatedTopics s)) as Hiff.
  split; [exact Hiff|]. intros Hf service.
  fold (toGenerate s) in Hiff.
  destruct (toGenerate s) as [|t rest] eqn:E.
  - rewrite (proj2 Hiff eq_refl) in Hf. discriminate.
  - assert (Hin : In t (toGenerate s)) by (rewrite E; by left).
    unfold toGenerate in Hin. apply filter_In in Hin as [Hin Hn].
    exists t. split; [exact Hin|]. split.
    + unfold needsGeneration in Hn. apply andb_prop in Hn as [Hn _].
      by apply negb_true_iff.
    + destruct (handleGenerateAllContent_spec service s) as (outs & Hm & Htr & _).
      rewrite Htr, requests_app, requests_generationEvents, Hm, E.
      apply in_or_app. right. by left.
Qed.

Lemma generate_all_button_witness :
  let s := topicsReady [intro; scope] {[ "Intro" := Text "About Intro" ]} in
  generateAllButton_disabled s = false
  /\ generateAllButton_disabled (handleGenerateAllContent steadyService s) = true.
Proof.
  intros s.
  destruct (generate_all_button s eq_refl) as (_ & H).
  split; [reflexivity|].
  destruct (generate_all_button (handleGenerateAllContent steadyService s) eq_refl)
    as (H2 & _).
  apply H2. vm_compute. reflexivity.
Defined.

(** ** Viewing and saving *)

Lemma handleSaveModalContent_open s topic d :
  currentTopicForModal s = Some topic -> docId s = Some d -> d <> "" ->
  let written := setQueryData (generatedContentKey (Some d) (selectedTemplate s) (text topic))
                   (QContent (modalContent s))
                   (setGeneratedContent (<[text topic := modalContent s]> (generatedContent s))
                      s) in
  handleSaveModalContent s
  = setIsModalOpen false
      (if JS.truthy_onumber (topic_id topic)
       then emit (Request (saveDocumentContentAPI d (default 0 (topic_id topic))
                             (modalContent s))) written
       else toast info "Content saved locally. Topic ID missing for backend save." written).
Proof.
  intros Ht Hd Hne. cbv zeta.
  assert (Htd : JS.truthy_string d = true) by by apply truthy_string_spec.
  unfold handleSaveModalContent, saveContentMutation_mutate.
  rewrite Ht, Hd. cbn [JS.truthy_ostring]. rewrite Htd. cbv zeta.
  cbn [docId setQueryData setGeneratedContent setQueryClient selectedTemplate modalContent].
  rewrite Hd. cbn [JS.truthy_ostring negb default]. rewrite Htd. cbn [negb].
  destruct (JS.truthy_onumber (topic_id topic)); reflexivity.
Qed.

(** X12. Opening the viewer on a topic that has content shows that content
    and sends nothing; saving it unedited leaves [generatedContent] exactly
    as it was, closes the viewer, puts the content under the topic's key of
    the cache, and sends one save request when the topic has a non-zero id
    and none otherwise. *)
Theorem view_then_save (s : Analyze) (topic : Topic) (c d : string) :
  generatedContent s !! text topic = Some (Text c) -> c <> "" ->
  docId s = Some d -> d <> "" ->
  let s1 := handleGenerateOrViewContent topic s in
  let s2 := handleSaveModalContent s1 in
  (isModalOpen s1 = true /\ currentTopicForModal s1 = Some topic
   /\ modalContent s1 = c /\ trace s1 = trace s)
  /\ generatedContent s2 = generatedContent s
  /\ isModalOpen s2 = false
  /\ getContent (generatedContentKey (Some d) (selectedTemplate s) (text topic)) s2
     = Some (Text c)
  /\ requests (trace s2)
     = requests (trace s)
       ++ (if JS.truthy_onumber (topic_id topic)
           then [saveDocumentContentAPI d (default 0 (topic_id topic)) c] else []).
Proof.
  intros Hc Hne Hd Hdne.
  assert (E1 : handleGenerateOrViewContent topic s
               = setIsModalOpen true
                   (setModalContent c (setCurrentTopicForModal (Some topic) s))).
  { unfold handleGenerateOrViewContent, index. cbv zeta. rewrite Hc.
    cbn [truthy_ocontent truthy_content default].
    by rewrite (proj2 (truthy_string_spec c) Hne). }
  cbv zeta. rewrite E1. set (s1 := setIsModalOpen true _).
  split; [by repeat split|].
  rewrite (handleSaveModalContent_open s1 topic d eq_refl Hd Hdne).
  change (modalContent s1) with (Text c).
  change (generatedContent s1) with (generatedContent s).
  change (selectedTemplate s1) with (selectedTemplate s).
  rewrite (insert_id (generatedContent s) (text topic) (Text c) Hc).
  destruct (JS.truthy_onumber (topic_id topic)).
  - split; [reflexivity|]. split; [reflexivity|].
    split; [apply getContent_lookup, lookup_insert_eq|].
    apply requests_snoc_request.
  - split; [reflexivity|]. split; [reflexivity|].
    split; [apply getContent_lookup, lookup_insert_eq|].
    symmetry. apply app_nil_r.
Qed.

Lemma view_then_save_witness :
  let s := topicsReady [intro; scope] {[ "Intro" := Text "About Intro" ]} in
  let s2 := handleSaveModalContent (handleGenerateOrViewContent intro s) in
  generatedContent s2 = generatedContent s
  /\ requests (trace s2) = [saveDocumentContentAPI "doc1" 1 "About Intro"].
Proof.
  intros s s2.
  destruct (view_then_save s intro "About Intro" "doc1")
    as (_ & H1 & _ & _ & H2); [reflexivity | discriminate | reflexivity | discriminate |].
  split; [exact H1 | exact H2].
Defined.

(** X13. Whatever topic, content and state the save mutation is started
    with, every request it sends is a save for the selected, non-empty
    document id and the topic's non-zero id; with the document or the id
    missing it sends nothing and raises errors only. *)
Theorem save_requests_identified (topic : Topic) (c : Content) (s : Analyze) :
  let s' := saveContentMutation_mutate topic c s in
  (exists d tid,
      docId s = Some d /\ d <> "" /\ topic_id topic = Some tid /\ tid <> 0
      /\ s' = emit (Request (saveDocumentContentAPI d tid c)) s)
  \/ (trace s' = trace s
      /\ (JS.truthy_ostring (docId s) = false \/ JS.truthy_onumber (topic_id topic) = false)
      /\ exists why msg,
           toasts s' = toasts s ++ [mkToast error why; mkToast error msg]).
Proof.
  cbv zeta. unfold saveContentMutation_mutate.
  destruct (JS.truthy_ostring (docId s)) eqn:Hd; cbn [negb].
  - destruct (JS.truthy_onumber (topic_id topic)) eqn:Hi; cbn [negb].
    + left. destruct (docId s) as [d|]; [|discriminate].
      destruct (topic_id topic) as [tid|]; [|discriminate].
      exists d, tid. split; [done|]. split; [by apply truthy_string_spec|].
      split; [done|]. split; [|done]. cbn in Hi. apply negb_true_iff in Hi.
      by apply Z.eqb_neq.
    + right. split; [reflexivity|]. split; [by right|]. eexists _, _.
      unfold saveContentMutation_onError. cbn [toasts toast setToasts].
      rewrite <- app_assoc. reflexivity.
  - right. split; [reflexivity|]. split; [by left|]. eexists _, _.
    unfold saveContentMutation_onError. cbn [toasts toast setToasts].
    rewrite <- app_assoc. reflexivity.
Qed.

(** ** Chat *)

Lemma handleSendChatMessage_sent s d :
  JS.trim (currentChatMessage s) <> "" ->
  docId s = Some d -> d <> "" -> selectedTemplate s <> "" ->
  handleSendChatMessage s
  = chatMutation_mutate (currentChatMessage s) (chatHistory s) s.
Proof.
  intros Hm Hd Hne Ht. unfold handleSendChatMessage.
  rewrite (proj2 (truthy_string_spec _) Hm), Hd, (truthy_ostring_Some d Hne).
  rewrite (proj2 (truthy_string_spec _) Ht). cbn [negb orb]. cbv zeta.
  by rewrite historyForAPI_same.
Qed.

(** X14. Sending a message empties the input, so invoking the send handler
    again right away does nothing: one message, one request, one user turn.
    Without a document or a template a non-blank message is refused with an
    error and stays in the input, the transcript untouched. *)
Theorem send_once (s : Analyze) :
  JS.trim (currentChatMessage s) <> "" ->
  (JS.truthy_ostring (docId s) = true -> selectedTemplate s <> "" ->
     let s1 := handleSendChatMessage s in
     currentChatMessage s1 = ""
     /\ handleSendChatMessage s1 = s1
     /\ requests (trace s1)
        = requests (trace s)
          ++ [chatWithDocumentAPI (docId s) (selectedTemplate s) (currentChatMessage s)
                (chatHistory s)])
  /\ (JS.truthy_ostring (docId s) = false \/ selectedTemplate s = "" ->
        handleSendChatMessage s
        = toast error "Document and template must be selected for chat." s).
Proof.
  intros Hm. split.
  - intros Hd Ht. destruct (docId s) as [d|] eqn:Ed; [|discriminate].
    assert (Hne : d <> "") by by apply truthy_string_spec.
    cbv zeta. rewrite (handleSendChatMessage_sent s d Hm Ed Hne Ht).
    set (s1 := chatMutation_mutate _ _ s).
    split; [reflexivity|]. split.
    + unfold handleSendChatMessage. change (currentChatMessage s1) with "". reflexivity.
    + change (trace s1) with
        (trace s ++ [Request (chatWithDocumentAPI (docId s) (selectedTemplate s)
                                (currentChatMessage s) (chatHistory s))]).
      rewrite Ed. apply requests_snoc_request.
  - intros H. unfold handleSendChatMessage.
    rewrite (proj2 (truthy_string_spec _) Hm). cbn [negb].
    destruct H as [-> | ->]; [reflexivity|]. cbn. by rewrite orb_true_r.
Qed.

Lemma send_once_witness :
  let s := setCurrentChatMessage " What is the budget? "
             (setSelectedTemplate tplA (initial doc1 ∅)) in
  let s1 := handleSendChatMessage s in
  handleSendChatMessage s1 = s1
  /\ requests (trace s1) = [chatWithDocumentAPI doc1 tplA " What is the budget? " []].
Proof.
  intros s s1.
  assert (Hm : JS.trim (currentChatMessage s) <> "") by discriminate.
  destruct (send_once s Hm) as (H & _).
  destruct (H eq_refl) as (_ & H1 & H2); [discriminate|].
  split; [exact H1 | exact H2].
Defined.

(** X15. After a full exchange (a message is sent and answered) the
    transcript ends with the user turn and the assistant turn, while the
    transcript stored under the chat key of the cache is the one without the
    answer; a failed exchange stores nothing. *)
Theorem chat_cache_lags (s : Analyze) (d : string) :
  JS.trim (currentChatMessage s) <> "" ->
  docId s = Some d -> d <> "" -> selectedTemplate s <> "" ->
  let m := currentChatMessage s in
  let h := chatHistory s in
  let k := chatHistoryKey (Some d) (selectedTemplate s) in
  let s1 := handleSendChatMessage s in
  (forall data,
     let s2 := chatMutation_settle m h (Ok data) s1 in
     chatHistory s2 = h ++ [{| role := user; content := m |};
                            {| role := assistant; content := response data |}]
     /\ getChat k s2 = Some (h ++ [{| role := user; content := m |}]))
  /\ (forall msg, queryClient (chatMutation_settle m h (Err msg) s1) = queryClient s).
Proof.
  intros Hm Hd Hne Ht. cbv zeta.
  rewrite (handleSendChatMessage_sent s d Hm Hd Hne Ht).
  split; [|reflexivity]. intros data. split.
  - cbn [chatMutation_settle chatMutation_onSuccess chatHistory setQueryData setQueryClient
         setChatHistory emit setTrace chatMutation_mutate chatMutation_mutationFn
         chatMutation_onMutate setCurrentChatMessage].
    by rewrite <- app_assoc.
  - unfold getChat.
    cbn [chatMutation_settle chatMutation_onSuccess chatHistory setQueryData setQueryClient
         setChatHistory emit setTrace chatMutation_mutate chatMutation_mutationFn
         chatMutation_onMutate setCurrentChatMessage queryClient docId selectedTemplate].
    rewrite Hd. by rewrite lookup_insert_eq.
Qed.

Lemma chat_cache_lags_witness :
  let s := setCurrentChatMessage "hi" (setSelectedTemplate tplA (initial doc1 ∅)) in
  let s2 := chatMutation_settle "hi" [] (Ok {| response := "hello" |})
              (handleSendChatMessage s) in
  length (chatHistory s2) = 2%nat
  /\ getChat (chatHistoryKey doc1 tplA) s2 = Some [{| role := user; content := "hi" |}].
Proof.
  intros s s2.
  destruct (chat_cache_lags s "doc1") as (H & _);
    [discriminate | reflexivity | discriminate | discriminate |].
  destruct (H {| response := "hello" |}) as (H1 & H2).
  split; [rewrite (H1 : chatHistory s2 = _); reflexivity | exact H2].
Defined.

(** ** The consolidated view *)

Lemma append_assoc (a b c : string) : (a +:+ b) +:+ c = a +:+ (b +:+ c).
Proof.
  induction a as [|x a IH]; [done|].
  change (String x ((a +:+ b) +:+ c) = String x (a +:+ (b +:+ c))). by rewrite IH.
Qed.

Lemma append_empty_r (a : string) : a +:+ "" = a.
Proof.
  induction a as [|x a IH]; [done|].
  change (String x (a +:+ "") = String x a). by rewrite IH.
Qed.

(** What the component reads as the content of a topic. *)
Lemma hasContent_spec m t :
  hasContent m t = true
  <-> (exists c, m !! text t = Some c /\ truthy_content c = true)
      \/ (m !! text t = None /\ inherited (text t) = true).
Proof.
  unfold hasContent, index. destruct (m !! text t) as [c|]; cbn [truthy_ocontent].
  - split; [intros H; left; eauto|]. by intros [(c' & [= <-] & H) | [[=] _]].
  - destruct (inherited (text t)); cbn [truthy_ocontent truthy_content].
    + split; [by right|done].
    + split; [done|]. by intros [(c & [=] & _) | [_ [=]]].
Qed.

Section ViewProperties.

Variable memberText : string -> string.

Lemma viewAllLoop_spec content todo acc n :
  viewAllLoop memberText content todo acc n
  = (acc +:+ concatStrings
       (map (λ t, topicSection t
                    (contentText memberText (default (Text "") (index content (text t)))))
          (List.filter (hasContent content) todo)),
     (n + length (List.filter (hasContent content) todo))%nat).
Proof.
  revert acc n. induction todo as [|t todo IH]; intros acc n.
  - cbn. by rewrite append_empty_r, Nat.add_0_r.
  - cbn [viewAllLoop List.filter]. cbv zeta.
    destruct (hasContent content t) eqn:Hc; unfold hasContent in Hc; rewrite Hc.
    + rewrite IH. cbn [map concatStrings length]. rewrite append_assoc.
      rewrite Nat.add_succ_r. reflexivity.
    + apply IH.
Qed.

(** X16. The consolidated view holds one section per topic for which the
    component reads a content, in topic order and skipping the others,
    trimmed as a whole; it opens exactly when there is such a topic.
    Otherwise the view and its text are left as they were and a notification
    tells whether there are no topics or no content.  The content read for a
    topic is the text stored under its name, when that is not empty, and its
    section holds that text; with nothing stored under a name that
    [Object.prototype] has a member for, it is that member, and the section
    holds the text the engine gives it. *)
Theorem view_all_sections (v : ViewAll) :
  let s := component v in
  let v' := handleOpenViewAllModal memberText v in
  (withContent s <> [] ->
     v' = {| component := s; isViewAllModalOpen := true;
             viewAllModalContent :=
               JS.trim (concatStrings (map (sectionOf memberText s) (withContent s))) |})
  /\ (withContent s = [] ->
        isViewAllModalOpen v' = isViewAllModalOpen v
        /\ viewAllModalContent v' = viewAllModalContent v
        /\ component v'
           = toast info (if (length (generatedTopics s) =? 0)%nat
                         then "No topics available to display."
                         else "No content has been generated yet for any topic.") s)
  /\ (forall t,
        In t (withContent s)
        <-> In t (generatedTopics s)
            /\ ((exists c, generatedContent s !! text t = Some c /\ truthy_content c = true)
                \/ (generatedContent s !! text t = None /\ inherited (text t) = true)))
  /\ (forall t (c : string),
        generatedContent s !! text t = Some (Text c) ->
        sectionOf memberText s t = topicSection t c)
  /\ (forall t,
        generatedContent s !! text t = None -> inherited (text t) = true ->
        sectionOf memberText s t = topicSection t (memberText (text t))).
Proof.
  cbv zeta. split; [|split; [|split; [|split]]].
  - unfold handleOpenViewAllModal. cbv zeta.
    rewrite viewAllLoop_spec. fold (withContent (component v)). cbn [Nat.add].
    destruct (generatedTopics (component v)) as [|t0 ts] eqn:E.
    + intros H. exfalso. apply H. unfold withContent. by rewrite E.
    + cbn [length Nat.eqb].
      intros H. destruct (withContent (component v)) as [|w ws] eqn:Ew; [done|].
      cbn [length Nat.eqb]. reflexivity.
  - unfold handleOpenViewAllModal. cbv zeta.
    rewrite viewAllLoop_spec. fold (withContent (component v)). cbn [Nat.add].
    destruct (generatedTopics (component v)) as [|t0 ts] eqn:E.
    + by repeat split.
    + intros H. rewrite H. cbn [length Nat.eqb]. by repeat split.
  - intros t. unfold withContent. rewrite filter_In, hasContent_spec. reflexivity.
  - intros t c H. unfold sectionOf, index. by rewrite H.
  - intros t H Hi. unfold sectionOf, index. by rewrite H, Hi.
Qed.

End ViewProperties.

(** "Intro" and "Budget" have content, "Scope" has none; and a topic called
    "toString", with nothing stored, gets a section of its own. *)
Lemma view_all_sections_witness :
  let s := topicsReady [intro; scope; budget]
             (<[ "Intro" := Text "About Intro" ]> {[ "Budget" := Text "About Budget" ]}) in
  let v' := handleOpenViewAllModal v8Text
              {| component := s; isViewAllModalOpen := false; viewAllModalContent := "" |} in
  let w' := handleOpenViewAllModal v8Text
              {| component := topicsReady [mkTopic None "toString"] ∅;
                 isViewAllModalOpen := false; viewAllModalContent := "" |} in
  isViewAllModalOpen v' = true
  /\ viewAllModalContent v'
     = "## Intro" +:+ LF +:+ LF +:+ "About Intro" +:+ LF +:+ LF +:+ "---" +:+ LF +:+ LF
       +:+ "## Budget" +:+ LF +:+ LF +:+ "About Budget" +:+ LF +:+ LF +:+ "---"
  /\ isViewAllModalOpen w' = true
  /\ viewAllModalContent w'
     = "## toString" +:+ LF +:+ LF +:+ "function toString() { [native code] }"
       +:+ LF +:+ LF +:+ "---".
Proof.
  intros s v' w'.
  destruct (view_all_sections v8Text
              {| component := s; isViewAllModalOpen := false; viewAllModalContent := "" |})
    as (H & _).
  destruct (view_all_sections v8Text
              {| component := topicsReady [mkTopic None "toString"] ∅;
                 isViewAllModalOpen := false; viewAllModalContent := "" |})
    as (G & _).
  assert (Hw : withContent s <> []) by (vm_compute; discriminate).
  assert (Gw : withContent (topicsReady [mkTopic None "toString"] ∅) <> [])
    by (vm_compute; discriminate).
  specialize (H Hw). specialize (G Gw). subst v' w'. cbv zeta in H, G.
  rewrite H, G. repeat split; reflexivity.
Defined.

(** ** The pipeline display *)

Lemma statusIs_exclusive a b s : statusIs a s = true -> a <> b -> statusIs b s = false.
Proof.
  unfold statusIs. intros Ha Hne. apply bool_decide_eq_true in Ha.
  apply bool_decide_eq_false. rewrite Ha. congruence.
Qed.

Lemma scopeConfirmed_not_unconfirmed s : scopeConfirmed s = true -> scopeUnconfirmed s = false.
Proof.
  unfold scopeConfirmed, scopeUnconfirmed. destruct (scopeData s); [|done]. by intros ->.
Qed.

(** X17. While the document status is [error] every step displays
    "error".  Otherwise the display is coherent from the bottom up: when
    step 2 is complete so is step 1; step 3 is complete only with a
    confirmed scope, at stage 3 or above and with no topic generation
    pending; and step 4 is complete only at stage 4 with topics, in which
    case step 3 is complete too as soon as the scope is confirmed and no
    topic generation is pending. *)
Theorem step_display_coherent (p : Pending) (s : Analyze) :
  (statusIs "error" s = true -> forall step, getStepStatusDisplay p step s = "error")
  /\ (getStepStatusDisplay p 2 s = "complete" -> getStepStatusDisplay p 1 s = "complete")
  /\ (getStepStatusDisplay p 3 s = "complete" ->
        scopeConfirmed s = true /\ 3 <= analysisStep s /\ generateTopicsPending p = false)
  /\ (getStepStatusDisplay p 4 s = "complete" ->
        analysisStep s = 4 /\ generatedTopics s <> []
        /\ (scopeConfirmed s = true -> generateTopicsPending p = false ->
            getStepStatusDisplay p 3 s = "complete")).
Proof.
  split; [|split; [|split]].
  - intros He step. unfold getStepStatusDisplay. by rewrite He.
  - unfold getStepStatusDisplay. cbn [Z.eqb Pos.eqb].
    destruct (statusIs "error" s); [discriminate|].
    destruct (statusIs "processed" s) eqn:Hp; cbn [negb]; [|discriminate].
    destruct (generateTopicsPending p); [discriminate|].
    destruct (extractScopePending p); [discriminate|]. intros _. cbn [orb].
    rewrite (statusIs_exclusive "processed" "uploading" s Hp) by discriminate.
    rewrite (statusIs_exclusive "processed" "processing" s Hp) by discriminate.
    reflexivity.
  - unfold getStepStatusDisplay. cbn [Z.eqb Pos.eqb].
    destruct (statusIs "error" s); [discriminate|].
    destruct (scopeConfirmed s); cbn [negb]; [|discriminate].
    destruct (generateTopicsPending p); [discriminate|]. cbn [negb]. rewrite andb_true_r.
    destruct ((analysisStep s =? 3) && (length (generatedTopics s) =? 0)%nat) eqn:E1;
      [discriminate|].
    destruct (4 <=? analysisStep s) eqn:E4; cbn [orb].
    + intros _. apply Z.leb_le in E4. repeat split. lia.
    + destruct (analysisStep s =? 3) eqn:E3; cbn [andb]; [|discriminate].
      intros _. apply Z.eqb_eq in E3. repeat split. lia.
  - unfold getStepStatusDisplay. cbn [Z.eqb Pos.eqb].
    destruct (statusIs "error" s); [discriminate|].
    destruct (analysisStep s =? 4) eqn:E4; cbn [andb]; [|discriminate].
    destruct (0 <? length (generatedTopics s))%nat eqn:El; [|discriminate].
    intros _. apply Z.eqb_eq in E4. apply Nat.ltb_lt in El.
    split; [exact E4|]. split; [by destruct (generatedTopics s); [cbn in El; lia|]|].
    intros -> ->. cbn [negb andb]. rewrite E4. reflexivity.
Qed.

Lemma step_display_coherent_witness :
  let p := {| extractScopePending := false; confirmScopePending := false;
              generateTopicsPending := false |} in
  let s := setDocumentStatus (Some processed) (topicsReady [intro; scope] ∅) in
  getStepStatusDisplay p 4 s = "complete"
  /\ getStepStatusDisplay p 3 s = "complete"
  /\ getStepStatusDisplay p 1 s = "complete".
Proof.
  intros p s.
  destruct (step_display_coherent p s) as (_ & H2 & _ & H4).
  split; [reflexivity|]. split.
  - destruct (H4 eq_refl) as (_ & _ & H). apply H; reflexivity.
  - apply H2. reflexivity.
Defined.

(** ** Polling over a whole run *)

Lemma refetchInterval_terminal_iff ds :
  refetchInterval (Some ds) = if terminal ds then None else Some 5000.
Proof.
  unfold refetchInterval, terminal. cbn [fmap option_fmap option_map].
  destruct (String.eqb_spec (status ds) "processed") as [-> | H1]; [done|].
  destruct (String.eqb_spec (status ds) "error") as [-> | H2]; [done|].
  rewrite !bool_decide_eq_false_2; [done| |]; congruence.
Qed.

Lemma poll_requests responses s :
  requests (trace (poll responses s))
  = requests (trace s)
    ++ replicate (length (beforeTerminal responses)) (getDocumentStatusAPI (docId s)).
Proof.
  revert s. induction responses as [|ds rest IH]; intros s.
  - cbn. by rewrite app_nil_r.
  - cbn [poll beforeTerminal]. cbv zeta.
    destruct (statusQuery_deliver_frame ds s) as (Hd & Hdoc & _ & tr & Htr & Hq).
    rewrite Hd, refetchInterval_terminal_iff.
    destruct (terminal ds).
    + cbn. rewrite Htr, requests_app, Hq. by rewrite !app_nil_r.
    + rewrite IH. cbn [length replicate].
      change (docId (statusQuery_fetch (emit (Timer 5000) (statusQuery_deliver ds s))))
        with (docId (statusQuery_deliver ds s)).
      change (trace (statusQuery_fetch (emit (Timer 5000) (statusQuery_deliver ds s))))
        with ((trace (statusQuery_deliver ds s) ++ [Timer 5000])
              ++ [Request (getDocumentStatusAPI (docId (statusQuery_deliver ds s)))]).
      rewrite Hdoc, Htr, !requests_app, Hq. cbn [requests omap]. cbn.
      by rewrite !app_nil_r, <- app_assoc.
Qed.

(** X18. Over any sequence of status responses, the status query of a
    selected document sends one request at once and one more after each
    response that comes before the first [processed] or [error]; from that
    response on it sends nothing, whatever follows.  Polling sends nothing
    but status requests for the selected document. *)
Theorem polls_until_terminal (responses : list DocumentStatus) (s : Analyze) :
  statusQuery_enabled s = true ->
  requests (trace (watch responses s))
  = requests (trace s)
    ++ replicate (S (length (beforeTerminal responses))) (getDocumentStatusAPI (docId s)).
Proof.
  intros He. unfold watch. rewrite He, poll_requests.
  change (docId (statusQuery_fetch s)) with (docId s).
  change (trace (statusQuery_fetch s))
    with (trace s ++ [Request (getDocumentStatusAPI (docId s))]).
  rewrite requests_snoc_request, <- app_assoc. reflexivity.
Qed.

Lemma polls_until_terminal_witness :
  length (requests (trace (watch [processing; processing; processed; processing; processed]
                             (mount doc1 ∅)))) = 3%nat.
Proof.
  rewrite (polls_until_terminal _ (mount doc1 ∅) eq_refl). reflexivity.
Defined.

(** ** The status effect on the other statuses *)

(** X19. On a status other than [processed] the status effect reads no
    cache and leaves scope, topics and content alone: it only sets the stage,
    to 1 for [processing] and [uploading] and to 0 for anything else.  So
    after the effect the stage is between 0 and 3 whatever it was before,
    even when topics are on display. *)
Theorem status_effect_sets_stage (s : Analyze) (ds : DocumentStatus) :
  documentStatus s = Some ds ->
  let s' := documentStatusEffect s in
  (status ds <> "processed" ->
     s' = setAnalysisStep (if String.eqb (status ds) "processing"
                              || String.eqb (status ds) "uploading" then 1 else 0) s)
  /\ 0 <= analysisStep s' <= 3
  /\ generatedTopics s' = generatedTopics s
  /\ generatedContent s' = generatedContent s.
Proof.
  intros Hds. cbv zeta. unfold documentStatusEffect. rewrite Hds.
  destruct (String.eqb_spec (status ds) "processed") as [Hp | Hp].
  - split; [done|]. cbv zeta. unfold getScope. rewrite emit_queryClient.
    destruct (queryClient s !! documentScopeKey (docId s)) as [[sc| | |]|];
      try destruct (is_confirmed sc); repeat split; cbn; lia.
  - split; [intros _; by destruct (_ || _)|].
    destruct (_ || _); repeat split; cbn; lia.
Qed.

Lemma status_effect_sets_stage_witness :
  let failed := {| status := "error"; message := "ocr failed"; pages := None;
                   progress := None |} in
  let s := setDocumentStatus (Some failed) (topicsReady [intro; scope] ∅) in
  analysisStep (documentStatusEffect s) = 0
  /\ generatedTopics (documentStatusEffect s) = [intro; scope].
Proof.
  intros failed s.
  destruct (status_effect_sets_stage s failed eq_refl) as (H1 & _ & H3 & _).
  rewrite H1 by discriminate. split; reflexivity.
Defined.

(** ** The hydration effect settles *)

Lemma hydrationEffect_idle s :
  JS.truthy_string (selectedTemplate s) = true -> (analysisStep s =? 3) = false ->
  hydrationEffect s = s.
Proof.
  intros Ht Hs. unfold hydrationEffect, hydrationEffect_in. cbv zeta. rewrite Ht, Hs.
  cbn [negb andb]. by rewrite !andb_false_r.
Qed.

Lemma hydrationEffect_miss s :
  JS.truthy_ostring (docId s) = true -> JS.truthy_string (selectedTemplate s) = true ->
  (analysisStep s =? 3) = true -> scopeConfirmed s = true ->
  getTopics (generatedTopicsKey (docId s) (selectedTemplate s)) s = None ->
  hydrationEffect s = emit (CacheRead (generatedTopicsKey (docId s) (selectedTemplate s))) s.
Proof.
  intros Hd Ht Hs Hc Hg. unfold hydrationEffect, hydrationEffect_in. cbv zeta. rewrite Hd, Ht, Hs, Hc.
  cbn [negb andb].
  change (getTopics (generatedTopicsKey (docId s) (selectedTemplate s)) (emit _ s))
    with (getTopics (generatedTopicsKey (docId s) (selectedTemplate s)) s).
  by rewrite Hg.
Qed.

Lemma hydrationEffect_clear s :
  JS.truthy_string (selectedTemplate s) = false -> (3 <=? analysisStep s) = true ->
  hydrationEffect s
  = setAnalysisStep
      (match scopeData s with
       | Some sc => if is_confirmed sc then 3 else 2
       | None => 0
       end)
      (setGeneratedContent ∅ (setGeneratedTopics [] s)).
Proof.
  intros Ht Hs. unfold hydrationEffect, hydrationEffect_in. cbv zeta. rewrite Ht, Hs.
  rewrite andb_false_r. cbn [negb andb].
  destruct (scopeData s) as [sc|]; [|done]. by destruct (is_confirmed sc).
Qed.

Lemma hydrationEffect_rest s :
  JS.truthy_ostring (docId s) && JS.truthy_string (selectedTemplate s)
    && (analysisStep s =? 3) && scopeConfirmed s = false ->
  negb (JS.truthy_string (selectedTemplate s)) && (3 <=? analysisStep s) = false ->
  hydrationEffect s = s.
Proof. intros H1 H2. unfold hydrationEffect, hydrationEffect_in. cbv zeta. by rewrite H1, H2. Qed.

(** X20. The hydration effect settles after one run: run again on its own
    result it changes neither stage, topics, content, scope nor template, so
    the re-run that its own state changes trigger is the last. *)
Theorem hydration_settles (s : Analyze) :
  let s' := hydrationEffect s in
  let s'' := hydrationEffect s' in
  analysisStep s'' = analysisStep s'
  /\ generatedTopics s'' = generatedTopics s'
  /\ generatedContent s'' = generatedContent s'
  /\ scopeData s'' = scopeData s'
  /\ selectedTemplate s'' = selectedTemplate s'.
Proof.
  cbv zeta.
  destruct (JS.truthy_string (selectedTemplate s)) eqn:Ht.
  - destruct (JS.truthy_ostring (docId s) && (analysisStep s =? 3) && scopeConfirmed s)
      eqn:Hc.
    + apply andb_prop in Hc as [Hc Hsc]. apply andb_prop in Hc as [Hd Hs].
      destruct (getTopics (generatedTopicsKey (docId s) (selectedTemplate s)) s)
        as [ts|] eqn:Hg.
      * destruct (docId s) as [d|] eqn:Ed; [|discriminate].
        assert (Hload := hydrationEffect_load s d ts Ed).
        rewrite Ed in Hload.
        assert (Hne : d <> "") by by apply truthy_string_spec.
        assert (Htne : selectedTemplate s <> "") by by apply truthy_string_spec.
        apply Z.eqb_eq in Hs.
        specialize (Hload Hne Htne Hs Hsc Hg). cbv zeta in Hload. rewrite Hload.
        set (s1 := setAnalysisStep 4 _).
        pose proof (loadCachedContent_state (Some d) (selectedTemplate s) ts ∅ s1) as Hst.
        set (r := toast info _ _).
        assert (Hr : hydrationEffect r = r).
        { apply hydrationEffect_idle.
          - subst r. cbn [selectedTemplate toast setToasts setGeneratedContent].
            rewrite Hst. exact Ht.
          - subst r. cbn [analysisStep toast setToasts setGeneratedContent].
            rewrite Hst. reflexivity. }
        by rewrite Hr.
      * rewrite (hydrationEffect_miss s Hd Ht Hs Hsc Hg).
        set (e := CacheRead _).
        rewrite (hydrationEffect_miss (emit e s) Hd Ht Hs Hsc Hg). by repeat split.
    + assert (H1 : JS.truthy_ostring (docId s) && JS.truthy_string (selectedTemplate s)
                     && (analysisStep s =? 3) && scopeConfirmed s = false).
      { rewrite Ht, andb_true_r. exact Hc. }
      assert (H2 : negb (JS.truthy_string (selectedTemplate s)) && (3 <=? analysisStep s)
                   = false) by by rewrite Ht.
      by rewrite !(hydrationEffect_rest s H1 H2).
  - destruct (3 <=? analysisStep s) eqn:Hs.
    + rewrite (hydrationEffect_clear s Ht Hs).
      set (x := match scopeData s with Some sc => if is_confirmed sc then 3 else 2
                                     | None => 0 end).
      set (s' := setAnalysisStep x _).
      destruct (3 <=? x) eqn:Hx.
      * rewrite (hydrationEffect_clear s' Ht Hx). repeat split.
      * assert (H1 : JS.truthy_ostring (docId s') && JS.truthy_string (selectedTemplate s')
                       && (analysisStep s' =? 3) && scopeConfirmed s' = false).
        { change (selectedTemplate s') with (selectedTemplate s). rewrite Ht.
          by rewrite andb_false_r. }
        assert (H2 : negb (JS.truthy_string (selectedTemplate s'))
                     && (3 <=? analysisStep s') = false).
        { change (analysisStep s') with x. rewrite Hx. apply andb_false_r. }
        by rewrite (hydrationEffect_rest s' H1 H2).
    + assert (H1 : JS.truthy_ostring (docId s) && JS.truthy_string (selectedTemplate s)
                     && (analysisStep s =? 3) && scopeConfirmed s = false).
      { rewrite Ht. by rewrite andb_false_r. }
      assert (H2 : negb (JS.truthy_string (selectedTemplate s)) && (3 <=? analysisStep s)
                   = false) by (rewrite Hs; apply andb_false_r).
      by rewrite !(hydrationEffect_rest s H1 H2).
Qed.

(** ** Without a document *)



(** ** Generating topics *)

(** X22. With a document and a template selected and the scope confirmed,
    [handleGenerateTopics] sends one topic-generation request for that
    document and template.  When the request fails, stage, topics and cache
    are as before and an error is raised, so the request can be repeated;
    when it succeeds the stage is 4. *)
Theorem generate_topics_flow (s : Analyze) (d : string) :
  docId s = Some d -> d <> "" -> selectedTemplate s <> "" -> scopeConfirmed s = true ->
  let s1 := handleGenerateTopics s in
  s1 = emit (Request (generateTopicsAPI (Some d) (selectedTemplate s))) s
  /\ (forall msg,
        let s2 := generateTopicsMutation_settle (Err msg) s1 in
        analysisStep s2 = analysisStep s /\ generatedTopics s2 = generatedTopics s
        /\ queryClient s2 = queryClient s
        /\ toasts s2 = toasts s ++ [mkToast error ("Failed to generate topics: " +:+ msg)]
        /\ requests (trace (handleGenerateTopics s2))
           = requests (trace s)
             ++ [generateTopicsAPI (Some d) (selectedTemplate s);
                 generateTopicsAPI (Some d) (selectedTemplate s)])
  /\ (forall data, analysisStep (generateTopicsMutation_settle (Ok data) s1) = 4).
Proof.
  intros Hd Hne Ht Hc.
  assert (E : forall x, docId x = Some d -> selectedTemplate x = selectedTemplate s ->
                scopeConfirmed x = true ->
                handleGenerateTopics x
                = emit (Request (generateTopicsAPI (Some d) (selectedTemplate s))) x).
  { intros x Hx Hxt Hxc. unfold handleGenerateTopics, generateTopicsMutation_mutate.
    rewrite Hx, Hxt, Hxc, (truthy_ostring_Some d Hne).
    by rewrite (proj2 (truthy_string_spec _) Ht). }
  cbv zeta. rewrite (E s Hd eq_refl Hc).
  split; [reflexivity|]. split; [|reflexivity].
  intros msg. set (s2 := generateTopicsMutation_settle _ _).
  split; [reflexivity|]. split; [reflexivity|]. split; [reflexivity|].
  split; [reflexivity|].
  rewrite (E s2 Hd eq_refl Hc).
  change (trace (emit (Request (generateTopicsAPI (Some d) (selectedTemplate s))) s2))
    with (((trace s ++ [Request (generateTopicsAPI (Some d) (selectedTemplate s))])
           ++ [Response (generateTopicsAPI (docId s) (selectedTemplate s)) false])
          ++ [Request (generateTopicsAPI (Some d) (selectedTemplate s))]).
  rewrite !requests_app. cbn [requests omap]. cbn.
  by rewrite app_nil_r, <- app_assoc.
Qed.

Lemma generate_topics_flow_witness :
  let s := setScopeData (Some (scope34 true))
             (setAnalysisStep 3 (setSelectedTemplate tplA (initial doc1 ∅))) in
  requests (trace (handleGenerateTopics s)) = [generateTopicsAPI doc1 tplA]
  /\ analysisStep (generateTopicsMutation_settle (Err "503") (handleGenerateTopics s)) = 3.
Proof.
  intros s.
  destruct (generate_topics_flow s "doc1") as (H1 & H2 & _);
    [reflexivity | discriminate | discriminate | reflexivity |].
  split; [rewrite H1; reflexivity|].
  destruct (H2 "503") as (H & _). exact H.
Defined.
